(** * Luno market maker bot: a shallow embedding of [market_maker_bot.py]

    The bot is a polling loop around a REST gateway.  The embedding keeps
    - Python values as the JSON decoder produces them ([pyval]);
    - Python floats behind an interface ([PyFloat]) with two instances:
      IEEE binary64 as the interpreter has it ([B64], on the Standard
      Library's [spec_float]) and exact rationals ([Exact]), used where a
      statement is about the arithmetic itself rather than its rounding;
    - exceptions and the request/log/sleep effects in a small monad [M]
      that records every effect in a trace. *)

From Stdlib Require Import ZArith QArith Qabs String Ascii List Bool Lia Lqa.
From Stdlib Require Import SpecFloat.
Import ListNotations.

Local Open Scope string_scope.
Local Open Scope list_scope.
Local Open Scope Z_scope.

Set Implicit Arguments.
Set Warnings "-register-all".

(* ================================================================== *)
(** * Part I: definitions                                               *)
(* ================================================================== *)

(** ** Float literals: the grammar of [float(str)] *)

Module Lex.

Definition is_digit (c : ascii) : bool :=
  let n := nat_of_ascii c in (48 <=? n)%nat && (n <=? 57)%nat.

Definition digit_val (c : ascii) : Z := Z.of_nat (nat_of_ascii c) - 48.

(** [str.strip()] on ASCII: space, \t, \n, \v, \f, \r. *)
Definition is_space (c : ascii) : bool :=
  let n := nat_of_ascii c in
  (n =? 32)%nat || ((9 <=? n)%nat && (n <=? 13)%nat).

Definition lower (c : ascii) : ascii :=
  let n := nat_of_ascii c in
  if (65 <=? n)%nat && (n <=? 90)%nat then ascii_of_nat (n + 32) else c.

Fixpoint lstrip (s : list ascii) : list ascii :=
  match s with
  | c :: s' => if is_space c then lstrip s' else s
  | [] => []
  end.

Definition strip (s : list ascii) : list ascii :=
  rev (lstrip (rev (lstrip s))).

Definition starts_digit (s : list ascii) : bool :=
  match s with
  | c :: _ => is_digit c
  | [] => false
  end.

(** A run of digits; an underscore is taken only between two digits. *)
Fixpoint read_digits (acc : Z) (n : nat) (after_digit : bool)
         (s : list ascii) : Z * nat * list ascii :=
  match s with
  | c :: s' =>
      if is_digit c then read_digits (acc * 10 + digit_val c) (S n) true s'
      else if (Ascii.eqb c "_" && after_digit && starts_digit s')%bool
           then read_digits acc n false s'
           else (acc, n, s)
  | [] => (acc, n, [])
  end.

Definition read_sign (s : list ascii) : bool * list ascii :=
  match s with
  | "-"%char :: s' => (true, s')
  | "+"%char :: s' => (false, s')
  | _ => (false, s)
  end.

(** What a numeric string denotes before it is rounded to a float. *)
Inductive literal :=
| LitDec (neg : bool) (m : Z) (k : Z)      (* (-1)^neg * m * 10^k *)
| LitInf (neg : bool)
| LitNan.

Definition list_eqb (a b : list ascii) : bool :=
  String.eqb (string_of_list_ascii a) (string_of_list_ascii b).

Definition read_exponent (s : list ascii) : option Z :=
  match s with
  | [] => Some 0
  | c :: s' =>
      if Ascii.eqb (lower c) "e" then
        let '(neg, s1) := read_sign s' in
        let '(e, n, rest) := read_digits 0 0 false s1 in
        match n, rest with
        | S _, [] => Some (if neg then - e else e)
        | _, _ => None
        end
      else None
  end.

Definition read_decimal (neg : bool) (s : list ascii) : option literal :=
  let '(ip, ni, s1) := read_digits 0 0 false s in
  let '(m, nf, s2) :=
    match s1 with
    | "."%char :: s1' => read_digits ip 0 false s1'
    | _ => (ip, O, s1)
    end in
  match (ni + nf)%nat with
  | O => None
  | S _ =>
      match read_exponent s2 with
      | Some e => Some (LitDec neg m (e - Z.of_nat nf))
      | None => None
      end
  end.

Definition parse (str : string) : option literal :=
  let '(neg, s) := read_sign (strip (list_ascii_of_string str)) in
  let low := map lower s in
  if list_eqb low (list_ascii_of_string "inf")
     || list_eqb low (list_ascii_of_string "infinity")
  then Some (LitInf neg)
  else if list_eqb low (list_ascii_of_string "nan") then Some LitNan
  else read_decimal neg s.

End Lex.

(** ** The float interface *)

Class PyFloat (F : Type) := {
  fadd : F -> F -> F;
  fsub : F -> F -> F;
  fmul : F -> F -> F;
  fopp : F -> F;
  (** [x / y] for a divisor that is not zero *)
  fdiv : F -> F -> F;
  (** [x == 0], true of both signed zeros *)
  fis_zero : F -> bool;
  (** [x < y]; false as soon as one side is a nan *)
  fltb : F -> F -> bool;
  (** [round(x, ndigits)] with [ndigits >= 0]: a float again *)
  fround : nat -> F -> F;
  (** the float nearest to [m * 10^k] *)
  fdec : Z -> Z -> F;
  (** infinities and nan, where the instance has them *)
  finf : bool -> option F;
  fnan : option F;
  fis_inf : F -> bool
}.

(** What the program's own literals need of the arithmetic. *)
Class PyFloatLaws (F : Type) `{PyFloat F} := {
  two_nonzero : fis_zero (fdec 2 0) = false;
  hundred_nonzero : fis_zero (fdec 100 0) = false;
  positive_nonzero : forall x, fltb (fdec 0 0) x = true -> fis_zero x = false
}.

Arguments PyFloatLaws F {_}.

(** Round half to even of the rational [n / d], [d > 0]. *)
Definition round_half_even (n d : Z) : Z :=
  let q := n / d in
  let r := n mod d in
  match 2 * r ?= d with
  | Lt => q
  | Gt => q + 1
  | Eq => if Z.even q then q else q + 1
  end.

(** ** IEEE binary64, as CPython's [float] *)

Module B64.

Definition prec : Z := 53.
Definition emax : Z := 1024.

Abbreviation float := spec_float.

Definition add : float -> float -> float := SFadd prec emax.
Definition sub : float -> float -> float := SFsub prec emax.
Definition mul : float -> float -> float := SFmul prec emax.
Definition div : float -> float -> float := SFdiv prec emax.
Definition ltb : float -> float -> bool := SFltb.

Definition is_zero (x : float) : bool :=
  match x with
  | S754_zero _ => true
  | _ => false
  end.

Definition is_inf (x : float) : bool :=
  match x with
  | S754_infinity _ => true
  | _ => false
  end.


(** The correctly rounded quotient of two positive integers. *)
Definition of_ratio (neg : bool) (n d : positive) : float :=
  SFdiv prec emax (S754_finite neg n 0) (S754_finite false d 0).

Definition of_Z (z : Z) : float := binary_normalize prec emax z 0 false.

Definition dec (m k : Z) : float :=
  match m with
  | Z0 => S754_zero false
  | Zpos p =>
      if 0 <=? k then of_Z (m * 10 ^ k)
      else of_ratio false p (Z.to_pos (10 ^ (- k)))
  | Zneg p =>
      if 0 <=? k then of_Z (m * 10 ^ k)
      else of_ratio true p (Z.to_pos (10 ^ (- k)))
  end.

(** [float.__round__] with an explicit [ndigits]: nan and the infinities
    round to themselves, beyond 323 digits so does every float, otherwise
    the value is rounded half-even at [ndigits] decimals and the decimal
    is converted back to the nearest float. *)
Definition round (nd : nat) (x : float) : float :=
  match x with
  | S754_finite s m e =>
      if (323 <? nd)%nat then x
      else
        let p := 10 ^ Z.of_nat nd in
        let n := if 0 <=? e
                 then Z.pos m * 2 ^ e * p
                 else round_half_even (Z.pos m * p) (2 ^ (- e)) in
        match n with
        | Zpos q => of_ratio s q (Z.to_pos p)
        | _ => S754_zero s
        end
  | _ => x
  end.

#[global] Instance b64 : PyFloat float := {|
  fadd := add; fsub := sub; fmul := mul; fopp := SFopp; fdiv := div;
  fis_zero := is_zero; fltb := ltb; fround := round;
  fdec := dec;
  finf := fun s => Some (S754_infinity s);
  fnan := Some S754_nan;
  fis_inf := is_inf
|}.

End B64.

(** ** Exact rationals: the arithmetic without rounding error, overflow,
    infinities or nan *)

Module Exact.

Abbreviation float := Q.

Definition is_zero (x : Q) : bool := Qnum x =? 0.
Definition ltb (x y : Q) : bool := negb (Qle_bool y x).

Definition dec (m k : Z) : Q :=
  if 0 <=? k then inject_Z (m * 10 ^ k)
  else Qmake m (Z.to_pos (10 ^ (- k))).

Definition round (nd : nat) (x : Q) : Q :=
  let p := Z.to_pos (10 ^ Z.of_nat nd) in
  Qmake (round_half_even (Qnum x * Z.pos p) (Z.pos (Qden x))) p.


#[global] Instance exact : PyFloat Q := {|
  fadd := Qplus; fsub := Qminus; fmul := Qmult; fopp := Qopp; fdiv := Qdiv;
  fis_zero := is_zero; fltb := ltb; fround := round;
  fdec := dec;
  finf := fun _ => None;
  fnan := None;
  fis_inf := fun _ => false
|}.

End Exact.

(** ** Python values, exceptions and outcomes *)

Inductive exn :=
| KeyError (key : string)
| TypeError
| ValueError
| AttributeError
| ZeroDivisionError
| OverflowError
| JSONDecodeError          (* [response.json()] on a body that is not JSON *)
| ConnectionError          (* what [requests] raises when no response comes *)
| KeyboardInterrupt
| SystemExit.

(** [except Exception] catches everything but the two that derive from
    [BaseException] only. *)
Definition is_Exception (e : exn) : bool :=
  match e with
  | KeyboardInterrupt | SystemExit => false
  | _ => true
  end.

(** [Running] is the outcome of a loop that is still going when the fuel
    given to it is spent; no handler catches it. *)
Inductive outcome (A : Type) :=
| Ok (a : A)
| Raise (e : exn)
| Running.

Arguments Ok {A} a.
Arguments Raise {A} e.
Arguments Running {A}.

Definition obind {A B} (r : outcome A) (f : A -> outcome B) : outcome B :=
  match r with
  | Ok a => f a
  | Raise e => Raise e
  | Running => Running
  end.

Notation "x <~ r ; k" := (obind r (fun x => k))
  (at level 61, r at next level, right associativity).

(** The first item under a key, in a dict or in the fields of a request. *)
Fixpoint lookup {A : Type} (k : string) (d : list (string * A)) : option A :=
  match d with
  | (k', v) :: d' => if String.eqb k k' then Some v else lookup k d'
  | [] => None
  end.

Section Values.

Context {F : Type} `{PyFloat F}.

(** A decoded JSON document.  A dict keeps its items in order; its keys
    are distinct. *)
Inductive pyval :=
| PNone
| PBool (b : bool)
| PInt (z : Z)
| PFloat (x : F)
| PStr (s : string)
| PList (l : list pyval)
| PDict (d : list (string * pyval)).

(** [bool(v)] *)
Definition truthy (v : pyval) : bool :=
  match v with
  | PNone => false
  | PBool b => b
  | PInt z => negb (z =? 0)
  | PFloat x => negb (fis_zero x)
  | PStr s => negb (String.eqb s "")
  | PList l => match l with [] => false | _ => true end
  | PDict d => match d with [] => false | _ => true end
  end.

(** [v == s] for a str [s] *)
Definition py_eq_str (v : pyval) (s : string) : bool :=
  match v with
  | PStr s' => String.eqb s' s
  | _ => false
  end.

Fixpoint is_substring (k s : string) : bool :=
  String.prefix k s ||
  match s with
  | String _ s' => is_substring k s'
  | EmptyString => false
  end.

(** [k in v] for a str [k] *)
Definition py_contains (k : string) (v : pyval) : outcome bool :=
  match v with
  | PDict d => Ok (match lookup k d with Some _ => true | None => false end)
  | PList l => Ok (existsb (fun x => py_eq_str x k) l)
  | PStr s => Ok (is_substring k s)
  | _ => Raise TypeError
  end.

(** [v[k]] for a str [k] *)
Definition py_getitem (v : pyval) (k : string) : outcome pyval :=
  match v with
  | PDict d => match lookup k d with
               | Some x => Ok x
               | None => Raise (KeyError k)
               end
  | _ => Raise TypeError
  end.

(** [v.get(k, default)] *)
Definition py_get (v : pyval) (k : string) (default : pyval)
  : outcome pyval :=
  match v with
  | PDict d => Ok (match lookup k d with Some x => x | None => default end)
  | _ => Raise AttributeError
  end.

Fixpoint chars (s : string) : list pyval :=
  match s with
  | String c s' => PStr (String c EmptyString) :: chars s'
  | EmptyString => []
  end.

(** the items [for x in v] goes through *)
Definition py_iter (v : pyval) : outcome (list pyval) :=
  match v with
  | PList l => Ok l
  | PDict d => Ok (map (fun kv => PStr (fst kv)) d)
  | PStr s => Ok (chars s)
  | _ => Raise TypeError
  end.

Definition of_literal (l : Lex.literal) : option F :=
  match l with
  | Lex.LitDec neg m k => Some (if neg then fopp (fdec m k) else fdec m k)
  | Lex.LitInf neg => finf neg
  | Lex.LitNan => fnan
  end.

(** [float(v)] *)
Definition to_float (v : pyval) : outcome F :=
  match v with
  | PStr s => match Lex.parse s with
              | Some l => match of_literal l with
                          | Some x => Ok x
                          | None => Raise ValueError
                          end
              | None => Raise ValueError
              end
  | PInt z => if fis_inf (fdec z 0) then Raise OverflowError
              else Ok (fdec z 0)
  | PFloat x => Ok x
  | PBool b => Ok (fdec (if b then 1 else 0) 0)
  | _ => Raise TypeError
  end.

(** [x / y] *)
Definition py_truediv (x y : F) : outcome F :=
  if fis_zero y then Raise ZeroDivisionError else Ok (fdiv x y).

(** [s[n:]] and [s[:n]] on ASCII text *)
Definition slice_from (n : nat) (s : string) : string :=
  string_of_list_ascii (skipn n (list_ascii_of_string s)).
Definition slice_to (n : nat) (s : string) : string :=
  string_of_list_ascii (firstn n (list_ascii_of_string s)).

(** Only immutable values hash; a list or a dict as a dict key is a
    [TypeError]. *)
Definition hashable (v : pyval) : bool :=
  match v with
  | PList _ | PDict _ => false
  | _ => true
  end.

End Values.

Arguments pyval F : clear implicits.

(** ** Effects: requests, log lines, sleeping *)

Section Effects.

Context {F : Type} `{PyFloat F}.

(** A value of a query string or of a form body.  [FFixed d x] is the
    text of [f"{x:.{d}f}"], kept as the float and the digit count. *)
Inductive field :=
| FStr (s : string)
| FVal (v : pyval F)
| FFixed (digits : nat) (x : F).

(** [requests.get(url, params=...)] or [requests.post(url, data=...)]
    on [BASE_URL/endpoint]; [None] and the empty dict both send no
    field. *)
Record request := {
  method : string;
  endpoint : string;
  payload : list (string * field)
}.

(** The lines [log] prints, before their rendering as text. *)
Inductive logmsg :=
| LogApiError (status : Z) (body : string)
| LogCreated (order_type pair : string) (volume price : F)
             (order_id : pyval F)
| LogCreateFailed (order_type pair : string)
| LogCancelled (order_id : pyval F)
| LogCancelFailed (order_id : pyval F)
| LogFailedBalances
| LogProcessing (pair : string)
| LogFailedTicker (pair : string)
| LogStarting
| LogMissingCredentials
| LogPlacing
| LogWaiting (minutes : Z)
| LogStopped
| LogUnexpected (e : exn).

Inductive event :=
| EvRequest (r : request)
| EvLog (m : logmsg)
| EvSleep (seconds : Z).

Definition trace := list event.

(** [json = None]: the body does not decode. *)
Record response := {
  status_code : Z;
  text : string;
  json : option (pyval F)
}.

Inductive reply :=
| Replied (r : response)
| Failed (e : exn).

(** The world outside the process, as a function of what the process
    has done so far: the venue answering a request, [time.sleep]
    returning or being interrupted, and the clock. *)
Record gateway := {
  send : trace -> request -> reply;
  nap : trace -> Z -> option exn;
  clock : trace -> F
}.

(** A computation reads the history and yields an outcome together
    with the events it added. *)
Definition M (A : Type) := trace -> outcome A * trace.

Definition ret {A} (a : A) : M A := fun _ => (Ok a, []).

Definition bind {A B} (m : M A) (f : A -> M B) : M B :=
  fun h =>
    match m h with
    | (Ok a, es) => let '(r, es') := f a (h ++ es) in (r, es ++ es')
    | (Raise e, es) => (Raise e, es)
    | (Running, es) => (Running, es)
    end.

Definition lift {A} (r : outcome A) : M A := fun _ => (r, []).

(** [try: m except ...: handler e]; [handler e = None] when no clause
    matches [e]. *)
Definition try_except {A} (m : M A) (handler : exn -> option (M A)) : M A :=
  fun h =>
    match m h with
    | (Raise e, es) =>
        match handler e with
        | Some k => let '(r, es') := k (h ++ es) in (r, es ++ es')
        | None => (Raise e, es)
        end
    | other => other
    end.

End Effects.

Arguments field F : clear implicits.
Arguments request F : clear implicits.
Arguments logmsg F : clear implicits.
Arguments event F : clear implicits.
Arguments trace F : clear implicits.
Arguments response F : clear implicits.
Arguments reply F : clear implicits.
Arguments gateway F : clear implicits.
Arguments M F A : clear implicits.

Notation "x <- m ;; k" := (bind m (fun x => k))
  (at level 61, m at next level, right associativity).
Notation "m ;; k" := (bind m (fun _ => k))
  (at level 61, right associativity).

(** ** The program *)

(** The module-level constants of the script. *)
Record config (F : Type) := {
  API_KEY : option string;
  API_SECRET : option string;
  TRADING_PAIRS : list string;
  SPREAD_PERCENTAGE : F;
  ORDER_SIZE_PERCENTAGE : F;
  ORDER_EXPIRY_MINUTES : Z;
  PRICE_PRECISION : nat;
  VOLUME_PRECISION : nat
}.

(** The dict [get_asset_balance] returns.  In the not-found case the
    script's three entries are the int [0]; the only use made of them is
    [available * ORDER_SIZE_PERCENTAGE], which first turns the int into the
    float zero. *)
Record asset_balance (F : Type) := {
  balance : F;
  reserved : F;
  available : F
}.

(** The dict [get_market_making_prices] returns. *)
Record quotes (F : Type) := {
  bid : F;
  ask : F
}.

(** An entry of [active_orders]. *)
Record active_order (F : Type) := {
  ao_pair : string;
  ao_type : string;
  ao_price : F;
  ao_volume : F;
  ao_created_at : F
}.

Section Bot.

Context {F : Type} `{PyFloat F}.
Variable cfg : config F.
Variable gw : gateway F.

Definition log (m : logmsg F) : M F unit := fun _ => (Ok tt, [EvLog m]).

Definition http (r : request F) : M F (response F) :=
  fun h =>
    match send gw h r with
    | Replied resp => (Ok resp, [EvRequest r])
    | Failed e => (Raise e, [EvRequest r])
    end.

Definition sleep (seconds : Z) : M F unit :=
  fun h =>
    match nap gw h seconds with
    | None => (Ok tt, [EvSleep seconds])
    | Some e => (Raise e, [EvSleep seconds])
    end.

Definition time : M F F := fun h => (Ok (clock gw h), []).

Definition response_json (r : response F) : outcome (pyval F) :=
  match json r with
  | Some v => Ok v
  | None => Raise JSONDecodeError
  end.

Definition status_ok (code : Z) : bool :=
  existsb (Z.eqb code) [200; 201; 202].

Definition make_request (meth endp : string)
           (params data : list (string * field F)) : M F (pyval F) :=
  response <- http {| method := meth; endpoint := endp;
                      payload := if String.eqb meth "GET"
                                 then params else data |} ;;
  if negb (status_ok (status_code response)) then
    log (LogApiError (status_code response) (text response)) ;;
    ret PNone
  else lift (response_json response).

Definition get_balances : M F (pyval F) :=
  make_request "GET" "accounts" [] [].

Definition get_ticker (pair : string) : M F (pyval F) :=
  make_request "GET" "ticker" [("pair", FStr pair)] [].

Definition get_order_book (pair : string) : M F (pyval F) :=
  make_request "GET" "orderbook" [("pair", FStr pair)] [].

Definition create_order (pair order_type : string) (volume price : F)
  : M F (pyval F) :=
  let data := [("pair", FStr pair);
               ("type", FStr order_type);
               ("volume", FFixed (VOLUME_PRECISION cfg) volume);
               ("price", FFixed (PRICE_PRECISION cfg) price);
               ("post_only", FStr "true")] in
  response <- make_request "POST" "postorder" [] data ;;
  has_id <- lift (if truthy response
                  then py_contains "order_id" response else Ok false) ;;
  if has_id : bool then
    order_id <- lift (py_getitem response "order_id") ;;
    log (LogCreated order_type pair volume price order_id) ;;
    lift (py_getitem response "order_id")
  else
    log (LogCreateFailed order_type pair) ;;
    ret PNone.

Definition cancel_order (order_id : pyval F) : M F bool :=
  let data := [("order_id", FVal order_id)] in
  response <- make_request "POST" "stoporder" [] data ;;
  success <- lift (if truthy response
                   then s <~ py_get response "success" (PBool false) ;
                        Ok (truthy s)
                   else Ok false) ;;
  if success : bool then
    log (LogCancelled order_id) ;; ret true
  else
    log (LogCancelFailed order_id) ;; ret false.

(** [pair] is [None] or a str; [if pair:] is false of both [None] and
    the empty str. *)
Definition get_open_orders (pair : option string) : M F (pyval F) :=
  let params := match pair with
                | Some p => if String.eqb p "" then []
                            else [("pair", FStr p)]
                | None => []
                end in
  make_request "GET" "listorders" params [].

Fixpoint cancel_each (orders : list (pyval F)) : M F unit :=
  match orders with
  | order :: rest =>
      order_id <- lift (py_getitem order "order_id") ;;
      cancel_order order_id ;;
      cancel_each rest
  | [] => ret tt
  end.

Definition cancel_all_orders (pair : option string) : M F unit :=
  orders <- get_open_orders pair ;;
  if negb (truthy orders) then ret tt
  else
    listed <- lift (py_contains "orders" orders) ;;
    if negb listed then ret tt
    else
      items <- lift (l <~ py_getitem orders "orders" ; py_iter l) ;;
      cancel_each items.

Fixpoint find_account (accounts : list (pyval F)) (asset : string)
  : outcome (asset_balance F) :=
  match accounts with
  | account :: rest =>
      name <~ py_getitem account "asset" ;
      if py_eq_str name asset then
        b <~ py_getitem account "balance" ;
        b <~ to_float b ;
        r <~ py_getitem account "reserved" ;
        r <~ to_float r ;
        b' <~ py_getitem account "balance" ;
        b' <~ to_float b' ;
        r' <~ py_getitem account "reserved" ;
        r' <~ to_float r' ;
        Ok {| balance := b; reserved := r; available := fsub b' r' |}
      else find_account rest asset
  | [] => Ok {| balance := fdec 0 0; reserved := fdec 0 0;
                available := fdec 0 0 |}
  end.

Definition get_asset_balance (balances : pyval F) (asset : string)
  : outcome (asset_balance F) :=
  accounts <~ py_iter balances ;
  find_account accounts asset.

Definition calculate_order_size (pair : string) (balances : pyval F)
           (price : F) (side : string) : outcome F :=
  if String.eqb side "BUY" then
    let quote_asset := slice_from 3 pair in
    quote_balance <~ get_asset_balance balances quote_asset ;
    let available_quote := available quote_balance in
    budget <~ py_truediv (fmul available_quote (ORDER_SIZE_PERCENTAGE cfg))
                         (fdec 100 0) ;
    py_truediv budget price
  else
    let base_asset := slice_to 3 pair in
    base_balance <~ get_asset_balance balances base_asset ;
    let available_base := available base_balance in
    py_truediv (fmul available_base (ORDER_SIZE_PERCENTAGE cfg))
               (fdec 100 0).

Definition get_market_making_prices (ticker : pyval F)
  : outcome (quotes F) :=
  b <~ py_getitem ticker "bid" ;
  bid <~ to_float b ;
  a <~ py_getitem ticker "ask" ;
  ask <~ to_float a ;
  mid <~ py_truediv (fadd bid ask) (fdec 2 0) ;
  spread <~ py_truediv (fmul mid (SPREAD_PERCENTAGE cfg)) (fdec 100 0) ;
  let new_bid := fsub mid spread in
  let new_ask := fadd mid spread in
  Ok {| bid := fround (PRICE_PRECISION cfg) new_bid;
        ask := fround (PRICE_PRECISION cfg) new_ask |}.

(** [active_orders] is a dict from order id to entry; a later entry
    under the same id shadows the earlier one, here by standing in front
    of it. *)
Definition registry := list (pyval F * active_order F).

Definition register (active : registry) (order_id : pyval F)
           (pair order_type : string) (price volume : F) : M F registry :=
  created_at <- time ;;
  if hashable order_id then
    ret ((order_id, {| ao_pair := pair; ao_type := order_type;
                       ao_price := price; ao_volume := volume;
                       ao_created_at := created_at |}) :: active)
  else lift (Raise TypeError).

(** One side of a pair: size it, and submit only a positive volume. *)
Definition place_side (pair : string) (balances : pyval F) (price : F)
           (side order_type : string) (active : registry) : M F registry :=
  volume <- lift (calculate_order_size pair balances price side) ;;
  if fltb (fdec 0 0) volume then
    order_id <- create_order pair order_type volume price ;;
    if truthy order_id
    then register active order_id pair order_type price volume
    else ret active
  else ret active.

(** The body of [for pair in TRADING_PAIRS]. *)
Definition process_pair (balances : pyval F) (active : registry)
           (pair : string) : M F registry :=
  log (LogProcessing pair) ;;
  ticker <- get_ticker pair ;;
  if negb (truthy ticker) then
    log (LogFailedTicker pair) ;;
    ret active
  else
    prices <- lift (get_market_making_prices ticker) ;;
    cancel_all_orders (Some pair) ;;
    active <- place_side pair balances (bid prices) "BUY" "BID" active ;;
    place_side pair balances (ask prices) "ASK" "ASK" active.

Fixpoint process_pairs (balances : pyval F) (active : registry)
         (pairs : list string) : M F registry :=
  match pairs with
  | pair_ :: rest =>
      active <- process_pair balances active pair_ ;;
      process_pairs balances active rest
  | [] => ret active
  end.

(** Returns [None] when the balances cannot be fetched, the registry
    otherwise. *)
Definition place_market_making_orders : M F (option registry) :=
  balances_response <- get_balances ;;
  if negb (truthy balances_response) then
    log LogFailedBalances ;;
    ret None
  else
    active <- process_pairs balances_response [] (TRADING_PAIRS cfg) ;;
    ret (Some active).

(** [while True:] for at most [fuel] rounds. *)
Fixpoint run_loop (fuel : nat) : M F unit :=
  match fuel with
  | O => lift Running
  | S fuel' =>
      log LogPlacing ;;
      place_market_making_orders ;;
      log (LogWaiting (ORDER_EXPIRY_MINUTES cfg)) ;;
      sleep (ORDER_EXPIRY_MINUTES cfg * 60) ;;
      run_loop fuel'
  end.

Definition unset (v : option string) : bool :=
  match v with
  | Some s => String.eqb s ""
  | None => true
  end.

Definition on_exit (e : exn) : option (M F unit) :=
  match e with
  | KeyboardInterrupt =>
      Some (log LogStopped ;; cancel_all_orders None)
  | _ =>
      if is_Exception e
      then Some (log (LogUnexpected e) ;; cancel_all_orders None)
      else None
  end.

Definition main (fuel : nat) : M F unit :=
  log LogStarting ;;
  if unset (API_KEY cfg) || unset (API_SECRET cfg) then
    log LogMissingCredentials ;;
    ret tt
  else try_except (run_loop fuel) on_exit.

End Bot.

(** ** The script's constants *)

Definition script_config {F : Type} `{PyFloat F}
           (key secret : option string) : config F := {|
  API_KEY := key;
  API_SECRET := secret;
  TRADING_PAIRS := ["XBTZAR"; "ETHZAR"; "XRPZAR"; "ETHXBT"; "USDCZAR"];
  SPREAD_PERCENTAGE := fdec 5 (-1);
  ORDER_SIZE_PERCENTAGE := fdec 20 (-1);
  ORDER_EXPIRY_MINUTES := 5;
  PRICE_PRECISION := 0;
  VOLUME_PRECISION := 6
|}.

Definition ticker_of {F : Type} (b a : pyval F) : pyval F :=
  PDict [("bid", b); ("ask", a)].

Definition account_of {F : Type} (asset : string) (b r : pyval F) : pyval F :=
  PDict [("asset", PStr asset); ("balance", b); ("reserved", r)].

(** ** A scripted venue, for running the program on concrete inputs *)

Module Venue.

Abbreviation float := spec_float.

Definition cfg : config float := script_config (Some "key") (Some "secret").

Definition answer (code : Z) (body : pyval float) : reply float :=
  Replied {| status_code := code; text := ""; json := Some body |}.

Definition refuse (code : Z) (body : string) : reply float :=
  Replied {| status_code := code; text := body; json := None |}.

Definition pair_of (r : request float) : string :=
  match r.(payload) with
  | ("pair", FStr p) :: _ => p
  | _ => ""
  end.

Definition accounts : pyval float :=
  PList [account_of "XBT" (PStr "0.05") (PStr "0.00");
         account_of "ZAR" (PStr "10000.00") (PStr "0.00");
         account_of "ETH" (PStr "1.50") (PStr "0.50")].

Definition ticker : pyval float :=
  ticker_of (PStr "1000000.00") (PStr "1002000.00").

Definition open_orders : pyval float :=
  PDict [("orders", PList [PDict [("order_id", PStr "BXA1")];
                           PDict [("order_id", PStr "BXA2")]])].

Definition cancelled : reply float :=
  answer 200 (PDict [("success", PBool true)]).

(** A venue that answers every request the same way whatever came
    before; [tickers] gives the answer to a ticker request, [stop] the
    answer to a cancel request. *)
Definition venue (tickers : string -> reply float)
           (listing : reply float) (stop : request float -> reply float)
           (interrupt : option exn) : gateway float := {|
  send := fun _ r =>
    if String.eqb r.(endpoint) "accounts" then answer 200 accounts
    else if String.eqb r.(endpoint) "ticker" then tickers (pair_of r)
    else if String.eqb r.(endpoint) "listorders" then listing
    else if String.eqb r.(endpoint) "stoporder" then stop r
    else if String.eqb r.(endpoint) "postorder"
         then answer 200 (PDict [("order_id", PStr "BXN7")])
    else refuse 404 "not found";
  nap := fun _ _ => interrupt;
  clock := fun _ => B64.dec 1700000000 0
|}.

Definition healthy : gateway float :=
  venue (fun _ => answer 200 ticker) (answer 200 open_orders)
        (fun _ => cancelled) None.


(** The ticker of one pair comes without its bid. *)
Definition one_ticker_broken (bad : string) : gateway float :=
  venue (fun p => if String.eqb p bad
                  then answer 200 (PDict [("ask", PStr "1002000.00")])
                  else answer 200 ticker)
        (answer 200 open_orders) (fun _ => cancelled) None.

(** The sleep between two cycles is interrupted from the keyboard. *)
Definition interrupted : gateway float :=
  venue (fun _ => answer 200 ticker) (answer 200 open_orders)
        (fun _ => cancelled) (Some KeyboardInterrupt).

(** The listing of open orders is refused. *)
Definition no_listing : gateway float :=
  venue (fun _ => answer 200 ticker) (refuse 500 "internal error")
        (fun _ => cancelled) None.

(** The listing comes back without its orders field. *)
Definition bare_listing : gateway float :=
  venue (fun _ => answer 200 ticker)
        (answer 200 (PDict [("count", PInt 0)]))
        (fun _ => cancelled) None.

(** The first of the two listed orders cannot be cancelled. *)
Definition stubborn : gateway float :=
  venue (fun _ => answer 200 ticker) (answer 200 open_orders)
        (fun r => match r.(payload) with
                  | [("order_id", FVal (PStr "BXA1"))] =>
                      refuse 400 "order not found"
                  | _ => cancelled
                  end) None.


(** No response comes to the listing request. *)
Definition listing_unreachable : gateway float :=
  venue (fun _ => answer 200 ticker) (Failed ConnectionError)
        (fun _ => cancelled) None.

(** No response comes to the cancel request of the first of the two
    listed orders. *)
Definition cancel_unreachable : gateway float :=
  venue (fun _ => answer 200 ticker) (answer 200 open_orders)
        (fun r => match r.(payload) with
                  | [("order_id", FVal (PStr "BXA1"))] =>
                      Failed ConnectionError
                  | _ => cancelled
                  end) None.

(** The listing comes back as a number. *)
Definition numeric_listing : gateway float :=
  venue (fun _ => answer 200 ticker) (answer 200 (PInt 2))
        (fun _ => cancelled) None.

End Venue.

(** The requests among the events, in order. *)
Fixpoint requests {F : Type} (es : trace F) : list (request F) :=
  match es with
  | EvRequest r :: es' => r :: requests es'
  | _ :: es' => requests es'
  | [] => []
  end.

(** ** Balance records, as the Order Sizer reads them *)

Section Records.

Context {F : Type} `{PyFloat F}.

(** The account is a dict whose asset is not [asset]. *)
Definition other_asset (asset : string) (account : pyval F) : Prop :=
  exists name, py_getitem account "asset" = Ok name
               /\ py_eq_str name asset = false.

(** [balances] is a list of accounts whose first account for [asset]
    reads [total] and [res] as balance and reserved amount. *)
Definition has_record (balances : pyval F) (asset : string)
           (total res : F) : Prop :=
  exists before account after name vb vr,
    balances = PList (before ++ account :: after)
    /\ Forall (other_asset asset) before
    /\ py_getitem account "asset" = Ok name
    /\ py_eq_str name asset = true
    /\ py_getitem account "balance" = Ok vb /\ to_float vb = Ok total
    /\ py_getitem account "reserved" = Ok vr /\ to_float vr = Ok res.




End Records.

(** ** Reading a trace *)

Section Reading.

Context {F : Type} `{PyFloat F}.

(** Events added without any other effect. *)
Definition emit (es : trace F) : M F unit := fun _ => (Ok tt, es).

Definition ticker_request (pair : string) : request F :=
  {| method := "GET"; endpoint := "ticker";
     payload := [("pair", FStr pair)] |}.

Definition listing_request (pair : option string) : request F :=
  {| method := "GET"; endpoint := "listorders";
     payload := match pair with
                | Some p => if String.eqb p "" then []
                            else [("pair", FStr p)]
                | None => []
                end |}.

Definition stop_request (order_id : pyval F) : request F :=
  {| method := "POST"; endpoint := "stoporder";
     payload := [("order_id", FVal order_id)] |}.

(** The volume an order-placement request carries. *)
Definition volume_of (r : request F) : option F :=
  match lookup "volume" (payload r) with
  | Some (FFixed _ v) => Some v
  | _ => None
  end.

(** The event is no order placement, or one of a positive volume. *)
Definition positive_order (ev : event F) : Prop :=
  match ev with
  | EvRequest r =>
      String.eqb (endpoint r) "postorder" = true ->
      exists v, volume_of r = Some v /\ fltb (fdec 0 0) v = true
  | _ => True
  end.

(** The step of the per-pair work a request belongs to. *)
Inductive phase := PhTicker | PhCancel | PhBuy | PhSell | PhOther.

Definition order_phase (order_type : string) : phase :=
  if String.eqb order_type "BID" then PhBuy
  else if String.eqb order_type "ASK" then PhSell
  else PhOther.

Definition phase_of (r : request F) : phase :=
  if String.eqb (endpoint r) "ticker" then PhTicker
  else if String.eqb (endpoint r) "listorders"
          || String.eqb (endpoint r) "stoporder" then PhCancel
  else if String.eqb (endpoint r) "postorder" then
    match lookup "type" (payload r) with
    | Some (FStr t) => order_phase t
    | _ => PhOther
    end
  else PhOther.

Definition phases (es : trace F) : list phase :=
  map phase_of (requests es).




(** What the work on one pair may add to the trace: its own two log
    lines, not another pair's, and order placements of positive volume
    only. *)
Definition pair_event (pair : string) (ev : event F) : Prop :=
  match ev with
  | EvLog (LogProcessing p) | EvLog (LogFailedTicker p) => p = pair
  | _ => positive_order ev
  end.

(** Every event a computation adds satisfies [P], whatever came
    before. *)
Definition always {A : Type} (P : event F -> Prop) (m : M F A) : Prop :=
  forall h, Forall P (snd (m h)).


(** What a cancel request may come back with for the loop over the
    listed orders to go on: any refusal, or a body that is empty or a
    dict. *)
Definition settles (r : reply F) : Prop :=
  match r with
  | Replied resp =>
      status_ok (status_code resp) = false
      \/ exists body, json resp = Some body
                      /\ (truthy body = false \/ exists d, body = PDict d)
  | Failed _ => False
  end.



(** The order-placement request of [create_order]. *)
Definition order_request (cfg : config F) (pair order_type : string)
           (volume price : F) : request F :=
  {| method := "POST"; endpoint := "postorder";
     payload := [("pair", FStr pair);
                 ("type", FStr order_type);
                 ("volume", FFixed (VOLUME_PRECISION cfg) volume);
                 ("price", FFixed (PRICE_PRECISION cfg) price);
                 ("post_only", FStr "true")] |}.

(** The line [main] logs when it catches [e]. *)
Definition exit_line (e : exn) : logmsg F :=
  match e with
  | KeyboardInterrupt => LogStopped
  | _ => LogUnexpected e
  end.


End Reading.

(** ** Venues that give one answer to everything *)

Module Scripted.

Abbreviation float := spec_float.

Definition fixed (r : reply float) : gateway float := {|
  send := fun _ _ => r;
  nap := fun _ _ => None;
  clock := fun _ => B64.dec 1700000000 0
|}.

Definition saying (body : pyval float) : gateway float :=
  fixed (Venue.answer 200 body).

Definition refusing : gateway float :=
  fixed (Venue.refuse 503 "unavailable").

End Scripted.

(** ** Reading a whole run *)

Section Footprints.

Context {F : Type} `{PyFloat F}.
Variable cfg : config F.

Definition accounts_request : request F :=
  {| method := "GET"; endpoint := "accounts"; payload := [] |}.

(** What listing and cancelling may add to the trace. *)
Definition cancel_event (pair : option string) (ev : event F) : Prop :=
  match ev with
  | EvRequest r => r = listing_request pair \/ exists id, r = stop_request id
  | EvLog (LogApiError _ _) | EvLog (LogCancelled _)
  | EvLog (LogCancelFailed _) => True
  | _ => False
  end.

(** The request places an order of [order_type] on [pair] at [price],
    of the positive volume the sizer returns for [side]. *)
Definition places (pair : string) (balances : pyval F) (price : F)
           (side order_type : string) (r : request F) : Prop :=
  exists volume,
    calculate_order_size cfg pair balances price side = Ok volume
    /\ fltb (fdec 0 0) volume = true
    /\ r = order_request cfg pair order_type volume price.

(** Every order placement among the events is the buy at the bid quote
    or the sell at the ask quote, each of the size computed for it. *)
Definition quoted_order (pair : string) (balances : pyval F) (q : quotes F)
           (ev : event F) : Prop :=
  match ev with
  | EvRequest r =>
      String.eqb (endpoint r) "postorder" = true ->
      places pair balances (bid q) "BUY" "BID" r
      \/ places pair balances (ask q) "ASK" "ASK" r
  | _ => True
  end.

(** What the work on one pair may send. *)
Definition pair_request (pair : string) (r : request F) : Prop :=
  r = ticker_request pair
  \/ r = listing_request (Some pair)
  \/ (exists id, r = stop_request id)
  \/ exists order_type volume price,
       (order_type = "BID" \/ order_type = "ASK")
       /\ fltb (fdec 0 0) volume = true
       /\ r = order_request cfg pair order_type volume price.

Definition pair_step (pair : string) (ev : event F) : Prop :=
  match ev with
  | EvRequest r => pair_request pair r
  | EvLog _ => True
  | EvSleep _ => False
  end.

(** What a whole run may do: fetch the balances, work on a configured
    pair, list and cancel without a pair, sleep for the refresh
    interval, and log. *)
Definition run_event (ev : event F) : Prop :=
  match ev with
  | EvRequest r =>
      r = accounts_request
      \/ (exists pair, In pair (TRADING_PAIRS cfg) /\ pair_request pair r)
      \/ r = listing_request None
      \/ exists id, r = stop_request id
  | EvLog _ => True
  | EvSleep seconds => seconds = ORDER_EXPIRY_MINUTES cfg * 60
  end.

(** An entry of the registry as a cycle over [pairs] leaves it. *)
Definition registered (pairs : list string)
           (entry : pyval F * active_order F) : Prop :=
  truthy (fst entry) = true
  /\ hashable (fst entry) = true
  /\ In (ao_pair (snd entry)) pairs
  /\ (ao_type (snd entry) = "BID" \/ ao_type (snd entry) = "ASK")
  /\ fltb (fdec 0 0) (ao_volume (snd entry)) = true.

(** The entry records an order that was sent among the events. *)
Definition sent (es : trace F) (entry : pyval F * active_order F) : Prop :=
  In (EvRequest (order_request cfg (ao_pair (snd entry))
                               (ao_type (snd entry))
                               (ao_volume (snd entry))
                               (ao_price (snd entry)))) es.

Definition tracked (pairs : list string) (es : trace F)
           (entry : pyval F * active_order F) : Prop :=
  registered pairs entry /\ sent es entry.

(** Whenever the computation returns a value, the value and the events
    of the computation satisfy [R]. *)
Definition yields {A : Type} (R : A -> trace F -> Prop) (m : M F A) : Prop :=
  forall h a es, m h = (Ok a, es) -> R a es.

(** The registry [active'] is [active] with at most [n] entries added,
    each for an order sent among [es]. *)
Definition grown (pairs : list string) (active : list (pyval F * active_order F))
           (n : nat) (active' : list (pyval F * active_order F))
           (es : trace F) : Prop :=
  (forall before, Forall (tracked pairs before) active ->
                  Forall (tracked pairs (before ++ es)) active')
  /\ (length active' <= length active + n)%nat.

(** The events of one cycle in which the balances are refused. *)
Definition idle_cycle (resp : response F) : trace F :=
  [EvLog LogPlacing; EvRequest accounts_request;
   EvLog (LogApiError (status_code resp) (text resp));
   EvLog LogFailedBalances;
   EvLog (LogWaiting (ORDER_EXPIRY_MINUTES cfg));
   EvSleep (ORDER_EXPIRY_MINUTES cfg * 60)].

Fixpoint idle_cycles (resp : response F) (n : nat) : trace F :=
  match n with
  | O => []
  | S n' => idle_cycle resp ++ idle_cycles resp n'
  end.

End Footprints.

(** ** The demo and the diagnostics: programs that print *)

Section Printing.

Context {F : Type} `{PyFloat F}.

(** A piece of a printed line: literal text, [str] of a decoded value or
    of a float, [f"{x:.{d}f}"], and a line break inside the text. *)
Inductive piece :=
| Lit (s : string)
| Show (v : pyval F)
| Num (x : F)
| Fixed (digits : nat) (x : F)
| NL.

(** What a script does, in order: the lines it prints itself, and the
    events of the bot's functions it calls. *)
Inductive out :=
| Shown (line : list piece)
| Did (ev : event F).

Fixpoint events (os : list out) : trace F :=
  match os with
  | Did ev :: os' => ev :: events os'
  | Shown _ :: os' => events os'
  | [] => []
  end.

(** The venue sees the requests made so far, not the printed lines. *)
Definition Script (A : Type) := trace F -> outcome A * list out.

Definition sret {A} (a : A) : Script A := fun _ => (Ok a, []).

Definition sbind {A B} (m : Script A) (f : A -> Script B) : Script B :=
  fun h =>
    match m h with
    | (Ok a, os) => let '(r, os') := f a (h ++ events os) in (r, os ++ os')
    | (Raise e, os) => (Raise e, os)
    | (Running, os) => (Running, os)
    end.

(** A function of the bot, called from a script. *)
Definition call {A} (m : M F A) : Script A :=
  fun h => let '(r, es) := m h in (r, map Did es).

(** An expression that may raise. *)
Definition eval {A} (r : outcome A) : Script A := fun _ => (r, []).

Definition print (line : list piece) : Script unit :=
  fun _ => (Ok tt, [Shown line]).

End Printing.

Arguments piece F : clear implicits.
Arguments out F : clear implicits.
Arguments Script F A : clear implicits.

Declare Scope script_scope.
Delimit Scope script_scope with script.

Notation "x <- m ;; k" := (sbind m (fun x => k))
  (at level 61, m at next level, right associativity) : script_scope.
Notation "m ;; k" := (sbind m (fun _ => k))
  (at level 61, right associativity) : script_scope.

Section Scripts.

Context {F : Type} `{PyFloat F}.
Variable cfg : config F.
Variable gw : gateway F.

(** What [d[:n]] raises when [d] is a dict: a slice does not hash up to
    CPython 3.11 ([TypeError]); from 3.12 on it does, and the lookup
    fails ([KeyError]). *)
Variable slice_of_dict : exn.

(** ["=" * 80] *)
Fixpoint times (n : nat) (s : string) : string :=
  match n with
  | O => EmptyString
  | S n' => (s ++ times n' s)%string
  end.

Definition rule : string := times 80 "=".

Definition orderbook_request (pair : string) : request F :=
  {| method := "GET"; endpoint := "orderbook";
     payload := [("pair", FStr pair)] |}.

(** [v[:n]] *)
Definition py_slice_to (n : nat) (v : pyval F) : outcome (pyval F) :=
  match v with
  | PList l => Ok (PList (firstn n l))
  | PStr s => Ok (PStr (slice_to n s))
  | PDict _ => Raise slice_of_dict
  | _ => Raise TypeError
  end.

(** [next((b for b in balances if b["asset"] == asset), None)], once
    [balances] is being iterated *)
Fixpoint first_account (accounts : list (pyval F)) (asset : string)
  : outcome (pyval F) :=
  match accounts with
  | b :: rest =>
      name <~ py_getitem b "asset" ;
      if py_eq_str name asset then Ok b else first_account rest asset
  | [] => Ok PNone
  end.

(** [float(v.get(key, 0))] *)
Definition float_of (v : pyval F) (key : string) : outcome F :=
  x <~ py_get v key (PInt 0) ;
  to_float x.

(** [for i, level in enumerate(levels): print(...)] *)
Fixpoint print_levels (levels : list (pyval F)) : Script F unit :=
  (match levels with
   | level :: rest =>
       volume <- eval (py_get level "volume" PNone) ;;
       price <- eval (py_get level "price" PNone) ;;
       print [Lit "  "; Show volume; Lit " @ "; Show price] ;;
       print_levels rest
   | [] => sret tt
   end)%script.

(** The two sides of an order book, [top] levels of each. *)
Definition print_book (order_book : pyval F) (top : nat) : Script F unit :=
  (print [Lit "Asks (Sell orders):"] ;;
   asks <- eval (side <~ py_get order_book "asks" (PList []) ;
                 side <~ py_slice_to top side ;
                 py_iter side) ;;
   print_levels asks ;;
   print [Lit "Bids (Buy orders):"] ;;
   bids <- eval (side <~ py_get order_book "bids" (PList []) ;
                 side <~ py_slice_to top side ;
                 py_iter side) ;;
   print_levels bids)%script.

(** [run_demo.py] *)
Definition run_demo : Script F unit :=
  (print [Lit rule] ;;
   print [Lit "LUNO MARKET MAKER BOT - DEMO"] ;;
   print [Lit rule] ;;
   let pair := "XBTZAR" in
   print [NL; Lit "Running demo for "; Lit pair; Lit "..."; NL] ;;
   print [Lit "Fetching account balances..."] ;;
   balances <- call (get_balances gw) ;;
   if negb (truthy balances) then
     print [Lit "Failed to get account balances. Please check your API credentials."]
   else
     let base_asset := "XBT" in
     let quote_asset := "ZAR" in
     base_balance <- eval (accounts <~ py_iter balances ;
                           first_account accounts base_asset) ;;
     quote_balance <- eval (accounts <~ py_iter balances ;
                            first_account accounts quote_asset) ;;
     (if truthy base_balance && truthy quote_balance then
        total <- eval (float_of base_balance "balance") ;;
        print [Lit base_asset; Lit " Balance: "; Num total] ;;
        total <- eval (float_of quote_balance "balance") ;;
        print [Lit quote_asset; Lit " Balance: "; Num total]
      else sret tt) ;;
     print [NL; Lit "Fetching market data..."] ;;
     ticker <- call (get_ticker gw pair) ;;
     if negb (truthy ticker) then
       print [Lit "Failed to get market data. Please check the trading pair."]
     else
       last_trade <- eval (py_get ticker "last_trade" PNone) ;;
       print [Lit "Last trade price: "; Show last_trade] ;;
       current <- eval (py_get ticker "bid" PNone) ;;
       print [Lit "Current bid: "; Show current] ;;
       current <- eval (py_get ticker "ask" PNone) ;;
       print [Lit "Current ask: "; Show current] ;;
       prices <- eval (get_market_making_prices cfg ticker) ;;
       print [NL; Lit "Calculated market making prices:"] ;;
       print [Lit "Bid price: "; Num (bid prices)] ;;
       print [Lit "Ask price: "; Num (ask prices)] ;;
       order_book <- call (get_order_book gw pair) ;;
       print [NL; Lit "Current order book (top 3 entries):"] ;;
       (if truthy order_book then print_book order_book 3 else sret tt) ;;
       print [NL; Lit "Placing a demo order..."] ;;
       let small_volume := fdec 1 (-3) in
       enough <- eval (if truthy base_balance
                       then total <~ float_of base_balance "balance" ;
                            Ok (fltb small_volume total)
                       else Ok false) ;;
       if enough : bool then
         print [Lit "Placing a sell order for "; Num small_volume; Lit " ";
                Lit base_asset; Lit " @ "; Num (ask prices); Lit " ";
                Lit quote_asset] ;;
         order_id <- call (create_order cfg gw pair "ASK" small_volume
                                        (ask prices)) ;;
         if truthy order_id then
           print [NL; Lit "Order successfully placed!"] ;;
           print [Lit "Order ID: "; Show order_id] ;;
           print [NL; Lit "Demo completed successfully!"]
         else
           print [NL; Lit "Failed to place the order. Check the error logs."]
       else
         print [Lit "Not enough "; Lit base_asset;
                Lit " balance to place a demo order."] ;;
         print [Lit "Demo completed without placing an order."])%script.

(** [test_bot.py] *)
Definition print_header (title : string) : Script F unit :=
  (print [NL; Lit rule] ;;
   print [Lit " "; Lit title] ;;
   print [Lit rule])%script.

Definition test_market_data (pair : string) : Script F unit :=
  (print_header ("MARKET DATA FOR " ++ pair) ;;
   print [NL; Lit "Ticker:"] ;;
   ticker <- call (get_ticker gw pair) ;;
   (if truthy ticker then
      shown <- eval (py_get ticker "last_trade" (PStr "N/A")) ;;
      print [Lit "Last trade: "; Show shown] ;;
      shown <- eval (py_get ticker "bid" (PStr "N/A")) ;;
      print [Lit "Bid: "; Show shown] ;;
      shown <- eval (py_get ticker "ask" (PStr "N/A")) ;;
      print [Lit "Ask: "; Show shown] ;;
      shown <- eval (py_get ticker "rolling_24_hour_volume" (PStr "N/A")) ;;
      print [Lit "24h volume: "; Show shown] ;;
      prices <- eval (get_market_making_prices cfg ticker) ;;
      print [NL; Lit "Market Making Prices:"] ;;
      print [Lit "Bid (Buy) price: "; Num (bid prices)] ;;
      print [Lit "Ask (Sell) price: "; Num (ask prices)]
    else sret tt) ;;
   print [NL; Lit "Order Book (Top 5 entries):"] ;;
   order_book <- call (get_order_book gw pair) ;;
   if truthy order_book then print_book order_book 5 else sret tt)%script.

(** When the bid or the ask is zero the script's [mid_price] is the int
    [0], whose only use is the test [mid_price > 0]; it is the float
    zero here. *)
Definition test_order_sizing (pair : string) : Script F unit :=
  (print_header ("ORDER SIZE CALCULATION FOR " ++ pair) ;;
   balances <- call (get_balances gw) ;;
   ticker <- call (get_ticker gw pair) ;;
   if truthy balances && truthy ticker then
     bid_price <- eval (float_of ticker "bid") ;;
     ask_price <- eval (float_of ticker "ask") ;;
     mid_price <- eval (if negb (fis_zero bid_price)
                           && negb (fis_zero ask_price)
                        then py_truediv (fadd bid_price ask_price) (fdec 2 0)
                        else Ok (fdec 0 0)) ;;
     if fltb (fdec 0 0) mid_price then
       buy_size <- eval (calculate_order_size cfg pair balances mid_price
                                              "BUY") ;;
       print [Lit "Buy order size at price "; Num mid_price; Lit ": ";
              Fixed 8 buy_size] ;;
       sell_size <- eval (calculate_order_size cfg pair balances mid_price
                                               "ASK") ;;
       print [Lit "Sell order size at price "; Num mid_price; Lit ": ";
              Fixed 8 sell_size]
     else
       print [Lit "Could not calculate order sizes, invalid price data"]
   else sret tt)%script.

Fixpoint print_orders (orders : list (pyval F)) : Script F unit :=
  (match orders with
   | order :: rest =>
       shown <- eval (py_get order "order_id" PNone) ;;
       print [Lit "Order ID: "; Show shown] ;;
       shown <- eval (py_get order "pair" (PStr "N/A")) ;;
       print [Lit "  Pair: "; Show shown] ;;
       shown <- eval (py_get order "type" (PStr "N/A")) ;;
       print [Lit "  Type: "; Show shown] ;;
       shown <- eval (py_get order "price" (PStr "N/A")) ;;
       print [Lit "  Price: "; Show shown] ;;
       shown <- eval (py_get order "volume" (PStr "N/A")) ;;
       print [Lit "  Volume: "; Show shown] ;;
       shown <- eval (py_get order "creation_timestamp" (PStr "N/A")) ;;
       print [Lit "  Created: "; Show shown] ;;
       print [] ;;
       print_orders rest
   | [] => sret tt
   end)%script.

Definition test_open_orders (pair : option string) : Script F unit :=
  (print_header ("OPEN ORDERS" ++
                 match pair with
                 | Some p => if String.eqb p "" then "" else " FOR " ++ p
                 | None => ""
                 end) ;;
   orders <- call (get_open_orders gw pair) ;;
   listed <- eval (if truthy orders
                   then py_contains "orders" orders else Ok false) ;;
   if listed : bool then
     orders_list <- eval (py_getitem orders "orders") ;;
     if truthy orders_list then
       items <- eval (py_iter orders_list) ;;
       print_orders items
     else print [Lit "No open orders found."]
   else print [Lit "Failed to retrieve open orders."])%script.

(** The requests a script makes on [gw] after the history [h]. *)
Definition asked {A} (m : Script F A) (h : trace F) : list (request F) :=
  requests (events (snd (m h))).

(** A computation that only prints and evaluates: it adds no event. *)
Definition mute {A} (m : Script F A) : Prop :=
  forall h, events (snd (m h)) = [].

(** The computation does not end in the exception [e]. *)
Definition never_raises {A} (e : exn) (m : Script F A) : Prop :=
  forall h, fst (m h) <> Raise e.

(** The requests of a demo that runs up to its order. *)
Definition demo_book : list (request F) :=
  [accounts_request; ticker_request "XBTZAR"; orderbook_request "XBTZAR"].

(** What [print_header] prints. *)
Definition header (title : string) : list (out F) :=
  [Shown [NL; Lit rule]; Shown [Lit " "; Lit title]; Shown [Lit rule]].

End Scripts.

(** A venue for the scripts: one account list, one ticker and one order
    book, and every order accepted. *)
Module Desk.

Abbreviation float := spec_float.

Definition order_book : pyval float :=
  PDict [("asks", PList [PDict [("price", PStr "1002000.00");
                                ("volume", PStr "0.25")]]);
         ("bids", PList [PDict [("price", PStr "1000000.00");
                                ("volume", PStr "0.40")]])].

(** All of the bitcoin is reserved by resting orders. *)
Definition accounts : pyval float :=
  PList [account_of "XBT" (PStr "0.05") (PStr "0.05");
         account_of "ZAR" (PStr "10000.00") (PStr "0.00")].

Definition open_for (accounts ticker : pyval float) : gateway float := {|
  send := fun _ r =>
    if String.eqb r.(endpoint) "accounts" then Venue.answer 200 accounts
    else if String.eqb r.(endpoint) "ticker" then Venue.answer 200 ticker
    else if String.eqb r.(endpoint) "orderbook"
         then Venue.answer 200 order_book
    else if String.eqb r.(endpoint) "listorders"
         then Venue.answer 200 Venue.open_orders
    else if String.eqb r.(endpoint) "postorder"
         then Venue.answer 200 (PDict [("order_id", PStr "BXN7")])
    else Venue.refuse 404 "not found";
  nap := fun _ _ => None;
  clock := fun _ => B64.dec 1700000000 0
|}.

End Desk.

(* ================================================================== *)
(** * Part II: properties                                               *)
(* ================================================================== *)

Unset Implicit Arguments.

(** ** The two arithmetics satisfy the laws *)

#[global] Instance b64_laws : PyFloatLaws B64.float.
Proof.
  split.
  - reflexivity.
  - reflexivity.
  - intros x Hx. destruct x as [s | s | | s m e]; simpl in *;
      try reflexivity; discriminate.
Qed.

#[global] Instance exact_laws : PyFloatLaws Q.
Proof.
  split.
  - reflexivity.
  - reflexivity.
  - intros [n d] Hx. cbn in *. unfold Exact.ltb, Exact.is_zero, Qle_bool in *.
    cbn in *. destruct (Z.leb_spec (n * 1) 0); try discriminate.
    apply Z.eqb_neq. lia.
Qed.

(** ** Pure functions: quotes and sizes *)

Section PureFacts.

Context {F : Type} `{PyFloatLaws F}.
Variable cfg : config F.

Lemma truediv_by_two (x : F) :
  py_truediv x (fdec 2 0) = Ok (fdiv x (fdec 2 0)).
Proof. unfold py_truediv. now rewrite two_nonzero. Qed.

Lemma truediv_by_hundred (x : F) :
  py_truediv x (fdec 100 0) = Ok (fdiv x (fdec 100 0)).
Proof. unfold py_truediv. now rewrite hundred_nonzero. Qed.

Lemma truediv_by_positive (x y : F) :
  fltb (fdec 0 0) y = true -> py_truediv x y = Ok (fdiv x y).
Proof.
  intros Hy. unfold py_truediv. now rewrite (positive_nonzero y Hy).
Qed.

Lemma quotes_of_bid_ask (ticker vb va : pyval F) (b a : F) :
  py_getitem ticker "bid" = Ok vb -> to_float vb = Ok b ->
  py_getitem ticker "ask" = Ok va -> to_float va = Ok a ->
  let mid := fdiv (fadd b a) (fdec 2 0) in
  let half := fdiv (fmul mid (SPREAD_PERCENTAGE cfg)) (fdec 100 0) in
  get_market_making_prices cfg ticker
  = Ok {| bid := fround (PRICE_PRECISION cfg) (fsub mid half);
          ask := fround (PRICE_PRECISION cfg) (fadd mid half) |}.
Proof.
  intros Hb Hfb Ha Hfa. unfold get_market_making_prices.
  rewrite Hb; cbn [obind]. rewrite Hfb; cbn [obind].
  rewrite Ha; cbn [obind]. rewrite Hfa; cbn [obind].
  rewrite truediv_by_two; cbn [obind].
  rewrite truediv_by_hundred; cbn [obind]. reflexivity.
Qed.

Lemma find_account_skips (asset : string) (before rest : list (pyval F)) :
  Forall (other_asset asset) before ->
  find_account (before ++ rest) asset = find_account rest asset.
Proof.
  induction 1 as [| account before [name [Hname Hneq]] _ IH]; [reflexivity |].
  cbn [app find_account]. rewrite Hname; cbn [obind]. now rewrite Hneq.
Qed.

Lemma get_asset_balance_found (balances : pyval F) (asset : string)
      (total res : F) :
  has_record balances asset total res ->
  get_asset_balance balances asset
  = Ok {| balance := total; reserved := res; available := fsub total res |}.
Proof.
  intros (before & account & after & name & vb & vr & -> & Hbefore & Hname
          & Heq & Hb & Hfb & Hr & Hfr).
  unfold get_asset_balance; cbn [py_iter obind].
  rewrite (find_account_skips _ _ _ Hbefore). cbn [find_account].
  rewrite Hname; cbn [obind]. rewrite Heq.
  rewrite Hb; cbn [obind]. rewrite Hfb; cbn [obind].
  rewrite Hr; cbn [obind]. rewrite Hfr; cbn [obind]. reflexivity.
Qed.


Lemma order_size_buy (pair : string) (balances : pyval F) (price : F)
      (total res : F) :
  has_record balances (slice_from 3 pair) total res ->
  fltb (fdec 0 0) price = true ->
  calculate_order_size cfg pair balances price "BUY"
  = Ok (fdiv (fdiv (fmul (fsub total res) (ORDER_SIZE_PERCENTAGE cfg))
                   (fdec 100 0)) price).
Proof.
  intros Hrec Hprice. unfold calculate_order_size. cbn [String.eqb Ascii.eqb Bool.eqb].
  rewrite (get_asset_balance_found _ _ _ _ Hrec); cbn [obind available].
  rewrite truediv_by_hundred; cbn [obind].
  now apply truediv_by_positive.
Qed.

Lemma order_size_sell (pair side : string) (balances : pyval F) (price : F)
      (total res : F) :
  String.eqb side "BUY" = false ->
  has_record balances (slice_to 3 pair) total res ->
  calculate_order_size cfg pair balances price side
  = Ok (fdiv (fmul (fsub total res) (ORDER_SIZE_PERCENTAGE cfg))
             (fdec 100 0)).
Proof.
  intros Hside Hrec. unfold calculate_order_size. rewrite Hside.
  rewrite (get_asset_balance_found _ _ _ _ Hrec); cbn [obind available].
  apply truediv_by_hundred.
Qed.

End PureFacts.

(** C4: for every ticker with numeric bid and ask the Quote Calculator
    returns [round(mid - mid * spread_percentage / 100, price_precision)]
    and [round(mid + mid * spread_percentage / 100, price_precision)] with
    [mid = (bid + ask) / 2]; on the script's constants and binary64 floats
    the ticker with bid 1000000 and ask 1002000 gives 995995 and 1006005,
    whether the venue sends the two prices as numbers or as text. *)
Theorem quote_calculator_formula :
  (forall (F : Type) (HF : PyFloat F) (HL : PyFloatLaws F) (cfg : config F)
          (ticker vb va : pyval F) (b a : F),
      py_getitem ticker "bid" = Ok vb -> to_float vb = Ok b ->
      py_getitem ticker "ask" = Ok va -> to_float va = Ok a ->
      let mid := fdiv (fadd b a) (fdec 2 0) in
      let half := fdiv (fmul mid (SPREAD_PERCENTAGE cfg)) (fdec 100 0) in
      get_market_making_prices cfg ticker
      = Ok {| bid := fround (PRICE_PRECISION cfg) (fsub mid half);
              ask := fround (PRICE_PRECISION cfg) (fadd mid half) |})
  /\ get_market_making_prices Venue.cfg
       (ticker_of (PInt 1000000) (PInt 1002000))
     = Ok {| bid := B64.dec 995995 0; ask := B64.dec 1006005 0 |}
  /\ get_market_making_prices Venue.cfg
       (ticker_of (PStr "1000000.00") (PStr "1002000.00"))
     = Ok {| bid := B64.dec 995995 0; ask := B64.dec 1006005 0 |}.
Proof.
  split; [| split].
  - intros F HF HL cfg ticker vb va b a. apply quotes_of_bid_ask.
  - vm_compute. reflexivity.
  - vm_compute. reflexivity.
Qed.

Lemma quote_calculator_formula_witness :
  let ticker := ticker_of (PStr "10.20") (PFloat (B64.dec 103 (-1))) in
  py_getitem ticker "bid" = Ok (PStr "10.20")
  /\ to_float (PStr "10.20") = Ok (B64.dec 102 (-1))
  /\ get_market_making_prices Venue.cfg ticker
     = Ok {| bid := B64.dec 10 0; ask := B64.dec 10 0 |}.
Proof.
  intros ticker.
  assert (Hb : py_getitem ticker "bid" = Ok (PStr "10.20")) by reflexivity.
  assert (Hfb : to_float (PStr "10.20") = Ok (B64.dec 102 (-1)))
    by (vm_compute; reflexivity).
  assert (Ha : py_getitem ticker "ask" = Ok (PFloat (B64.dec 103 (-1))))
    by reflexivity.
  assert (Hfa : to_float (PFloat (B64.dec 103 (-1))) = Ok (B64.dec 103 (-1)))
    by reflexivity.
  split; [exact Hb | split; [exact Hfb |]].
  rewrite (proj1 quote_calculator_formula _ _ _ Venue.cfg _ _ _ _ _
                 Hb Hfb Ha Hfa).
  vm_compute. reflexivity.
Defined.

(** C5: for a positive price the Order Sizer returns
    [(available_quote * size_percentage / 100) / price] for a BUY and
    [available_base * size_percentage / 100] for any other side, the base
    asset being the first three characters of the pair symbol, the quote
    asset the rest, and the available amount the balance less the reserved
    amount of the asset's record; with 0.05 available of the base asset and
    the script's 2.0 percent the sell volume is 0.001. *)
Theorem order_sizer_formula :
  (forall (F : Type) (HF : PyFloat F) (HL : PyFloatLaws F) (cfg : config F)
          (pair : string) (balances : pyval F) (price total res : F),
      has_record balances (slice_from 3 pair) total res ->
      fltb (fdec 0 0) price = true ->
      calculate_order_size cfg pair balances price "BUY"
      = Ok (fdiv (fdiv (fmul (fsub total res) (ORDER_SIZE_PERCENTAGE cfg))
                       (fdec 100 0)) price))
  /\ (forall (F : Type) (HF : PyFloat F) (HL : PyFloatLaws F)
             (cfg : config F) (pair side : string) (balances : pyval F)
             (price total res : F),
         String.eqb side "BUY" = false ->
         has_record balances (slice_to 3 pair) total res ->
         fltb (fdec 0 0) price = true ->
         calculate_order_size cfg pair balances price side
         = Ok (fdiv (fmul (fsub total res) (ORDER_SIZE_PERCENTAGE cfg))
                    (fdec 100 0)))
  /\ calculate_order_size Venue.cfg "XBTZAR"
       (PList [account_of "XBT" (PStr "0.05") (PStr "0")])
       (B64.dec 1006005 0) "SELL"
     = Ok (B64.dec 1 (-3)).
Proof.
  split; [| split].
  - intros F HF HL cfg pair balances price total res.
    apply order_size_buy.
  - intros F HF HL cfg pair side balances price total res Hside Hrec _.
    now apply order_size_sell.
  - vm_compute. reflexivity.
Qed.

Lemma order_sizer_formula_witness :
  let balances := PList [account_of "XBT" (PStr "0.05") (PStr "0.00");
                         account_of "ZAR" (PStr "10000") (PInt 0)] in
  has_record balances (slice_from 3 "XBTZAR") (B64.dec 10000 0) (B64.dec 0 0)
  /\ B64.ltb (B64.dec 0 0) (B64.dec 995995 0) = true
  /\ calculate_order_size Venue.cfg "XBTZAR" balances (B64.dec 995995 0) "BUY"
     = Ok (S754_finite false 7408368143900141 (-65))
  /\ has_record balances (slice_to 3 "XBTZAR") (B64.dec 5 (-2)) (B64.dec 0 0)
  /\ calculate_order_size Venue.cfg "XBTZAR" balances (B64.dec 1006005 0) "ASK"
     = Ok (B64.dec 1 (-3)).
Proof.
  intros balances.
  assert (Hquote : has_record balances (slice_from 3 "XBTZAR")
                              (B64.dec 10000 0) (B64.dec 0 0)).
  { exists [account_of "XBT" (PStr "0.05") (PStr "0.00")],
      (account_of "ZAR" (PStr "10000") (PInt 0)), [],
      (PStr "ZAR"), (PStr "10000"), (PInt 0).
    repeat split; try reflexivity.
    constructor; [| constructor]. exists (PStr "XBT"). split; reflexivity. }
  assert (Hbase : has_record balances (slice_to 3 "XBTZAR")
                             (B64.dec 5 (-2)) (B64.dec 0 0)).
  { exists [], (account_of "XBT" (PStr "0.05") (PStr "0.00")),
      [account_of "ZAR" (PStr "10000") (PInt 0)],
      (PStr "XBT"), (PStr "0.05"), (PStr "0.00").
    repeat split; try reflexivity. constructor. }
  assert (Hprice : B64.ltb (B64.dec 0 0) (B64.dec 995995 0) = true)
    by reflexivity.
  assert (Hprice' : fltb (fdec 0 0) (B64.dec 1006005 0) = true)
    by reflexivity.
  split; [exact Hquote | split; [exact Hprice | split; [| split]]].
  - rewrite (proj1 order_sizer_formula _ _ _ Venue.cfg _ _ _ _ _
                   Hquote Hprice).
    vm_compute. reflexivity.
  - exact Hbase.
  - rewrite (proj1 (proj2 order_sizer_formula) _ _ _ Venue.cfg "XBTZAR" "ASK"
                   _ _ _ _ eq_refl Hbase Hprice').
    vm_compute. reflexivity.
Defined.





(** ** The quote band in exact arithmetic *)







(** Rounding to whole price units can also put both quotes on one side of
    the mid price: bid 10.20 and ask 10.30 give the mid 10.25 and the two
    quotes 10 and 10. *)
Example quotes_below_mid :
  let mid := B64.div (B64.add (B64.dec 1020 (-2)) (B64.dec 1030 (-2)))
                     (B64.dec 2 0) in
  get_market_making_prices Venue.cfg (ticker_of (PStr "10.20") (PStr "10.30"))
  = Ok {| bid := B64.dec 10 0; ask := B64.dec 10 0 |}
  /\ mid = B64.dec 1025 (-2)
  /\ B64.ltb (B64.dec 10 0) mid = true.
Proof. vm_compute. repeat split. Qed.

(** With a negative ticker the band is mirrored: the bid quote lies above
    the mid price. *)
Example quotes_of_negative_prices :
  get_market_making_prices Venue.cfg
    (ticker_of (PInt (-1002000)) (PInt (-1000000)))
  = Ok {| bid := B64.dec (-995995) 0; ask := B64.dec (-1006005) 0 |}.
Proof. vm_compute. reflexivity. Qed.




(** ** Reasoning about traces *)

Section Traces.

Context {F : Type} `{PyFloat F}.

Lemma fst_bind {A B} (m : M F A) (f : A -> M F B) (h : trace F) :
  fst (bind m f h)
  = match fst (m h) with
    | Ok a => fst (f a (h ++ snd (m h)))
    | Raise e => Raise e
    | Running => Running
    end.
Proof.
  unfold bind. destruct (m h) as [[a | e |] es]; cbn; try reflexivity.
  now destruct (f a (h ++ es)).
Qed.

Lemma snd_bind {A B} (m : M F A) (f : A -> M F B) (h : trace F) :
  snd (bind m f h)
  = snd (m h) ++ match fst (m h) with
                 | Ok a => snd (f a (h ++ snd (m h)))
                 | _ => []
                 end.
Proof.
  unfold bind. destruct (m h) as [[a | e |] es]; cbn;
    try (now rewrite app_nil_r).
  now destruct (f a (h ++ es)).
Qed.

Lemma bind_ok {A B} (m : M F A) (f : A -> M F B) (h es : trace F) (a : A) :
  m h = (Ok a, es) ->
  bind m f h = (fst (f a (h ++ es)), es ++ snd (f a (h ++ es))).
Proof. intros Hm. unfold bind. rewrite Hm. now destruct (f a (h ++ es)). Qed.

Lemma bind_raise {A B} (m : M F A) (f : A -> M F B) (h es : trace F) e :
  m h = (Raise e, es) -> bind m f h = (Raise e, es).
Proof. intros Hm. unfold bind. now rewrite Hm. Qed.



Lemma requests_app (es es' : trace F) :
  requests (es ++ es') = requests es ++ requests es'.
Proof.
  induction es as [| [r | m | s] es IH]; cbn; [reflexivity | | |];
    now rewrite IH.
Qed.


(** ** What each function adds to the trace *)

Variable cfg : config F.
Variable gw : gateway F.

(** The three ways a request ends. *)
Lemma make_request_cases meth endp params data (h : trace F) :
  let r := {| method := meth; endpoint := endp;
              payload := if String.eqb meth "GET" then params else data |} in
  match send gw h r with
  | Failed e => make_request gw meth endp params data h
                = (Raise e, [EvRequest r])
  | Replied resp =>
      if status_ok (status_code resp)
      then make_request gw meth endp params data h
           = (response_json resp, [EvRequest r])
      else make_request gw meth endp params data h
           = (Ok PNone, [EvRequest r;
                         EvLog (LogApiError (status_code resp) (text resp))])
  end.
Proof.
  intros r. unfold make_request, bind, http. fold r.
  destruct (send gw h r) as [resp | e]; [| reflexivity].
  destruct (status_ok (status_code resp)); cbn; [| reflexivity].
  unfold lift. now destruct (response_json resp).
Qed.

End Traces.

Section Always.

Context {F : Type} `{PyFloat F}.
Variable cfg : config F.
Variable gw : gateway F.
Variable P : event F -> Prop.

Lemma always_ret {A} (a : A) : always P (ret a).
Proof. intros h. constructor. Qed.

Lemma always_lift {A} (r : outcome A) : always P (lift r).
Proof. intros h. constructor. Qed.

Lemma always_time : always P (time gw).
Proof. intros h. constructor. Qed.

Lemma always_emit (es : trace F) : Forall P es -> always P (emit es).
Proof. intros Hes h. exact Hes. Qed.

Lemma always_log (m : logmsg F) : P (EvLog m) -> always P (log m).
Proof. intros Hm h. now repeat constructor. Qed.

Lemma always_sleep (s : Z) : P (EvSleep s) -> always P (sleep gw s).
Proof.
  intros Hs h. unfold sleep. destruct (nap gw h s); now repeat constructor.
Qed.

Lemma always_bind {A B} (m : M F A) (f : A -> M F B) :
  always P m -> (forall a, always P (f a)) -> always P (bind m f).
Proof.
  intros Hm Hf h. rewrite snd_bind. apply Forall_app. split; [apply Hm |].
  destruct (fst (m h)); [apply Hf | constructor | constructor].
Qed.

Lemma always_try {A} (m : M F A) (handler : exn -> option (M F A)) :
  always P m ->
  (forall e k, handler e = Some k -> always P k) ->
  always P (try_except m handler).
Proof.
  intros Hm Hk h. unfold try_except. specialize (Hm h).
  destruct (m h) as [[a | e |] es]; cbn in *; try exact Hm.
  destruct (handler e) as [k |] eqn:Hh; [| exact Hm].
  specialize (Hk e k Hh (h ++ es)).
  destruct (k (h ++ es)) as [r es']. cbn in *.
  apply Forall_app. now split.
Qed.

Lemma always_make_request meth endp params data :
  P (EvRequest {| method := meth; endpoint := endp;
                  payload := if String.eqb meth "GET"
                             then params else data |}) ->
  (forall s t, P (EvLog (LogApiError s t))) ->
  always P (make_request gw meth endp params data).
Proof.
  intros Hr Hl h. pose proof (make_request_cases gw meth endp params data h) as Hc.
  cbv zeta in Hc. destruct (send gw h _) as [resp | e].
  - destruct (status_ok (status_code resp)); rewrite Hc; cbn;
      repeat constructor; auto.
  - rewrite Hc. cbn. repeat constructor; auto.
Qed.

End Always.

Ltac walk :=
  repeat match goal with
         | |- always _ (ret _) => apply always_ret
         | |- always _ (lift _) => apply always_lift
         | |- always _ (time _) => apply always_time
         | |- always _ (bind _ _) => apply always_bind; [| intros ?]
         | |- always _ (if ?c then _ else _) => destruct c
         end.

Section PairEvents.

Context {F : Type} `{PyFloat F}.
Variable cfg : config F.
Variable gw : gateway F.

Lemma quiet_request (pair meth endp : string) params data :
  String.eqb endp "postorder" = false ->
  always (pair_event pair) (make_request gw meth endp params data).
Proof.
  intros Hendp. apply always_make_request.
  - cbn. rewrite Hendp. discriminate.
  - intros s t. exact I.
Qed.

Lemma cancel_order_events (pair : string) (order_id : pyval F) :
  always (pair_event pair) (cancel_order gw order_id).
Proof.
  unfold cancel_order. walk; try (apply always_log; exact I).
  now apply quiet_request.
Qed.

Lemma cancel_each_events (pair : string) (items : list (pyval F)) :
  always (pair_event pair) (cancel_each gw items).
Proof.
  induction items as [| item items IH]; cbn [cancel_each]; walk.
  - apply cancel_order_events.
  - exact IH.
Qed.

Lemma cancel_all_orders_events (pair : string) (filter : option string) :
  always (pair_event pair) (cancel_all_orders gw filter).
Proof.
  unfold cancel_all_orders, get_open_orders. walk.
  - now apply quiet_request.
  - apply cancel_each_events.
Qed.

Lemma create_order_events (pair order_type : string) (volume price : F) :
  fltb (fdec 0 0) volume = true ->
  always (pair_event pair) (create_order cfg gw pair order_type volume price).
Proof.
  intros Hpos. unfold create_order. walk; try (apply always_log; exact I).
  apply always_make_request; [| intros s t; exact I].
  cbn. intros _. exists volume. split; [reflexivity | exact Hpos].
Qed.

Lemma place_side_events (pair : string) balances price side order_type
      active :
  always (pair_event pair)
         (place_side cfg gw pair balances price side order_type active).
Proof.
  unfold place_side. apply always_bind; [apply always_lift | intros volume].
  destruct (fltb (fdec 0 0) volume) eqn:Hpos; [| apply always_ret].
  apply always_bind; [now apply create_order_events | intros order_id].
  unfold register. walk.
Qed.

Lemma process_pair_events (pair : string) balances active :
  always (pair_event pair) (process_pair cfg gw balances active pair).
Proof.
  unfold process_pair, get_ticker. walk;
    try (apply always_log; reflexivity).
  - now apply quiet_request.
  - apply cancel_all_orders_events.
  - apply place_side_events.
  - apply place_side_events.
Qed.

End PairEvents.

Section WholeRun.

Context {F : Type} `{PyFloat F}.
Variable cfg : config F.
Variable gw : gateway F.

Lemma always_impl {A} (P Q : event F -> Prop) (m : M F A) :
  (forall ev, P ev -> Q ev) -> always P m -> always Q m.
Proof. intros HPQ Hm h. eapply Forall_impl; [exact HPQ | apply Hm]. Qed.

Lemma pair_event_positive (pair : string) (ev : event F) :
  pair_event pair ev -> positive_order ev.
Proof. destruct ev as [r | [] | s]; cbn; auto. Qed.

Lemma process_pairs_positive balances active (pairs : list string) :
  always positive_order (process_pairs cfg gw balances active pairs).
Proof.
  revert active. induction pairs as [| p pairs IH]; intros active;
    cbn [process_pairs]; walk.
  - eapply always_impl; [apply pair_event_positive |].
    apply process_pair_events.
  - apply IH.
Qed.

Lemma sweep_positive (filter : option string) :
  always positive_order (cancel_all_orders gw filter).
Proof.
  eapply always_impl; [apply (pair_event_positive "") |].
  apply cancel_all_orders_events.
Qed.

Lemma cycle_positive :
  always positive_order (place_market_making_orders cfg gw).
Proof.
  unfold place_market_making_orders, get_balances. walk;
    try (apply always_log; exact I).
  - eapply always_impl; [apply (pair_event_positive "") |].
    now apply quiet_request.
  - apply process_pairs_positive.
Qed.

Lemma run_loop_positive (fuel : nat) :
  always positive_order (run_loop cfg gw fuel).
Proof.
  induction fuel as [| fuel IH]; cbn [run_loop]; walk;
    try (apply always_log; exact I).
  - apply cycle_positive.
  - apply always_sleep. exact I.
  - exact IH.
Qed.

Lemma main_positive (fuel : nat) :
  always positive_order (main cfg gw fuel).
Proof.
  unfold main. walk; try (apply always_log; exact I).
  apply always_try; [apply run_loop_positive |].
  intros e k Hk. unfold on_exit in Hk.
  destruct e; cbn in Hk; inversion Hk; subst; walk;
    try (apply always_log; exact I); apply sweep_positive.
Qed.






End WholeRun.

(** C9: whatever the venue answers, every order-placement request the
    process sends, in a cycle or in a whole run, carries a volume that is
    strictly positive; a side whose computed volume is not positive (zero,
    negative as when more is reserved than held, or nan) sends nothing. *)
Theorem only_positive_volumes_are_submitted :
  forall (F : Type) (HF : PyFloat F) (cfg : config F) (gw : gateway F),
    (forall (fuel : nat) (h : trace F),
        Forall positive_order (snd (main cfg gw fuel h)))
    /\ (forall h : trace F,
           Forall positive_order (snd (place_market_making_orders cfg gw h)))
    /\ (forall (pair side order_type : string) (balances : pyval F)
               (price volume : F) (active : registry) (h : trace F),
           calculate_order_size cfg pair balances price side = Ok volume ->
           fltb (fdec 0 0) volume = false ->
           place_side cfg gw pair balances price side order_type active h
           = (Ok active, [])).
Proof.
  intros F HF cfg gw. split; [| split].
  - intros fuel h. apply main_positive.
  - intros h. apply cycle_positive.
  - intros pair side order_type balances price volume active h Hsize Hpos.
    unfold place_side, bind, lift. rewrite Hsize, Hpos. reflexivity.
Qed.

Lemma only_positive_volumes_are_submitted_witness :
  let balances := PList [account_of "XBT" (PStr "0.05") (PStr "0.07")] in
  let volume := S754_finite true 7378697629483822 (-64) in
  calculate_order_size Venue.cfg "XBTZAR" balances (B64.dec 1006005 0) "ASK"
  = Ok volume
  /\ B64.ltb (B64.dec 0 0) volume = false
  /\ place_side Venue.cfg Venue.healthy "XBTZAR" balances
                (B64.dec 1006005 0) "ASK" "ASK" [] []
     = (Ok [], []).
Proof.
  intros balances volume.
  assert (Hsize : calculate_order_size Venue.cfg "XBTZAR" balances
                                       (B64.dec 1006005 0) "ASK" = Ok volume)
    by (vm_compute; reflexivity).
  assert (Hneg : fltb (fdec 0 0) volume = false) by reflexivity.
  split; [exact Hsize | split; [exact Hneg |]].
  exact (proj2 (proj2 (only_positive_volumes_are_submitted
                         _ _ Venue.cfg Venue.healthy))
               "XBTZAR" "ASK" "ASK" balances (B64.dec 1006005 0) volume
               [] [] Hsize Hneg).
Defined.

(** ** A ticker that fails: refused, or not answered at all *)

Section TickerFailure.

Context {F : Type} `{PyFloat F}.
Variable cfg : config F.
Variable gw : gateway F.




End TickerFailure.




(** ** Cancelling *)

Section Cancelling.

Context {F : Type} `{PyFloat F}.
Variable gw : gateway F.

Lemma get_open_orders_cases (pair : option string) (h : trace F) :
  match send gw h (listing_request pair) with
  | Failed e => get_open_orders gw pair h
                = (Raise e, [EvRequest (listing_request pair)])
  | Replied resp =>
      if status_ok (status_code resp)
      then get_open_orders gw pair h
           = (response_json resp, [EvRequest (listing_request pair)])
      else get_open_orders gw pair h
           = (Ok PNone, [EvRequest (listing_request pair);
                         EvLog (LogApiError (status_code resp) (text resp))])
  end.
Proof.
  exact (make_request_cases gw "GET" "listorders" _ [] h).
Qed.

Lemma cancel_all_orders_starts (pair : option string) (h : trace F) :
  exists rest,
    snd (cancel_all_orders gw pair h)
    = EvRequest (listing_request pair) :: rest.
Proof.
  unfold cancel_all_orders. rewrite snd_bind.
  pose proof (get_open_orders_cases pair h) as Hc.
  destruct (send gw h (listing_request pair)) as [resp | e].
  - destruct (status_ok (status_code resp)); rewrite Hc; cbn [snd app];
      eexists; reflexivity.
  - rewrite Hc. cbn [snd app]. eexists. reflexivity.
Qed.

Lemma cancel_all_orders_refused (pair : option string) (h : trace F)
      (resp : response F) :
  send gw h (listing_request pair) = Replied resp ->
  status_ok (status_code resp) = false ->
  cancel_all_orders gw pair h
  = (Ok tt, [EvRequest (listing_request pair);
             EvLog (LogApiError (status_code resp) (text resp))]).
Proof.
  intros Hsend Hstatus. pose proof (get_open_orders_cases pair h) as Hc.
  rewrite Hsend, Hstatus in Hc. unfold cancel_all_orders.
  rewrite (bind_ok _ _ _ _ _ Hc). reflexivity.
Qed.

Lemma cancel_all_orders_unlisted (pair : option string) (h : trace F)
      (resp : response F) (d : list (string * pyval F)) :
  send gw h (listing_request pair) = Replied resp ->
  status_ok (status_code resp) = true ->
  json resp = Some (PDict d) ->
  lookup "orders" d = None ->
  cancel_all_orders gw pair h = (Ok tt, [EvRequest (listing_request pair)]).
Proof.
  intros Hsend Hstatus Hjson Hmiss.
  pose proof (get_open_orders_cases pair h) as Hc.
  rewrite Hsend, Hstatus in Hc. unfold response_json in Hc.
  rewrite Hjson in Hc. unfold cancel_all_orders.
  rewrite (bind_ok _ _ _ _ _ Hc).
  destruct d as [| kv d]; [reflexivity |].
  cbn [truthy negb]. unfold bind, lift, py_contains. rewrite Hmiss.
  reflexivity.
Qed.

Lemma cancel_order_settles (order_id : pyval F) (h : trace F) :
  settles (send gw h (stop_request order_id)) ->
  exists (done : bool) (m : list (logmsg F)),
    cancel_order gw order_id h
    = (Ok done, EvRequest (stop_request order_id) :: map EvLog m).
Proof.
  intros Hsettles.
  pose proof (make_request_cases gw "POST" "stoporder" []
                [("order_id", FVal order_id)] h) as Hc.
  cbv zeta in Hc. cbn [String.eqb Ascii.eqb Bool.eqb] in Hc.
  fold (stop_request order_id) in Hc.
  unfold cancel_order.
  destruct (send gw h (stop_request order_id)) as [resp | e];
    [| contradiction].
  destruct (status_ok (status_code resp)) eqn:Hstatus.
  - destruct Hsettles as [Hno | (body & Hjson & Hbody)];
      [congruence |].
    unfold response_json in Hc. rewrite Hjson in Hc.
    rewrite (bind_ok _ _ _ _ _ Hc).
    destruct Hbody as [Hfalsy | [d ->]].
    + rewrite Hfalsy. exists false, [LogCancelFailed order_id]. reflexivity.
    + destruct (truthy (PDict d)).
      * cbn [py_get obind].
        remember (match lookup "success" d with
                  | Some x => x
                  | None => PBool false
                  end) as s eqn:Es.
        destruct (truthy s) eqn:Hs.
        -- exists true, [LogCancelled order_id].
           reflexivity.
        -- exists false, [LogCancelFailed order_id].
           reflexivity.
      * exists false, [LogCancelFailed order_id]. reflexivity.
  - rewrite (bind_ok _ _ _ _ _ Hc).
    exists false, [LogApiError (status_code resp) (text resp);
                   LogCancelFailed order_id].
    reflexivity.
Qed.

Lemma requests_logs (m : list (logmsg F)) : requests (map EvLog m) = [].
Proof. induction m; [reflexivity | exact IHm]. Qed.

Lemma cancel_each_sweeps (items ids : list (pyval F)) :
  Forall2 (fun item id => py_getitem item "order_id" = Ok id) items ids ->
  (forall h id, In id ids -> settles (send gw h (stop_request id))) ->
  forall h,
    fst (cancel_each gw items h) = Ok tt
    /\ requests (snd (cancel_each gw items h)) = map stop_request ids.
Proof.
  induction 1 as [| item id items ids Hid _ IH]; intros Hsettles h.
  - split; reflexivity.
  - cbn [cancel_each].
    rewrite (bind_ok (lift (py_getitem item "order_id")) _ h [] id)
      by (unfold lift; now rewrite Hid).
    cbn [fst snd app]. rewrite app_nil_r.
    destruct (cancel_order_settles id h (Hsettles h id (or_introl eq_refl)))
      as (done & m & Hcancel).
    rewrite (bind_ok _ _ _ _ _ Hcancel). cbn [fst snd].
    destruct (IH (fun h' id' Hin => Hsettles h' id' (or_intror Hin))
                 (h ++ EvRequest (stop_request id) :: map EvLog m))
      as [Hfst Hsnd].
    split; [exact Hfst |].
    cbn [app requests map]. rewrite requests_app, requests_logs.
    cbn [app]. now rewrite Hsnd.
Qed.

(** A listing that comes back is swept in full. *)
Lemma cancel_all_orders_sweeps (pair : option string) (h : trace F)
      (resp : response F) (d : list (string * pyval F))
      (items ids : list (pyval F)) :
  send gw h (listing_request pair) = Replied resp ->
  status_ok (status_code resp) = true ->
  json resp = Some (PDict d) ->
  lookup "orders" d = Some (PList items) ->
  Forall2 (fun item id => py_getitem item "order_id" = Ok id) items ids ->
  (forall h' id, In id ids -> settles (send gw h' (stop_request id))) ->
  fst (cancel_all_orders gw pair h) = Ok tt
  /\ requests (snd (cancel_all_orders gw pair h))
     = listing_request pair :: map stop_request ids.
Proof.
  intros Hsend Hstatus Hjson Hlisted Hids Hsettles.
  pose proof (get_open_orders_cases pair h) as Hc.
  rewrite Hsend, Hstatus in Hc. unfold response_json in Hc.
  rewrite Hjson in Hc. unfold cancel_all_orders.
  rewrite (bind_ok _ _ _ _ _ Hc).
  destruct d as [| kv d]; [discriminate |].
  cbn [truthy negb].
  rewrite (bind_ok (lift (py_contains "orders" (PDict (kv :: d)))) _ _
                   [] true)
    by (unfold lift, py_contains; now rewrite Hlisted).
  cbn [negb].
  rewrite (bind_ok (lift (l <~ py_getitem (PDict (kv :: d)) "orders" ;
                          py_iter l)) _ _ [] items)
    by (unfold lift, py_getitem; now rewrite Hlisted).
  cbn [fst snd app]. rewrite !app_nil_r.
  destruct (cancel_each_sweeps items ids Hids Hsettles
              (h ++ [EvRequest (listing_request pair)])) as [Hfst Hsnd].
  split; [exact Hfst |]. cbn [requests]. now rewrite Hsnd.
Qed.

End Cancelling.

Section Unanswered.

Context {F : Type} `{PyFloat F}.
Variable gw : gateway F.

Lemma cancel_all_orders_unreachable (pair : option string) (h : trace F)
      (e : exn) :
  send gw h (listing_request pair) = Failed e ->
  cancel_all_orders gw pair h
  = (Raise e, [EvRequest (listing_request pair)]).
Proof.
  intros Hsend. pose proof (get_open_orders_cases gw pair h) as Hc.
  rewrite Hsend in Hc. unfold cancel_all_orders.
  now rewrite (bind_raise _ _ _ _ _ Hc).
Qed.

(** A listing that is accepted but is no container of keys. *)
Lemma cancel_all_orders_unreadable (pair : option string) (h : trace F)
      (resp : response F) (body : pyval F) (e : exn) :
  send gw h (listing_request pair) = Replied resp ->
  status_ok (status_code resp) = true ->
  json resp = Some body ->
  truthy body = true ->
  py_contains "orders" body = Raise e ->
  cancel_all_orders gw pair h
  = (Raise e, [EvRequest (listing_request pair)]).
Proof.
  intros Hsend Hstatus Hjson Htruthy Hraise.
  pose proof (get_open_orders_cases gw pair h) as Hc.
  rewrite Hsend, Hstatus in Hc. unfold response_json in Hc.
  rewrite Hjson in Hc. unfold cancel_all_orders.
  rewrite (bind_ok _ _ _ _ _ Hc), Htruthy. cbn [negb].
  unfold bind, lift. rewrite Hraise. reflexivity.
Qed.

Lemma cancel_order_unreachable (order_id : pyval F) (h : trace F) (e : exn) :
  send gw h (stop_request order_id) = Failed e ->
  cancel_order gw order_id h
  = (Raise e, [EvRequest (stop_request order_id)]).
Proof.
  intros Hsend.
  pose proof (make_request_cases gw "POST" "stoporder" []
                [("order_id", FVal order_id)] h) as Hc.
  cbv zeta in Hc. cbn [String.eqb Ascii.eqb Bool.eqb] in Hc.
  fold (stop_request order_id) in Hc. rewrite Hsend in Hc.
  unfold cancel_order. now rewrite (bind_raise _ _ _ _ _ Hc).
Qed.

Lemma cancel_each_fails (good ids rest : list (pyval F))
      (item lost : pyval F) (e : exn) :
  Forall2 (fun item id => py_getitem item "order_id" = Ok id) good ids ->
  py_getitem item "order_id" = Ok lost ->
  (forall h id, In id ids -> settles (send gw h (stop_request id))) ->
  (forall h, send gw h (stop_request lost) = Failed e) ->
  forall h,
    fst (cancel_each gw (good ++ item :: rest) h) = Raise e
    /\ requests (snd (cancel_each gw (good ++ item :: rest) h))
       = map stop_request ids ++ [stop_request lost].
Proof.
  intros Hgood Hitem. induction Hgood as [| first id good ids Hid _ IH];
    intros Hsettles Hlost h.
  - cbn [app cancel_each map].
    rewrite (bind_ok (lift (py_getitem item "order_id")) _ h [] lost)
      by (unfold lift; now rewrite Hitem).
    cbn [fst snd app]. rewrite app_nil_r.
    rewrite (bind_raise _ _ _ _ _
               (cancel_order_unreachable lost h e (Hlost h))).
    split; reflexivity.
  - cbn [app cancel_each].
    rewrite (bind_ok (lift (py_getitem first "order_id")) _ h [] id)
      by (unfold lift; now rewrite Hid).
    cbn [fst snd app]. rewrite app_nil_r.
    destruct (cancel_order_settles gw id h (Hsettles h id (or_introl eq_refl)))
      as (done & m & Hcancel).
    rewrite (bind_ok _ _ _ _ _ Hcancel). cbn [fst snd].
    destruct (IH (fun h' id' Hin => Hsettles h' id' (or_intror Hin)) Hlost
                 (h ++ EvRequest (stop_request id) :: map EvLog m))
      as [Hfst Hsnd].
    split; [exact Hfst |].
    cbn [app requests map]. rewrite requests_app, requests_logs.
    cbn [app]. now rewrite Hsnd.
Qed.

Lemma cancel_all_orders_fails (pair : option string) (h : trace F)
      (resp : response F) (d : list (string * pyval F))
      (good ids rest : list (pyval F)) (item lost : pyval F) (e : exn) :
  send gw h (listing_request pair) = Replied resp ->
  status_ok (status_code resp) = true ->
  json resp = Some (PDict d) ->
  lookup "orders" d = Some (PList (good ++ item :: rest)) ->
  Forall2 (fun item id => py_getitem item "order_id" = Ok id) good ids ->
  py_getitem item "order_id" = Ok lost ->
  (forall h' id, In id ids -> settles (send gw h' (stop_request id))) ->
  (forall h', send gw h' (stop_request lost) = Failed e) ->
  fst (cancel_all_orders gw pair h) = Raise e
  /\ requests (snd (cancel_all_orders gw pair h))
     = listing_request pair :: map stop_request ids ++ [stop_request lost].
Proof.
  intros Hsend Hstatus Hjson Hlisted Hgood Hitem Hsettles Hlost.
  pose proof (get_open_orders_cases gw pair h) as Hc.
  rewrite Hsend, Hstatus in Hc. unfold response_json in Hc.
  rewrite Hjson in Hc. unfold cancel_all_orders.
  rewrite (bind_ok _ _ _ _ _ Hc).
  destruct d as [| kv d]; [discriminate |].
  cbn [truthy negb].
  rewrite (bind_ok (lift (py_contains "orders" (PDict (kv :: d)))) _ _
                   [] true)
    by (unfold lift, py_contains; now rewrite Hlisted).
  cbn [negb].
  rewrite (bind_ok (lift (l <~ py_getitem (PDict (kv :: d)) "orders" ;
                          py_iter l)) _ _ [] (good ++ item :: rest))
    by (unfold lift, py_getitem; now rewrite Hlisted).
  cbn [fst snd app]. rewrite !app_nil_r.
  destruct (cancel_each_fails good ids rest item lost e Hgood Hitem
              Hsettles Hlost (h ++ [EvRequest (listing_request pair)]))
    as [Hfst Hsnd].
  split; [exact Hfst |]. cbn [requests]. now rewrite Hsnd.
Qed.

End Unanswered.

(** C10, as the code has it: when no response comes to the cancel
    request of the first of two listed orders, [cancel_all_orders]
    raises what the HTTP client raised and the second order gets no
    cancel request; when no response comes to the listing request, or
    the listing comes back as a number, it raises as well. *)
Lemma unanswered_cancel_counterexample :
  let pair := Some "XBTZAR" in
  send Venue.cancel_unreachable [] (listing_request pair)
  = Venue.answer 200 Venue.open_orders
  /\ cancel_all_orders Venue.cancel_unreachable pair []
     = (Raise ConnectionError,
        [EvRequest (listing_request pair);
         EvRequest (stop_request (PStr "BXA1"))])
  /\ cancel_all_orders Venue.listing_unreachable pair []
     = (Raise ConnectionError, [EvRequest (listing_request pair)])
  /\ cancel_all_orders Venue.numeric_listing pair []
     = (Raise TypeError, [EvRequest (listing_request pair)]).
Proof. vm_compute. repeat split. Qed.

(** C10, amended: [cancel_all_orders] is best-effort towards answers of
    the venue, not towards exceptions.  When the listing of open orders
    is answered with a status other than 200, 201 or 202, or comes back
    as a dict without an orders field, it returns normally having sent
    nothing but the listing request; when it comes back with a list of
    orders, a cancel request goes out for every listed order, in order,
    however the venue settles each of them (a refusal or a reply without
    success included), and the function returns normally.  But when no
    response comes to the listing request, or the accepted listing is a
    value that cannot be searched for a key, it raises having sent the
    listing request only; and when no response comes to the cancel
    request of a listed order, it raises there: the orders listed before
    it have had their cancel requests, the ones after it get none. *)
Theorem cancel_all_orders_survives_refusals_only :
  forall (F : Type) (HF : PyFloat F) (gw : gateway F) (pair : option string)
         (h : trace F),
    (forall resp : response F,
        send gw h (listing_request pair) = Replied resp ->
        (status_ok (status_code resp) = false ->
         cancel_all_orders gw pair h
         = (Ok tt, [EvRequest (listing_request pair);
                    EvLog (LogApiError (status_code resp) (text resp))]))
        /\ (forall d,
               status_ok (status_code resp) = true ->
               json resp = Some (PDict d) ->
               lookup "orders" d = None ->
               cancel_all_orders gw pair h
               = (Ok tt, [EvRequest (listing_request pair)]))
        /\ (forall d items ids,
               status_ok (status_code resp) = true ->
               json resp = Some (PDict d) ->
               lookup "orders" d = Some (PList items) ->
               Forall2 (fun item id => py_getitem item "order_id" = Ok id)
                       items ids ->
               (forall h' id, In id ids ->
                              settles (send gw h' (stop_request id))) ->
               fst (cancel_all_orders gw pair h) = Ok tt
               /\ requests (snd (cancel_all_orders gw pair h))
                  = listing_request pair :: map stop_request ids)
        /\ (forall body e,
               status_ok (status_code resp) = true ->
               json resp = Some body ->
               truthy body = true ->
               py_contains "orders" body = Raise e ->
               cancel_all_orders gw pair h
               = (Raise e, [EvRequest (listing_request pair)]))
        /\ (forall d good ids rest item lost e,
               status_ok (status_code resp) = true ->
               json resp = Some (PDict d) ->
               lookup "orders" d = Some (PList (good ++ item :: rest)) ->
               Forall2 (fun item id => py_getitem item "order_id" = Ok id)
                       good ids ->
               py_getitem item "order_id" = Ok lost ->
               (forall h' id, In id ids ->
                              settles (send gw h' (stop_request id))) ->
               (forall h', send gw h' (stop_request lost) = Failed e) ->
               fst (cancel_all_orders gw pair h) = Raise e
               /\ requests (snd (cancel_all_orders gw pair h))
                  = listing_request pair
                      :: map stop_request ids ++ [stop_request lost]))
    /\ (forall e : exn,
           send gw h (listing_request pair) = Failed e ->
           cancel_all_orders gw pair h
           = (Raise e, [EvRequest (listing_request pair)])).
Proof.
  intros F HF gw pair h. split.
  - intros resp Hsend. split; [| split; [| split; [| split]]].
    + intros Hstatus. now apply cancel_all_orders_refused.
    + intros d Hstatus Hjson Hmiss.
      now apply (cancel_all_orders_unlisted gw pair h resp d).
    + intros d items ids Hstatus Hjson Hlisted Hids Hsettles.
      now apply (cancel_all_orders_sweeps gw pair h resp d items ids).
    + intros body e Hstatus Hjson Htruthy Hraise.
      now apply (cancel_all_orders_unreadable gw pair h resp body e).
    + intros d good ids rest item lost e Hstatus Hjson Hlisted Hgood Hitem
             Hsettles Hlost.
      now apply (cancel_all_orders_fails gw pair h resp d good ids rest
                                         item lost e).
  - intros e Hsend. now apply cancel_all_orders_unreachable.
Qed.

Lemma cancel_all_orders_survives_refusals_only_witness :
  let pair := Some "XBTZAR" in
  let ids := [PStr "BXA1"; PStr "BXA2"] in
  let items : list (pyval spec_float) :=
    [PDict [("order_id", PStr "BXA1")]; PDict [("order_id", PStr "BXA2")]] in
  cancel_all_orders Venue.no_listing pair []
  = (Ok tt, [EvRequest (listing_request pair);
             EvLog (LogApiError 500 "internal error")])
  /\ cancel_all_orders Venue.bare_listing pair []
     = (Ok tt, [EvRequest (listing_request pair)])
  /\ (forall h' id, In id ids ->
                    settles (send Venue.stubborn h' (stop_request id)))
  /\ cancel_all_orders Venue.stubborn pair []
     = (Ok tt,
        [EvRequest (listing_request pair);
         EvRequest (stop_request (PStr "BXA1"));
         EvLog (LogApiError 400 "order not found");
         EvLog (LogCancelFailed (PStr "BXA1"));
         EvRequest (stop_request (PStr "BXA2"));
         EvLog (LogCancelled (PStr "BXA2"))])
  /\ requests (snd (cancel_all_orders Venue.stubborn pair []))
     = listing_request pair :: map stop_request ids
  /\ cancel_all_orders Venue.numeric_listing pair []
     = (Raise TypeError, [EvRequest (listing_request pair)])
  /\ (forall h', send Venue.cancel_unreachable h' (stop_request (PStr "BXA1"))
                 = Failed ConnectionError)
  /\ fst (cancel_all_orders Venue.cancel_unreachable pair [])
     = Raise ConnectionError
  /\ requests (snd (cancel_all_orders Venue.cancel_unreachable pair []))
     = [listing_request pair; stop_request (PStr "BXA1")]
  /\ cancel_all_orders Venue.listing_unreachable pair []
     = (Raise ConnectionError, [EvRequest (listing_request pair)]).
Proof.
  intros pair ids items.
  assert (Hsettles : forall h' id,
             In id ids -> settles (send Venue.stubborn h' (stop_request id))).
  { intros h' id [<- | [<- | []]].
    - left. reflexivity.
    - right. eexists. split; [reflexivity |]. right. eexists. reflexivity. }
  assert (Hlost : forall h',
             send Venue.cancel_unreachable h' (stop_request (PStr "BXA1"))
             = Failed ConnectionError) by (intros h'; reflexivity).
  pose proof (fun gw => cancel_all_orders_survives_refusals_only
                          spec_float _ gw pair []) as Hthm.
  split; [| split; [| split; [exact Hsettles | split; [| split;
    [| split; [| split; [exact Hlost | split; [| split]]]]]]]].
  - exact (proj1 (proj1 (Hthm Venue.no_listing) _ eq_refl) eq_refl).
  - exact (proj1 (proj2 (proj1 (Hthm Venue.bare_listing) _ eq_refl))
                 _ eq_refl eq_refl eq_refl).
  - vm_compute. reflexivity.
  - refine (proj2 (proj1 (proj2 (proj2 (proj1 (Hthm Venue.stubborn)
                                               _ eq_refl)))
                         _ items ids eq_refl eq_refl eq_refl _ Hsettles)).
    repeat constructor.
  - exact (proj1 (proj2 (proj2 (proj2 (proj1 (Hthm Venue.numeric_listing)
                                             _ eq_refl))))
                 (PInt 2) TypeError eq_refl eq_refl eq_refl eq_refl).
  - refine (proj1 (proj2 (proj2 (proj2 (proj2 (proj1
               (Hthm Venue.cancel_unreachable) _ eq_refl))))
               _ [] [] [PDict [("order_id", PStr "BXA2")]]
               (PDict [("order_id", PStr "BXA1")]) (PStr "BXA1")
               ConnectionError eq_refl eq_refl eq_refl _ eq_refl _ Hlost)).
    + constructor.
    + intros h' id [].
  - refine (proj2 (proj2 (proj2 (proj2 (proj2 (proj1
               (Hthm Venue.cancel_unreachable) _ eq_refl))))
               _ [] [] [PDict [("order_id", PStr "BXA2")]]
               (PDict [("order_id", PStr "BXA1")]) (PStr "BXA1")
               ConnectionError eq_refl eq_refl eq_refl _ eq_refl _ Hlost)).
    + constructor.
    + intros h' id [].
  - exact (proj2 (Hthm Venue.listing_unreachable) ConnectionError eq_refl).
Defined.

Section Shutdown.

Context {F : Type} `{PyFloat F}.
Variable cfg : config F.
Variable gw : gateway F.

(** The loop has no exit of its own. *)
Lemma run_loop_never_returns (fuel : nat) (h : trace F) :
  fst (run_loop cfg gw fuel h) <> Ok tt.
Proof.
  revert h. induction fuel as [| fuel IH]; intros h; [discriminate |].
  cbn [run_loop]. rewrite !fst_bind.
  repeat match goal with
         | |- match ?x with _ => _ end <> _ => destruct x; try discriminate
         end.
  apply IH.
Qed.

Lemma on_exit_caught (e : exn) :
  e = KeyboardInterrupt \/ is_Exception e = true ->
  on_exit gw e = Some (log (exit_line e) ;; cancel_all_orders gw None).
Proof.
  intros [-> | He]; [reflexivity |].
  destruct e; try discriminate; reflexivity.
Qed.

Lemma main_caught (fuel : nat) (h es : trace F) (e : exn) :
  unset (API_KEY cfg) || unset (API_SECRET cfg) = false ->
  run_loop cfg gw fuel (h ++ [EvLog LogStarting]) = (Raise e, es) ->
  e = KeyboardInterrupt \/ is_Exception e = true ->
  let before := EvLog LogStarting :: es ++ [EvLog (exit_line e)] in
  main cfg gw fuel h
  = (fst (cancel_all_orders gw None (h ++ before)),
     before ++ snd (cancel_all_orders gw None (h ++ before))).
Proof.
  intros Hcreds Hloop He before. unfold main.
  rewrite (bind_ok (log LogStarting) _ h _ _ eq_refl), Hcreds.
  unfold try_except. rewrite Hloop, (on_exit_caught e He).
  rewrite (bind_ok (log (exit_line e)) _ _ _ _ eq_refl).
  replace (((h ++ [EvLog LogStarting]) ++ es) ++ [EvLog (exit_line e)])
    with (h ++ before)
    by (unfold before; cbn [app]; now rewrite <- !app_assoc).
  cbn [fst snd]. unfold before. cbn [app].
  now rewrite <- !app_assoc.
Qed.

End Shutdown.

(** C8: whenever the run loop ends on a keyboard interrupt or on any
    [Exception], whatever pair or step it was at, [main] logs the exit and
    runs [cancel_all_orders] without a pair: what [main] does from there
    on is that sweep, which begins with the listing of the open orders of
    all pairs and, when the listing comes back, sends a cancel request for
    every order in it. *)
Theorem shutdown_sweeps_all_orders :
  forall (F : Type) (HF : PyFloat F) (cfg : config F) (gw : gateway F)
         (fuel : nat) (h es : trace F) (e : exn),
    unset (API_KEY cfg) || unset (API_SECRET cfg) = false ->
    run_loop cfg gw fuel (h ++ [EvLog LogStarting]) = (Raise e, es) ->
    e = KeyboardInterrupt \/ is_Exception e = true ->
    let before := EvLog LogStarting :: es ++ [EvLog (exit_line e)] in
    let sweep := cancel_all_orders gw None (h ++ before) in
    main cfg gw fuel h = (fst sweep, before ++ snd sweep)
    /\ (exists rest,
           snd sweep
           = EvRequest {| method := "GET"; endpoint := "listorders";
                          payload := [] |} :: rest)
    /\ (forall resp d items ids,
           send gw (h ++ before) (listing_request None) = Replied resp ->
           status_ok (status_code resp) = true ->
           json resp = Some (PDict d) ->
           lookup "orders" d = Some (PList items) ->
           Forall2 (fun item id => py_getitem item "order_id" = Ok id)
                   items ids ->
           (forall h' id, In id ids ->
                          settles (send gw h' (stop_request id))) ->
           fst sweep = Ok tt
           /\ requests (snd sweep)
              = listing_request None :: map stop_request ids).
Proof.
  intros F HF cfg gw fuel h es e Hcreds Hloop He before sweep.
  split; [| split].
  - now apply main_caught.
  - exact (cancel_all_orders_starts gw None (h ++ before)).
  - intros resp d items ids Hsend Hstatus Hjson Hlisted Hids Hsettles.
    now apply (cancel_all_orders_sweeps gw None _ resp d items ids).
Qed.

Lemma shutdown_sweeps_all_orders_witness :
  let interrupted := run_loop Venue.cfg Venue.interrupted 3 [EvLog LogStarting] in
  let broken := run_loop Venue.cfg (Venue.one_ticker_broken "ETHZAR") 3
                         [EvLog LogStarting] in
  fst interrupted = Raise KeyboardInterrupt
  /\ fst broken = Raise (KeyError "bid")
  /\ fst (main Venue.cfg Venue.interrupted 3 []) = Ok tt
  /\ (exists before,
         snd (main Venue.cfg Venue.interrupted 3 [])
         = before ++ [EvLog LogStopped;
                      EvRequest (listing_request None);
                      EvRequest (stop_request (PStr "BXA1"));
                      EvLog (LogCancelled (PStr "BXA1"));
                      EvRequest (stop_request (PStr "BXA2"));
                      EvLog (LogCancelled (PStr "BXA2"))])
  /\ (exists before,
         snd (main Venue.cfg (Venue.one_ticker_broken "ETHZAR") 3 [])
         = before ++ [EvLog (LogUnexpected (KeyError "bid"));
                      EvRequest (listing_request None);
                      EvRequest (stop_request (PStr "BXA1"));
                      EvLog (LogCancelled (PStr "BXA1"));
                      EvRequest (stop_request (PStr "BXA2"));
                      EvLog (LogCancelled (PStr "BXA2"))]).
Proof.
  intros interrupted broken.
  assert (Hi : interrupted = (Raise KeyboardInterrupt, snd interrupted))
    by (vm_compute; reflexivity).
  assert (Hb : broken = (Raise (KeyError "bid"), snd broken))
    by (vm_compute; reflexivity).
  destruct (shutdown_sweeps_all_orders
              _ _ Venue.cfg Venue.interrupted 3 [] (snd interrupted)
              KeyboardInterrupt eq_refl Hi (or_introl eq_refl))
    as (Hmain & _ & _).
  destruct (shutdown_sweeps_all_orders
              _ _ Venue.cfg (Venue.one_ticker_broken "ETHZAR") 3 []
              (snd broken) (KeyError "bid") eq_refl Hb (or_intror eq_refl))
    as (Hmain' & _ & _).
  split; [now rewrite Hi | split; [now rewrite Hb | split; [| split]]].
  - rewrite Hmain. vm_compute. reflexivity.
  - rewrite Hmain. exists (EvLog LogStarting :: snd interrupted).
    cbn [snd]. rewrite app_comm_cons, <- app_assoc. f_equal.
  - rewrite Hmain'. exists (EvLog LogStarting :: snd broken).
    cbn [snd]. rewrite app_comm_cons, <- app_assoc. f_equal.
Defined.

(** ** The order of the requests for one pair *)

Section Order.

Context {F : Type} `{PyFloat F}.
Variable cfg : config F.
Variable gw : gateway F.












End Order.


(** The buy order is sent before the sell side is sized: when the base
    asset's record cannot be read, the buy order is out already. *)
Example buy_sent_before_sell_is_sized :
  let balances := PList [account_of "ZAR" (PStr "10000.00") (PStr "0.00");
                         account_of "XBT" (PStr "n/a") (PStr "0.00")] in
  let run := process_pair Venue.cfg Venue.healthy balances [] "XBTZAR" [] in
  fst run = Raise ValueError
  /\ phases (snd run) = [PhTicker; PhCancel; PhCancel; PhCancel; PhBuy].
Proof. vm_compute. split; reflexivity. Qed.



(** ** A ticker without its prices *)

Section Invalid.

Context {F : Type} `{PyFloat F}.
Variable cfg : config F.
Variable gw : gateway F.








End Invalid.




(* ================================================================== *)
(** * Part III: further properties of the bot                           *)
(* ================================================================== *)

(** ** Requests and their replies *)

(** [make_request] sends exactly one request, with the query fields for a
    GET and the form fields for anything else; a reply whose status is not
    200, 201 or 202 gives [None] and one log line, without the body being
    decoded; an accepted reply gives the decoded body or the decoder's
    exception; and what the HTTP client raises is passed on. *)
Theorem make_request_outcomes :
  forall (F : Type) (HF : PyFloat F) (gw : gateway F) (meth endp : string)
         (params data : list (string * field F)) (h : trace F),
    let r := {| method := meth; endpoint := endp;
                payload := if String.eqb meth "GET" then params else data |} in
    requests (snd (make_request gw meth endp params data h)) = [r]
    /\ (forall resp,
           send gw h r = Replied resp ->
           status_ok (status_code resp) = false ->
           make_request gw meth endp params data h
           = (Ok PNone,
              [EvRequest r;
               EvLog (LogApiError (status_code resp) (text resp))]))
    /\ (forall resp,
           send gw h r = Replied resp ->
           status_ok (status_code resp) = true ->
           make_request gw meth endp params data h
           = (match json resp with
              | Some body => Ok body
              | None => Raise JSONDecodeError
              end, [EvRequest r]))
    /\ (forall e,
           send gw h r = Failed e ->
           make_request gw meth endp params data h
           = (Raise e, [EvRequest r])).
Proof.
  intros F HF gw meth endp params data h r.
  pose proof (make_request_cases gw meth endp params data h) as Hc.
  cbv zeta in Hc. fold r in Hc.
  split; [| split; [| split]].
  - destruct (send gw h r) as [resp | e].
    + destruct (status_ok (status_code resp)); now rewrite Hc.
    + now rewrite Hc.
  - intros resp Hsend Hstatus. now rewrite Hsend, Hstatus in Hc.
  - intros resp Hsend Hstatus. now rewrite Hsend, Hstatus in Hc.
  - intros e Hsend. now rewrite Hsend in Hc.
Qed.

Lemma make_request_outcomes_witness :
  make_request Venue.no_listing "GET" "listorders" [] [] []
  = (Ok PNone, [EvRequest (listing_request None);
                EvLog (LogApiError 500 "internal error")])
  /\ make_request Venue.bare_listing "GET" "listorders" [] [] []
     = (Ok (PDict [("count", PInt 0)]), [EvRequest (listing_request None)]).
Proof.
  split.
  - exact (proj1 (proj2 (make_request_outcomes
                           _ _ Venue.no_listing "GET" "listorders" [] [] []))
                 _ eq_refl eq_refl).
  - exact (proj1 (proj2 (proj2 (make_request_outcomes
                                  _ _ Venue.bare_listing "GET" "listorders"
                                  [] [] [])))
                 _ eq_refl eq_refl).
Defined.

Section Orders.

Context {F : Type} `{PyFloat F}.
Variable cfg : config F.
Variable gw : gateway F.

Lemma create_order_cases (pair order_type : string) (volume price : F)
      (h : trace F) :
  let r := order_request cfg pair order_type volume price in
  match send gw h r with
  | Failed e => make_request gw "POST" "postorder" [] (payload r) h
                = (Raise e, [EvRequest r])
  | Replied resp =>
      if status_ok (status_code resp)
      then make_request gw "POST" "postorder" [] (payload r) h
           = (response_json resp, [EvRequest r])
      else make_request gw "POST" "postorder" [] (payload r) h
           = (Ok PNone, [EvRequest r;
                         EvLog (LogApiError (status_code resp) (text resp))])
  end.
Proof.
  exact (make_request_cases gw "POST" "postorder" [] _ h).
Qed.

Lemma create_order_refused (pair order_type : string) (volume price : F)
      (h : trace F) (resp : response F) :
  send gw h (order_request cfg pair order_type volume price) = Replied resp ->
  status_ok (status_code resp) = false ->
  create_order cfg gw pair order_type volume price h
  = (Ok PNone,
     [EvRequest (order_request cfg pair order_type volume price);
      EvLog (LogApiError (status_code resp) (text resp));
      EvLog (LogCreateFailed order_type pair)]).
Proof.
  intros Hsend Hstatus.
  pose proof (create_order_cases pair order_type volume price h) as Hc.
  cbv zeta in Hc. rewrite Hsend, Hstatus in Hc.
  cbn [payload order_request] in Hc.
  unfold create_order. rewrite (bind_ok _ _ _ _ _ Hc). reflexivity.
Qed.

Lemma create_order_dict (pair order_type : string) (volume price : F)
      (h : trace F) (resp : response F) (d : list (string * pyval F)) :
  send gw h (order_request cfg pair order_type volume price) = Replied resp ->
  status_ok (status_code resp) = true ->
  json resp = Some (PDict d) ->
  create_order cfg gw pair order_type volume price h
  = match lookup "order_id" d with
    | Some order_id =>
        (Ok order_id,
         [EvRequest (order_request cfg pair order_type volume price);
          EvLog (LogCreated order_type pair volume price order_id)])
    | None =>
        (Ok PNone,
         [EvRequest (order_request cfg pair order_type volume price);
          EvLog (LogCreateFailed order_type pair)])
    end.
Proof.
  intros Hsend Hstatus Hjson.
  pose proof (create_order_cases pair order_type volume price h) as Hc.
  cbv zeta in Hc. rewrite Hsend, Hstatus in Hc.
  unfold response_json in Hc. rewrite Hjson in Hc.
  cbn [payload order_request] in Hc.
  unfold create_order. rewrite (bind_ok _ _ _ _ _ Hc).
  destruct d as [| kv d]; [reflexivity |].
  cbn [truthy py_contains].
  destruct (lookup "order_id" (kv :: d)) as [order_id |] eqn:Hid.
  - unfold bind, lift, log, py_getitem. rewrite Hid. reflexivity.
  - reflexivity.
Qed.

Lemma create_order_text (pair order_type : string) (volume price : F)
      (h : trace F) (resp : response F) (s : string) :
  send gw h (order_request cfg pair order_type volume price) = Replied resp ->
  status_ok (status_code resp) = true ->
  json resp = Some (PStr s) ->
  is_substring "order_id" s = true ->
  create_order cfg gw pair order_type volume price h
  = (Raise TypeError,
     [EvRequest (order_request cfg pair order_type volume price)]).
Proof.
  intros Hsend Hstatus Hjson Hsub.
  pose proof (create_order_cases pair order_type volume price h) as Hc.
  cbv zeta in Hc. rewrite Hsend, Hstatus in Hc.
  unfold response_json in Hc. rewrite Hjson in Hc.
  cbn [payload order_request] in Hc.
  unfold create_order. rewrite (bind_ok _ _ _ _ _ Hc).
  assert (Hs : truthy (PStr s) = true).
  { destruct s; [discriminate | reflexivity]. }
  rewrite Hs. cbn [py_contains]. rewrite Hsub. reflexivity.
Qed.

Lemma cancel_order_cases (order_id : pyval F) (h : trace F) :
  match send gw h (stop_request order_id) with
  | Failed e => make_request gw "POST" "stoporder" []
                             [("order_id", FVal order_id)] h
                = (Raise e, [EvRequest (stop_request order_id)])
  | Replied resp =>
      if status_ok (status_code resp)
      then make_request gw "POST" "stoporder" []
                        [("order_id", FVal order_id)] h
           = (response_json resp, [EvRequest (stop_request order_id)])
      else make_request gw "POST" "stoporder" []
                        [("order_id", FVal order_id)] h
           = (Ok PNone,
              [EvRequest (stop_request order_id);
               EvLog (LogApiError (status_code resp) (text resp))])
  end.
Proof.
  exact (make_request_cases gw "POST" "stoporder" [] _ h).
Qed.

Lemma cancel_order_dict (order_id : pyval F) (h : trace F)
      (resp : response F) (d : list (string * pyval F)) :
  send gw h (stop_request order_id) = Replied resp ->
  status_ok (status_code resp) = true ->
  json resp = Some (PDict d) ->
  let done := match lookup "success" d with
              | Some flag => truthy flag
              | None => false
              end in
  cancel_order gw order_id h
  = (Ok done,
     [EvRequest (stop_request order_id);
      EvLog (if done then LogCancelled order_id
             else LogCancelFailed order_id)]).
Proof.
  intros Hsend Hstatus Hjson done.
  pose proof (cancel_order_cases order_id h) as Hc.
  rewrite Hsend, Hstatus in Hc. unfold response_json in Hc.
  rewrite Hjson in Hc. unfold cancel_order.
  rewrite (bind_ok _ _ _ _ _ Hc). subst done.
  destruct d as [| kv d]; [reflexivity |].
  cbn [truthy py_get obind].
  destruct (lookup "success" (kv :: d)) as [flag |]; [| reflexivity].
  destruct (truthy flag); reflexivity.
Qed.

Lemma cancel_order_refused (order_id : pyval F) (h : trace F)
      (resp : response F) :
  send gw h (stop_request order_id) = Replied resp ->
  status_ok (status_code resp) = false ->
  cancel_order gw order_id h
  = (Ok false,
     [EvRequest (stop_request order_id);
      EvLog (LogApiError (status_code resp) (text resp));
      EvLog (LogCancelFailed order_id)]).
Proof.
  intros Hsend Hstatus.
  pose proof (cancel_order_cases order_id h) as Hc.
  rewrite Hsend, Hstatus in Hc. unfold cancel_order.
  rewrite (bind_ok _ _ _ _ _ Hc). reflexivity.
Qed.

Lemma cancel_order_not_a_dict (order_id : pyval F) (h : trace F)
      (resp : response F) (body : pyval F) :
  send gw h (stop_request order_id) = Replied resp ->
  status_ok (status_code resp) = true ->
  json resp = Some body ->
  truthy body = true ->
  (forall d, body <> PDict d) ->
  cancel_order gw order_id h
  = (Raise AttributeError, [EvRequest (stop_request order_id)]).
Proof.
  intros Hsend Hstatus Hjson Htruthy Hshape.
  pose proof (cancel_order_cases order_id h) as Hc.
  rewrite Hsend, Hstatus in Hc. unfold response_json in Hc.
  rewrite Hjson in Hc. unfold cancel_order.
  rewrite (bind_ok _ _ _ _ _ Hc), Htruthy.
  destruct body; try reflexivity. now destruct (Hshape d).
Qed.

End Orders.

(** [create_order] hands back the venue's order id exactly when the reply
    is accepted and is a dict with an [order_id]; a refusal, or a dict
    without that key, gives [None] and a failure line, never an
    exception; but an accepted reply that is a text containing
    [order_id] passes the membership test and then fails to be indexed:
    a [TypeError], with nothing logged. *)
Theorem create_order_outcomes :
  forall (F : Type) (HF : PyFloat F) (cfg : config F) (gw : gateway F)
         (pair order_type : string) (volume price : F) (h : trace F)
         (resp : response F),
    let r := order_request cfg pair order_type volume price in
    send gw h r = Replied resp ->
    (status_ok (status_code resp) = false ->
     create_order cfg gw pair order_type volume price h
     = (Ok PNone,
        [EvRequest r; EvLog (LogApiError (status_code resp) (text resp));
         EvLog (LogCreateFailed order_type pair)]))
    /\ (forall d,
           status_ok (status_code resp) = true ->
           json resp = Some (PDict d) ->
           create_order cfg gw pair order_type volume price h
           = match lookup "order_id" d with
             | Some order_id =>
                 (Ok order_id,
                  [EvRequest r;
                   EvLog (LogCreated order_type pair volume price order_id)])
             | None =>
                 (Ok PNone,
                  [EvRequest r; EvLog (LogCreateFailed order_type pair)])
             end)
    /\ (forall s,
           status_ok (status_code resp) = true ->
           json resp = Some (PStr s) ->
           is_substring "order_id" s = true ->
           create_order cfg gw pair order_type volume price h
           = (Raise TypeError, [EvRequest r])).
Proof.
  intros F HF cfg gw pair order_type volume price h resp r Hsend.
  split; [| split].
  - now apply create_order_refused.
  - intros d. now apply create_order_dict.
  - intros s. now apply create_order_text.
Qed.

Lemma create_order_outcomes_witness :
  let volume := B64.dec 1 (-3) in
  let price := B64.dec 1006005 0 in
  let r := order_request Venue.cfg "XBTZAR" "ASK" volume price in
  create_order Venue.cfg Scripted.refusing "XBTZAR" "ASK" volume price []
  = (Ok PNone, [EvRequest r; EvLog (LogApiError 503 "unavailable");
                EvLog (LogCreateFailed "ASK" "XBTZAR")])
  /\ create_order Venue.cfg (Scripted.saying (PDict [("order_id", PStr "BXN7")]))
                  "XBTZAR" "ASK" volume price []
     = (Ok (PStr "BXN7"),
        [EvRequest r;
         EvLog (LogCreated "ASK" "XBTZAR" volume price (PStr "BXN7"))])
  /\ create_order Venue.cfg (Scripted.saying (PStr "no order_id assigned"))
                  "XBTZAR" "ASK" volume price []
     = (Raise TypeError, [EvRequest r]).
Proof.
  intros volume price r. split; [| split].
  - exact (proj1 (create_order_outcomes
                    _ _ Venue.cfg Scripted.refusing "XBTZAR" "ASK" volume
                    price [] _ eq_refl) eq_refl).
  - exact (proj1 (proj2 (create_order_outcomes
                           _ _ Venue.cfg
                           (Scripted.saying (PDict [("order_id", PStr "BXN7")]))
                           "XBTZAR" "ASK" volume price [] _ eq_refl))
                 _ eq_refl eq_refl).
  - exact (proj2 (proj2 (create_order_outcomes
                           _ _ Venue.cfg
                           (Scripted.saying (PStr "no order_id assigned"))
                           "XBTZAR" "ASK" volume price [] _ eq_refl))
                 _ eq_refl eq_refl eq_refl).
Defined.

(** [cancel_order] answers [True] exactly when the reply is accepted and
    is a dict whose [success] entry is truthy; a refusal, or a dict
    without a truthy [success], gives [False] and a failure line; an
    accepted reply that is truthy but no dict (a list, a text, a number)
    makes it raise [AttributeError]. *)
Theorem cancel_order_outcomes :
  forall (F : Type) (HF : PyFloat F) (gw : gateway F) (order_id : pyval F)
         (h : trace F) (resp : response F),
    send gw h (stop_request order_id) = Replied resp ->
    (status_ok (status_code resp) = false ->
     cancel_order gw order_id h
     = (Ok false,
        [EvRequest (stop_request order_id);
         EvLog (LogApiError (status_code resp) (text resp));
         EvLog (LogCancelFailed order_id)]))
    /\ (forall d,
           status_ok (status_code resp) = true ->
           json resp = Some (PDict d) ->
           let done := match lookup "success" d with
                       | Some flag => truthy flag
                       | None => false
                       end in
           cancel_order gw order_id h
           = (Ok done,
              [EvRequest (stop_request order_id);
               EvLog (if done then LogCancelled order_id
                      else LogCancelFailed order_id)]))
    /\ (forall body,
           status_ok (status_code resp) = true ->
           json resp = Some body ->
           truthy body = true ->
           (forall d, body <> PDict d) ->
           cancel_order gw order_id h
           = (Raise AttributeError, [EvRequest (stop_request order_id)])).
Proof.
  intros F HF gw order_id h resp Hsend. split; [| split].
  - now apply cancel_order_refused.
  - intros d. now apply cancel_order_dict.
  - intros body. now apply cancel_order_not_a_dict.
Qed.

Lemma cancel_order_outcomes_witness :
  let id : pyval spec_float := PStr "BXA1" in
  cancel_order Scripted.refusing id []
  = (Ok false, [EvRequest (stop_request id);
                EvLog (LogApiError 503 "unavailable");
                EvLog (LogCancelFailed id)])
  /\ cancel_order (Scripted.saying (PDict [("success", PInt 0)])) id []
     = (Ok false, [EvRequest (stop_request id); EvLog (LogCancelFailed id)])
  /\ cancel_order (Scripted.saying (PList [PStr "ok"])) id []
     = (Raise AttributeError, [EvRequest (stop_request id)]).
Proof.
  intros id. split; [| split].
  - exact (proj1 (cancel_order_outcomes _ _ Scripted.refusing id [] _ eq_refl)
                 eq_refl).
  - exact (proj1 (proj2 (cancel_order_outcomes
                           _ _ (Scripted.saying (PDict [("success", PInt 0)]))
                           id [] _ eq_refl))
                 _ eq_refl eq_refl).
  - refine (proj2 (proj2 (cancel_order_outcomes
                            _ _ (Scripted.saying (PList [PStr "ok"]))
                            id [] _ eq_refl))
                  _ eq_refl eq_refl eq_refl _).
    intros d. discriminate.
Defined.

(** ** The sweep and a malformed listing *)

Section Sweep.

Context {F : Type} `{PyFloat F}.
Variable gw : gateway F.

Lemma cancel_each_stops (good ids : list (pyval F)) (bad : pyval F)
      (rest : list (pyval F)) (e : exn) :
  Forall2 (fun item id => py_getitem item "order_id" = Ok id) good ids ->
  py_getitem bad "order_id" = Raise e ->
  (forall h id, In id ids -> settles (send gw h (stop_request id))) ->
  forall h,
    fst (cancel_each gw (good ++ bad :: rest) h) = Raise e
    /\ requests (snd (cancel_each gw (good ++ bad :: rest) h))
       = map stop_request ids.
Proof.
  intros Hgood Hbad. induction Hgood as [| item id good ids Hid _ IH];
    intros Hsettles h.
  - cbn [app cancel_each]. unfold bind, lift. rewrite Hbad.
    split; reflexivity.
  - cbn [app cancel_each].
    rewrite (bind_ok (lift (py_getitem item "order_id")) _ h [] id)
      by (unfold lift; now rewrite Hid).
    cbn [fst snd app]. rewrite app_nil_r.
    destruct (cancel_order_settles gw id h (Hsettles h id (or_introl eq_refl)))
      as (done & m & Hcancel).
    rewrite (bind_ok _ _ _ _ _ Hcancel). cbn [fst snd].
    destruct (IH (fun h' id' Hin => Hsettles h' id' (or_intror Hin))
                 (h ++ EvRequest (stop_request id) :: map EvLog m))
      as [Hfst Hsnd].
    split; [exact Hfst |].
    cbn [app requests map]. rewrite requests_app, requests_logs.
    cbn [app]. now rewrite Hsnd.
Qed.

End Sweep.

(** One listed order without an [order_id] ends the sweep: the orders
    listed before it get their cancel request, the ones after it get
    none, and [cancel_all_orders] raises (a [KeyError] for a dict without
    the key, a [TypeError] for an entry that is no dict). *)
Theorem malformed_order_ends_the_sweep :
  forall (F : Type) (HF : PyFloat F) (gw : gateway F) (pair : option string)
         (h : trace F) (resp : response F) (d : list (string * pyval F))
         (good ids rest : list (pyval F)) (bad : pyval F) (e : exn),
    send gw h (listing_request pair) = Replied resp ->
    status_ok (status_code resp) = true ->
    json resp = Some (PDict d) ->
    lookup "orders" d = Some (PList (good ++ bad :: rest)) ->
    Forall2 (fun item id => py_getitem item "order_id" = Ok id) good ids ->
    py_getitem bad "order_id" = Raise e ->
    (forall h' id, In id ids -> settles (send gw h' (stop_request id))) ->
    fst (cancel_all_orders gw pair h) = Raise e
    /\ requests (snd (cancel_all_orders gw pair h))
       = listing_request pair :: map stop_request ids.
Proof.
  intros F HF gw pair h resp d good ids rest bad e
         Hsend Hstatus Hjson Hlisted Hgood Hbad Hsettles.
  pose proof (get_open_orders_cases gw pair h) as Hc.
  rewrite Hsend, Hstatus in Hc. unfold response_json in Hc.
  rewrite Hjson in Hc. unfold cancel_all_orders.
  rewrite (bind_ok _ _ _ _ _ Hc).
  destruct d as [| kv d]; [discriminate |].
  cbn [truthy negb].
  rewrite (bind_ok (lift (py_contains "orders" (PDict (kv :: d)))) _ _
                   [] true)
    by (unfold lift, py_contains; now rewrite Hlisted).
  cbn [negb].
  rewrite (bind_ok (lift (l <~ py_getitem (PDict (kv :: d)) "orders" ;
                          py_iter l)) _ _ [] (good ++ bad :: rest))
    by (unfold lift, py_getitem; now rewrite Hlisted).
  cbn [fst snd app]. rewrite !app_nil_r.
  destruct (cancel_each_stops gw good ids bad rest e Hgood Hbad Hsettles
              (h ++ [EvRequest (listing_request pair)])) as [Hfst Hsnd].
  split; [exact Hfst |]. cbn [requests]. now rewrite Hsnd.
Qed.

Lemma malformed_order_ends_the_sweep_witness :
  let listing : pyval spec_float :=
    PDict [("orders", PList [PDict [("order_id", PStr "BXA1")];
                             PDict [("id", PStr "BXA2")];
                             PDict [("order_id", PStr "BXA3")]])] in
  let gw := Venue.venue (fun _ => Venue.answer 200 Venue.ticker)
                        (Venue.answer 200 listing)
                        (fun _ => Venue.cancelled) None in
  fst (cancel_all_orders gw None []) = Raise (KeyError "order_id")
  /\ requests (snd (cancel_all_orders gw None []))
     = [listing_request None; stop_request (PStr "BXA1")].
Proof.
  intros listing gw.
  refine (malformed_order_ends_the_sweep
            _ _ gw None [] _ _ [PDict [("order_id", PStr "BXA1")]]
            [PStr "BXA1"] [PDict [("order_id", PStr "BXA3")]]
            (PDict [("id", PStr "BXA2")]) (KeyError "order_id")
            eq_refl eq_refl eq_refl eq_refl _ eq_refl _).
  - repeat constructor.
  - intros h' id [<- | []]. right. eexists. split; [reflexivity |].
    right. eexists. reflexivity.
Defined.

(** ** Balances and sizes *)

Section Balances.

Context {F : Type} `{PyFloat F}.
Variable cfg : config F.

Lemma find_account_stops (asset : string) (before rest : list (pyval F))
      (bad : pyval F) (e : exn) :
  Forall (other_asset asset) before ->
  py_getitem bad "asset" = Raise e ->
  find_account (before ++ bad :: rest) asset = Raise e.
Proof.
  intros Hbefore Hbad.
  rewrite (find_account_skips asset before (bad :: rest) Hbefore).
  cbn [find_account]. now rewrite Hbad.
Qed.

Lemma get_asset_balance_of_dict (d : list (string * pyval F))
      (asset : string) :
  d <> [] -> get_asset_balance (PDict d) asset = Raise TypeError.
Proof.
  intros Hd. destruct d as [| [k v] d]; [contradiction | reflexivity].
Qed.

Lemma slices_partition (n : nat) (s : string) :
  (slice_to n s ++ slice_from n s)%string = s.
Proof.
  unfold slice_to, slice_from.
  rewrite <- (string_of_list_ascii_of_string s) at 3.
  rewrite <- (firstn_skipn n (list_ascii_of_string s)) at 3.
  generalize (firstn n (list_ascii_of_string s)) as l1.
  generalize (skipn n (list_ascii_of_string s)) as l2.
  intros l2 l1. induction l1 as [| c l1 IH]; [reflexivity |].
  cbn. now rewrite IH.
Qed.

Lemma slice_to_length (n : nat) (s : string) :
  (String.length (slice_to n s) <= n)%nat.
Proof.
  unfold slice_to.
  assert (Hlen : forall l, String.length (string_of_list_ascii l) = length l).
  { induction l as [| c l IH]; [reflexivity | cbn; now rewrite IH]. }
  rewrite Hlen. apply firstn_le_length.
Qed.

Lemma find_account_without (asset : string) (before after : list (pyval F))
      (account name : pyval F) :
  py_getitem account "asset" = Ok name ->
  py_eq_str name asset = false ->
  find_account (before ++ account :: after) asset
  = find_account (before ++ after) asset.
Proof.
  intros Hname Hother. induction before as [| first before IH].
  - cbn [app find_account]. rewrite Hname. cbn [obind]. now rewrite Hother.
  - cbn [app find_account].
    destruct (py_getitem first "asset") as [n | e |]; cbn [obind];
      try reflexivity.
    destruct (py_eq_str n asset); [reflexivity | exact IH].
Qed.

Lemma sell_ignores_price (pair side : string) (balances : pyval F)
      (p1 p2 : F) :
  String.eqb side "BUY" = false ->
  calculate_order_size cfg pair balances p1 side
  = calculate_order_size cfg pair balances p2 side.
Proof. intros Hside. unfold calculate_order_size. now rewrite Hside. Qed.

End Balances.

(** [get_asset_balance] reads the accounts in order and stops at the
    first one for the asset: accounts after it are never read, whatever
    they hold; an account before it that is no dict or has no [asset]
    makes the lookup raise, even though the asset's record follows. *)
Theorem balances_are_read_in_order :
  forall (F : Type) (HF : PyFloat F) (asset : string)
         (before after : list (pyval F)),
    Forall (other_asset asset) before ->
    (forall (account name vb vr : pyval F) (total res : F),
        py_getitem account "asset" = Ok name ->
        py_eq_str name asset = true ->
        py_getitem account "balance" = Ok vb -> to_float vb = Ok total ->
        py_getitem account "reserved" = Ok vr -> to_float vr = Ok res ->
        get_asset_balance (PList (before ++ account :: after)) asset
        = Ok {| balance := total; reserved := res;
                available := fsub total res |})
    /\ (forall (bad : pyval F) (e : exn),
           py_getitem bad "asset" = Raise e ->
           get_asset_balance (PList (before ++ bad :: after)) asset
           = Raise e).
Proof.
  intros F HF asset before after Hbefore. split.
  - intros account name vb vr total res Hname Heq Hb Hfb Hr Hfr.
    unfold get_asset_balance; cbn [py_iter obind].
    rewrite (find_account_skips asset before _ Hbefore). cbn [find_account].
    rewrite Hname; cbn [obind]. rewrite Heq.
    rewrite Hb; cbn [obind]. rewrite Hfb; cbn [obind].
    rewrite Hr; cbn [obind]. rewrite Hfr; cbn [obind]. reflexivity.
  - intros bad e Hbad. unfold get_asset_balance; cbn [py_iter obind].
    now apply find_account_stops.
Qed.

Lemma balances_are_read_in_order_witness :
  let zar : pyval spec_float :=
    account_of "ZAR" (PStr "10000.00") (PStr "0.00") in
  let first : pyval spec_float :=
    account_of "XBT" (PStr "0.05") (PStr "0.01") in
  let second : pyval spec_float := account_of "XBT" (PStr "n/a") PNone in
  Forall (other_asset "XBT") [zar]
  /\ get_asset_balance (PList ([zar] ++ first :: [second])) "XBT"
     = Ok {| balance := B64.dec 5 (-2); reserved := B64.dec 1 (-2);
             available := B64.sub (B64.dec 5 (-2)) (B64.dec 1 (-2)) |}
  /\ get_asset_balance (PList ([zar] ++ PStr "XBT" :: [first])) "XBT"
     = Raise TypeError.
Proof.
  intros zar first second.
  assert (Hbefore : Forall (other_asset "XBT") [zar]).
  { repeat constructor. exists (PStr "ZAR"). split; reflexivity. }
  split; [exact Hbefore | split].
  - exact (proj1 (balances_are_read_in_order _ _ "XBT" [zar] [second] Hbefore)
                 first (PStr "XBT") (PStr "0.05") (PStr "0.01")
                 (B64.dec 5 (-2)) (B64.dec 1 (-2))
                 eq_refl eq_refl eq_refl eq_refl eq_refl eq_refl).
  - exact (proj2 (balances_are_read_in_order _ _ "XBT" [zar] [first] Hbefore)
                 (PStr "XBT") TypeError eq_refl).
Defined.

(** Balances that come as a dict with entries, rather than as a list of
    accounts, cannot be sized against: iterating the dict yields its
    keys, and indexing a key by ["asset"] is a [TypeError], for every
    pair, price and side. *)
Theorem dict_of_balances_is_a_type_error :
  forall (F : Type) (HF : PyFloat F) (cfg : config F)
         (d : list (string * pyval F)) (pair side : string) (price : F),
    d <> [] ->
    calculate_order_size cfg pair (PDict d) price side = Raise TypeError.
Proof.
  intros F HF cfg d pair side price Hd. unfold calculate_order_size.
  destruct (String.eqb side "BUY");
    now rewrite (get_asset_balance_of_dict d _ Hd).
Qed.

Lemma dict_of_balances_is_a_type_error_witness :
  let wrapped : list (string * pyval spec_float) :=
    [("balance", PList [account_of "XBT" (PStr "0.05") (PStr "0.00")])] in
  wrapped <> []
  /\ calculate_order_size Venue.cfg "XBTZAR" (PDict wrapped)
                          (B64.dec 1006005 0) "ASK" = Raise TypeError.
Proof.
  intros wrapped.
  assert (Hd : wrapped <> []) by discriminate.
  split; [exact Hd |].
  exact (dict_of_balances_is_a_type_error
           _ _ Venue.cfg wrapped "XBTZAR" "ASK" (B64.dec 1006005 0) Hd).
Defined.

(** The sell side looks for the account of [pair[:3]], so an account
    whose asset code has more than three characters never funds a sell
    order: with or without it among the balances, [calculate_order_size]
    gives the same result for every pair, price and side other than BUY.
    The USDC of USDCZAR is such an account. *)
Theorem longer_assets_fund_no_sell :
  forall (F : Type) (HF : PyFloat F) (cfg : config F) (pair side : string)
         (before after : list (pyval F)) (account : pyval F) (name : string)
         (price : F),
    String.eqb side "BUY" = false ->
    py_getitem account "asset" = Ok (PStr name) ->
    (3 < String.length name)%nat ->
    calculate_order_size cfg pair (PList (before ++ account :: after))
                         price side
    = calculate_order_size cfg pair (PList (before ++ after)) price side.
Proof.
  intros F HF cfg pair side before after account name price
         Hside Hname Hlong.
  unfold calculate_order_size. rewrite Hside.
  unfold get_asset_balance. cbn [py_iter obind].
  rewrite (find_account_without (slice_to 3 pair) before after account
                                (PStr name) Hname); [reflexivity |].
  cbn [py_eq_str]. apply String.eqb_neq. intros ->.
  pose proof (slice_to_length 3 pair). lia.
Qed.

Lemma longer_assets_fund_no_sell_witness :
  let usdc : pyval spec_float :=
    account_of "USDC" (PStr "500.00") (PStr "0.00") in
  let zar : pyval spec_float :=
    account_of "ZAR" (PStr "10000.00") (PStr "0.00") in
  String.eqb "ASK" "BUY" = false
  /\ py_getitem usdc "asset" = Ok (PStr "USDC")
  /\ (3 < String.length "USDC")%nat
  /\ calculate_order_size Venue.cfg "USDCZAR" (PList [zar])
                          (B64.dec 18 0) "ASK" = Ok (B64.dec 0 0)
  /\ calculate_order_size Venue.cfg "USDCZAR" (PList ([] ++ usdc :: [zar]))
                          (B64.dec 18 0) "ASK"
     = calculate_order_size Venue.cfg "USDCZAR" (PList ([] ++ [zar]))
                            (B64.dec 18 0) "ASK".
Proof.
  intros usdc zar.
  assert (Hlong : (3 < String.length "USDC")%nat) by (cbn; lia).
  split; [reflexivity | split; [reflexivity | split; [exact Hlong | split]]].
  - vm_compute. reflexivity.
  - exact (longer_assets_fund_no_sell
             _ _ Venue.cfg "USDCZAR" "ASK" [] [zar] usdc "USDC"
             (B64.dec 18 0) eq_refl eq_refl Hlong).
Defined.

(** The price matters to the buy side only: every other side gets the
    same size at any two prices, while a buy at the price zero raises
    [ZeroDivisionError] as soon as the quote asset's balance has been
    read, whatever that balance is. *)
Theorem price_matters_to_buys_only :
  forall (F : Type) (HF : PyFloat F) (HL : PyFloatLaws F) (cfg : config F)
         (pair : string) (balances : pyval F),
    (forall (side : string) (p1 p2 : F),
        String.eqb side "BUY" = false ->
        calculate_order_size cfg pair balances p1 side
        = calculate_order_size cfg pair balances p2 side)
    /\ (forall (held : asset_balance F) (price : F),
           get_asset_balance balances (slice_from 3 pair) = Ok held ->
           fis_zero price = true ->
           calculate_order_size cfg pair balances price "BUY"
           = Raise ZeroDivisionError).
Proof.
  intros F HF HL cfg pair balances. split.
  - intros side p1 p2. apply sell_ignores_price.
  - intros held price Hheld Hzero. unfold calculate_order_size.
    cbn [String.eqb Ascii.eqb Bool.eqb]. rewrite Hheld; cbn [obind].
    rewrite truediv_by_hundred; cbn [obind].
    unfold py_truediv. now rewrite Hzero.
Qed.

Lemma price_matters_to_buys_only_witness :
  get_asset_balance Venue.accounts (slice_from 3 "ETHXBT")
  = Ok {| balance := B64.dec 5 (-2); reserved := S754_zero false;
          available := B64.dec 5 (-2) |}
  /\ calculate_order_size Venue.cfg "ETHXBT" Venue.accounts
                          (S754_zero false) "BUY"
     = Raise ZeroDivisionError
  /\ calculate_order_size Venue.cfg "ETHXBT" Venue.accounts
                          (S754_zero false) "ASK"
     = calculate_order_size Venue.cfg "ETHXBT" Venue.accounts
                            (B64.dec 5 (-2)) "ASK".
Proof.
  assert (Hheld : get_asset_balance Venue.accounts (slice_from 3 "ETHXBT")
                  = Ok {| balance := B64.dec 5 (-2);
                          reserved := S754_zero false;
                          available := B64.dec 5 (-2) |})
    by (vm_compute; reflexivity).
  split; [exact Hheld | split].
  - exact (proj2 (price_matters_to_buys_only
                    _ _ _ Venue.cfg "ETHXBT" Venue.accounts)
                 _ (S754_zero false) Hheld eq_refl).
  - exact (proj1 (price_matters_to_buys_only
                    _ _ _ Venue.cfg "ETHXBT" Venue.accounts)
                 "ASK" (S754_zero false) (B64.dec 5 (-2)) eq_refl).
Defined.

(** ** Tickers that are not prices *)

Lemma b64_nan_quotes (cfg : config spec_float) (b a : spec_float) :
  b = S754_nan \/ a = S754_nan ->
  let mid := B64.div (B64.add b a) (B64.dec 2 0) in
  let half := B64.div (B64.mul mid (SPREAD_PERCENTAGE cfg)) (B64.dec 100 0) in
  B64.round (PRICE_PRECISION cfg) (B64.sub mid half) = S754_nan
  /\ B64.round (PRICE_PRECISION cfg) (B64.add mid half) = S754_nan.
Proof.
  intros Hnan mid half.
  assert (Hmid : mid = S754_nan).
  { unfold mid. destruct Hnan as [-> | ->]; [reflexivity |].
    destruct b; reflexivity. }
  unfold half. rewrite Hmid. split; reflexivity.
Qed.

(** The text [nan] is a number to [float]: a ticker whose bid or ask
    reads as nan raises nothing in the Quote Calculator and gives nan for
    both quotes; at the nan bid quote the buy side comes to a nan volume
    and sends nothing, whatever the balance. *)
Theorem nan_ticker_gives_nan_quotes :
  forall (cfg : config spec_float) (ticker vb va : pyval spec_float)
         (b a : spec_float),
    py_getitem ticker "bid" = Ok vb -> to_float vb = Ok b ->
    py_getitem ticker "ask" = Ok va -> to_float va = Ok a ->
    b = S754_nan \/ a = S754_nan ->
    get_market_making_prices cfg ticker
    = Ok {| bid := S754_nan; ask := S754_nan |}
    /\ (forall (gw : gateway spec_float) (pair : string)
               (balances : pyval spec_float)
               (held : asset_balance spec_float)
               (active : registry) (h : trace spec_float),
           get_asset_balance balances (slice_from 3 pair) = Ok held ->
           place_side cfg gw pair balances S754_nan "BUY" "BID" active h
           = (Ok active, [])).
Proof.
  intros cfg ticker vb va b a Hb Hfb Ha Hfa Hnan. split.
  - rewrite (quotes_of_bid_ask cfg ticker vb va b a Hb Hfb Ha Hfa).
    destruct (b64_nan_quotes cfg b a Hnan) as [Hbid Hask].
    cbv zeta in Hbid, Hask.
    change (@fround spec_float _) with B64.round.
    change (@fsub spec_float _) with B64.sub.
    change (@fadd spec_float _) with B64.add.
    change (@fmul spec_float _) with B64.mul.
    change (@fdiv spec_float _) with B64.div.
    change (@fdec spec_float _) with B64.dec.
    now rewrite Hbid, Hask.
  - intros gw pair balances held active h Hheld.
    unfold place_side, calculate_order_size.
    cbn [String.eqb Ascii.eqb Bool.eqb]. rewrite Hheld; cbn [obind].
    rewrite truediv_by_hundred; cbn [obind].
    unfold py_truediv. cbn [fis_zero B64.b64 B64.is_zero].
    unfold bind, lift.
    replace (fdiv (fdiv (fmul (available held) (ORDER_SIZE_PERCENTAGE cfg))
                        (fdec 100 0)) S754_nan)
      with S754_nan; [reflexivity |].
    change (@fdiv spec_float _) with B64.div.
    generalize (B64.div (fmul (available held) (ORDER_SIZE_PERCENTAGE cfg))
                        (fdec 100 0)).
    intros x. destruct x; reflexivity.
Qed.

Lemma nan_ticker_gives_nan_quotes_witness :
  let ticker : pyval spec_float := ticker_of (PStr "nan") (PStr "1002000.00") in
  to_float (PStr "nan") = Ok (S754_nan : spec_float)
  /\ get_market_making_prices Venue.cfg ticker
     = Ok {| bid := S754_nan; ask := S754_nan |}
  /\ place_side Venue.cfg Venue.healthy "XBTZAR" Venue.accounts S754_nan
                "BUY" "BID" [] []
     = (Ok [], []).
Proof.
  intros ticker.
  assert (Hfb : to_float (PStr "nan") = Ok (S754_nan : spec_float))
    by reflexivity.
  assert (Hfa : to_float (PStr "1002000.00") = Ok (B64.dec 1002000 0))
    by (vm_compute; reflexivity).
  destruct (nan_ticker_gives_nan_quotes
              Venue.cfg ticker (PStr "nan") (PStr "1002000.00")
              S754_nan (B64.dec 1002000 0)
              eq_refl Hfb eq_refl Hfa (or_introl eq_refl)) as [Hq Hside].
  split; [exact Hfb | split; [exact Hq |]].
  apply (Hside Venue.healthy "XBTZAR" Venue.accounts
               {| balance := B64.dec 10000 0; reserved := S754_zero false;
                  available := B64.dec 10000 0 |}).
  vm_compute. reflexivity.
Defined.

Section Skipping.

Context {F : Type} `{PyFloat F}.
Variable cfg : config F.
Variable gw : gateway F.

Lemma process_pair_empty (balances : pyval F) (active : registry)
      (pair : string) (resp : response F) (body : pyval F) (h : trace F) :
  send gw (h ++ [EvLog (LogProcessing pair)]) (ticker_request pair)
  = Replied resp ->
  status_ok (status_code resp) = true ->
  json resp = Some body ->
  truthy body = false ->
  process_pair cfg gw balances active pair h
  = (Ok active,
     [EvLog (LogProcessing pair); EvRequest (ticker_request pair);
      EvLog (LogFailedTicker pair)]).
Proof.
  intros Hsend Hstatus Hjson Hfalsy. unfold process_pair.
  rewrite (bind_ok (log (LogProcessing pair)) _ h _ _ eq_refl).
  pose proof (make_request_cases gw "GET" "ticker"
                [("pair", FStr pair)] [] (h ++ [EvLog (LogProcessing pair)]))
    as Hc.
  cbv zeta in Hc. cbn [String.eqb Ascii.eqb Bool.eqb] in Hc.
  fold (@ticker_request F pair) in Hc.
  rewrite Hsend, Hstatus in Hc. unfold response_json in Hc.
  rewrite Hjson in Hc. unfold get_ticker.
  rewrite (bind_ok _ _ _ _ _ Hc), Hfalsy. reflexivity.
Qed.

Lemma cycle_without_balances (resp : response F) (h : trace F) :
  send gw h accounts_request = Replied resp ->
  status_ok (status_code resp) = false ->
  place_market_making_orders cfg gw h
  = (Ok None,
     [EvRequest accounts_request;
      EvLog (LogApiError (status_code resp) (text resp));
      EvLog LogFailedBalances]).
Proof.
  intros Hsend Hstatus.
  pose proof (make_request_cases gw "GET" "accounts" [] [] h) as Hc.
  cbv zeta in Hc. cbn [String.eqb Ascii.eqb Bool.eqb] in Hc.
  fold (@accounts_request F) in Hc. rewrite Hsend, Hstatus in Hc.
  unfold place_market_making_orders, get_balances.
  rewrite (bind_ok _ _ _ _ _ Hc). reflexivity.
Qed.

Lemma cycle_with_empty_balances (resp : response F) (body : pyval F)
      (h : trace F) :
  send gw h accounts_request = Replied resp ->
  status_ok (status_code resp) = true ->
  json resp = Some body ->
  truthy body = false ->
  place_market_making_orders cfg gw h
  = (Ok None, [EvRequest accounts_request; EvLog LogFailedBalances]).
Proof.
  intros Hsend Hstatus Hjson Hfalsy.
  pose proof (make_request_cases gw "GET" "accounts" [] [] h) as Hc.
  cbv zeta in Hc. cbn [String.eqb Ascii.eqb Bool.eqb] in Hc.
  fold (@accounts_request F) in Hc. rewrite Hsend, Hstatus in Hc.
  unfold response_json in Hc. rewrite Hjson in Hc.
  unfold place_market_making_orders, get_balances.
  rewrite (bind_ok _ _ _ _ _ Hc), Hfalsy. reflexivity.
Qed.

Lemma idle_loop (resp : response F) :
  (forall h, send gw h accounts_request = Replied resp) ->
  status_ok (status_code resp) = false ->
  (forall h s, nap gw h s = None) ->
  forall (fuel : nat) (h : trace F),
    run_loop cfg gw fuel h = (Running, idle_cycles cfg resp fuel).
Proof.
  intros Hsend Hstatus Hnap fuel.
  induction fuel as [| fuel IH]; intros h; [reflexivity |].
  cbn [run_loop idle_cycles].
  rewrite (bind_ok (log LogPlacing) _ h _ _ eq_refl).
  rewrite (bind_ok _ _ _ _ _
             (cycle_without_balances resp (h ++ [EvLog LogPlacing])
                                     (Hsend _) Hstatus)).
  cbn [fst snd].
  rewrite (bind_ok (log (LogWaiting (ORDER_EXPIRY_MINUTES cfg))) _ _ _ _
                   eq_refl).
  cbn [fst snd].
  rewrite (bind_ok (sleep gw (ORDER_EXPIRY_MINUTES cfg * 60)) _ _
                   [EvSleep (ORDER_EXPIRY_MINUTES cfg * 60)] tt)
    by (unfold sleep; now rewrite Hnap).
  rewrite IH. reflexivity.
Qed.

End Skipping.

(** A ticker request that is accepted but whose body is empty ([null], an
    empty dict or list, zero, an empty text) counts as a failed fetch:
    the pair is skipped with the failure line, no other request is sent
    for it, and the registry is handed on unchanged. *)
Theorem empty_ticker_is_a_failed_fetch :
  forall (F : Type) (HF : PyFloat F) (cfg : config F) (gw : gateway F)
         (balances : pyval F) (active : registry) (pair : string)
         (resp : response F) (body : pyval F) (h : trace F),
    send gw (h ++ [EvLog (LogProcessing pair)]) (ticker_request pair)
    = Replied resp ->
    status_ok (status_code resp) = true ->
    json resp = Some body ->
    truthy body = false ->
    process_pair cfg gw balances active pair h
    = (Ok active,
       [EvLog (LogProcessing pair); EvRequest (ticker_request pair);
        EvLog (LogFailedTicker pair)]).
Proof.
  intros F HF cfg gw balances active pair resp body h.
  apply process_pair_empty.
Qed.

Lemma empty_ticker_is_a_failed_fetch_witness :
  process_pair Venue.cfg (Scripted.saying (PDict [])) Venue.accounts []
               "XBTZAR" []
  = (Ok [],
     [EvLog (LogProcessing "XBTZAR"); EvRequest (ticker_request "XBTZAR");
      EvLog (LogFailedTicker "XBTZAR")]).
Proof.
  exact (empty_ticker_is_a_failed_fetch
           _ _ Venue.cfg (Scripted.saying (PDict [])) Venue.accounts []
           "XBTZAR" _ (PDict []) [] eq_refl eq_refl eq_refl eq_refl).
Defined.

(** Without balances there is no cycle: when the balance request is
    refused, or accepted with an empty body, [place_market_making_orders]
    returns [None] having sent that one request only; and a venue that
    keeps refusing it never stops the bot, which logs, sleeps the refresh
    interval and tries again, cycle after cycle. *)
Theorem no_balances_no_cycle :
  forall (F : Type) (HF : PyFloat F) (cfg : config F) (gw : gateway F)
         (resp : response F),
    (forall h,
        send gw h accounts_request = Replied resp ->
        status_ok (status_code resp) = false ->
        place_market_making_orders cfg gw h
        = (Ok None,
           [EvRequest accounts_request;
            EvLog (LogApiError (status_code resp) (text resp));
            EvLog LogFailedBalances]))
    /\ (forall h body,
           send gw h accounts_request = Replied resp ->
           status_ok (status_code resp) = true ->
           json resp = Some body ->
           truthy body = false ->
           place_market_making_orders cfg gw h
           = (Ok None, [EvRequest accounts_request; EvLog LogFailedBalances]))
    /\ ((forall h, send gw h accounts_request = Replied resp) ->
        status_ok (status_code resp) = false ->
        (forall h s, nap gw h s = None) ->
        forall (fuel : nat) (h : trace F),
          run_loop cfg gw fuel h = (Running, idle_cycles cfg resp fuel)).
Proof.
  intros F HF cfg gw resp. split; [| split].
  - intros h. apply cycle_without_balances.
  - intros h body. apply cycle_with_empty_balances.
  - apply idle_loop.
Qed.

Lemma no_balances_no_cycle_witness :
  let resp := {| status_code := 503; text := "unavailable";
                 json := @None (pyval spec_float) |} in
  place_market_making_orders Venue.cfg Scripted.refusing []
  = (Ok None, [EvRequest accounts_request;
               EvLog (LogApiError 503 "unavailable");
               EvLog LogFailedBalances])
  /\ place_market_making_orders Venue.cfg (Scripted.saying (PList [])) []
     = (Ok None, [EvRequest accounts_request; EvLog LogFailedBalances])
  /\ run_loop Venue.cfg Scripted.refusing 3 []
     = (Running, idle_cycles Venue.cfg resp 3).
Proof.
  intros resp. split; [| split].
  - exact (proj1 (no_balances_no_cycle _ _ Venue.cfg Scripted.refusing resp)
                 [] eq_refl eq_refl).
  - exact (proj1 (proj2 (no_balances_no_cycle
                           _ _ Venue.cfg (Scripted.saying (PList []))
                           {| status_code := 200; text := "";
                              json := Some (PList []) |}))
                 [] (PList []) eq_refl eq_refl eq_refl eq_refl).
  - exact (proj2 (proj2 (no_balances_no_cycle
                           _ _ Venue.cfg Scripted.refusing resp))
                 (fun _ => eq_refl) eq_refl (fun _ _ => eq_refl) 3%nat []).
Defined.

(** ** What a run sends *)

Section Footprint.

Context {F : Type} `{PyFloat F}.
Variable cfg : config F.
Variable gw : gateway F.

Lemma cancel_order_footprint (pair : option string) (order_id : pyval F) :
  always (cancel_event pair) (cancel_order gw order_id).
Proof.
  unfold cancel_order. walk; try (apply always_log; exact I).
  apply always_make_request.
  - right. now exists order_id.
  - intros s t. exact I.
Qed.

Lemma cancel_each_footprint (pair : option string)
      (items : list (pyval F)) :
  always (cancel_event pair) (cancel_each gw items).
Proof.
  induction items as [| item items IH]; cbn [cancel_each]; walk.
  - apply cancel_order_footprint.
  - exact IH.
Qed.

Lemma cancel_all_orders_footprint (pair : option string) :
  always (cancel_event pair) (cancel_all_orders gw pair).
Proof.
  unfold cancel_all_orders, get_open_orders. walk.
  - apply always_make_request.
    + left. reflexivity.
    + intros s t. exact I.
  - apply cancel_each_footprint.
Qed.

Lemma cancel_event_pair_step (pair : string) (ev : event F) :
  cancel_event (Some pair) ev -> pair_step cfg pair ev.
Proof.
  destruct ev as [r | m | s]; cbn; [| trivial | trivial].
  intros [-> | Hstop]; [right; left; reflexivity | right; right; left; exact Hstop].
Qed.

Lemma place_side_footprint (pair : string) (balances : pyval F) (price : F)
      (side order_type : string) (active : registry) :
  order_type = "BID" \/ order_type = "ASK" ->
  always (pair_step cfg pair)
         (place_side cfg gw pair balances price side order_type active).
Proof.
  intros Htype. unfold place_side.
  apply always_bind; [apply always_lift | intros volume].
  destruct (fltb (fdec 0 0) volume) eqn:Hpos; [| apply always_ret].
  apply always_bind; [| intros order_id; unfold register; walk].
  unfold create_order. walk; try (apply always_log; exact I).
  apply always_make_request; [| intros s t; exact I].
  right; right; right. exists order_type, volume, price.
  repeat split; assumption.
Qed.

Lemma process_pair_footprint (balances : pyval F) (active : registry)
      (pair : string) :
  always (pair_step cfg pair) (process_pair cfg gw balances active pair).
Proof.
  unfold process_pair, get_ticker. walk; try (apply always_log; exact I).
  - apply always_make_request; [left; reflexivity | intros s t; exact I].
  - eapply always_impl; [apply cancel_event_pair_step |].
    apply cancel_all_orders_footprint.
  - apply place_side_footprint. now left.
  - apply place_side_footprint. now right.
Qed.

Lemma pair_step_run_event (pair : string) (ev : event F) :
  In pair (TRADING_PAIRS cfg) -> pair_step cfg pair ev -> run_event cfg ev.
Proof.
  intros Hin. destruct ev as [r | m | s]; cbn; [| trivial | contradiction].
  intros Hr. right; left. now exists pair.
Qed.

Lemma process_pairs_footprint (balances : pyval F) (pairs : list string) :
  incl pairs (TRADING_PAIRS cfg) ->
  forall active,
    always (run_event cfg) (process_pairs cfg gw balances active pairs).
Proof.
  induction pairs as [| p pairs IH]; intros Hincl active;
    cbn [process_pairs]; walk.
  - eapply always_impl; [| apply process_pair_footprint].
    intros ev. apply (pair_step_run_event p). apply Hincl. now left.
  - apply IH. intros x Hx. apply Hincl. now right.
Qed.

Lemma cancel_event_run_event (ev : event F) :
  cancel_event None ev -> run_event cfg ev.
Proof.
  destruct ev as [r | m | s]; cbn; [| trivial | contradiction].
  intros [-> | Hstop]; [right; right; left; reflexivity |
                        right; right; right; exact Hstop].
Qed.

Lemma main_footprint (fuel : nat) :
  always (run_event cfg) (main cfg gw fuel).
Proof.
  unfold main. walk; try (apply always_log; exact I).
  apply always_try.
  - induction fuel as [| fuel IH]; cbn [run_loop]; walk;
      try (apply always_log; exact I).
    + unfold place_market_making_orders, get_balances. walk;
        try (apply always_log; exact I).
      * apply always_make_request; [left; reflexivity | intros s t; exact I].
      * apply process_pairs_footprint. apply incl_refl.
    + apply always_sleep. reflexivity.
    + exact IH.
  - intros e k Hk. unfold on_exit in Hk.
    destruct e; cbn in Hk; inversion Hk; subst; walk;
      try (apply always_log; exact I);
      (eapply always_impl; [apply cancel_event_run_event |
                            apply cancel_all_orders_footprint]).
Qed.

End Footprint.

(** Whatever the venue answers, a run sends nothing but: the balance
    request; for a configured pair its ticker request, the listing of its
    open orders, cancel requests, and post-only BID or ASK orders on that
    pair with a positive volume and the configured precisions; and the
    listing without a pair.  It never asks for the order book, never
    trades a pair that is not configured, and never sleeps any other time
    than the refresh interval. *)
Theorem run_footprint :
  forall (F : Type) (HF : PyFloat F) (cfg : config F) (gw : gateway F)
         (fuel : nat) (h : trace F),
    Forall (run_event cfg) (snd (main cfg gw fuel h)).
Proof.
  intros F HF cfg gw fuel h. apply main_footprint.
Qed.

(** ** Orders are placed at the quotes, in the computed sizes *)

Section Pricing.

Context {F : Type} `{PyFloat F}.
Variable cfg : config F.
Variable gw : gateway F.

Lemma cancel_event_quoted (pair : string) (balances : pyval F)
      (q : quotes F) (filter : option string) (ev : event F) :
  cancel_event filter ev -> quoted_order cfg pair balances q ev.
Proof.
  destruct ev as [r | m | s]; cbn; [| trivial | trivial].
  intros [-> | [id ->]]; cbn; discriminate.
Qed.

Lemma place_side_quoted (pair : string) (balances : pyval F) (q : quotes F)
      (price : F) (side order_type : string) (active : registry) :
  (price = bid q /\ side = "BUY" /\ order_type = "BID")
  \/ (price = ask q /\ side = "ASK" /\ order_type = "ASK") ->
  always (quoted_order cfg pair balances q)
         (place_side cfg gw pair balances price side order_type active).
Proof.
  intros Hside. unfold place_side. intros h.
  destruct (calculate_order_size cfg pair balances price side)
    as [volume | e |] eqn:Hsize; [| cbn; constructor ..].
  rewrite (bind_ok (lift (Ok volume)) _ h [] volume eq_refl).
  cbn [snd app]. generalize (h ++ []). clear h.
  change (always (quoted_order cfg pair balances q)
            (if fltb (fdec 0 0) volume
             then order_id <- create_order cfg gw pair order_type volume price ;;
                  if truthy order_id
                  then register gw active order_id pair order_type price volume
                  else ret active
             else ret active)).
  destruct (fltb (fdec 0 0) volume) eqn:Hpos; [| apply always_ret].
  apply always_bind; [| intros order_id; unfold register; walk].
  unfold create_order. walk; try (apply always_log; exact I).
  apply always_make_request; [| intros s t; exact I].
  cbn. intros _.
  destruct Hside as [(-> & -> & ->) | (-> & -> & ->)]; [left | right];
    exists volume; repeat split; assumption.
Qed.

Lemma process_pair_quoted (balances : pyval F) (active : registry)
      (pair : string) (h es : trace F) (ticker : pyval F) (q : quotes F) :
  get_ticker gw pair (h ++ [EvLog (LogProcessing pair)]) = (Ok ticker, es) ->
  get_market_making_prices cfg ticker = Ok q ->
  Forall (quoted_order cfg pair balances q)
         (snd (process_pair cfg gw balances active pair h)).
Proof.
  intros Hticker Hq. unfold process_pair.
  rewrite (bind_ok (log (LogProcessing pair)) _ h _ _ eq_refl).
  rewrite (bind_ok _ _ _ _ _ Hticker). cbn [fst snd].
  constructor; [exact I |].
  apply Forall_app. split.
  - change es with (snd (Ok ticker, es)). rewrite <- Hticker.
    unfold get_ticker. apply always_make_request.
    + cbn. discriminate.
    + intros s t. exact I.
  - destruct (negb (truthy ticker)).
    + apply (always_bind (quoted_order cfg pair balances q));
        [apply always_log; exact I | intros _; apply always_ret].
    + rewrite (bind_ok (lift (get_market_making_prices cfg ticker)) _ _ [] q)
        by (unfold lift; now rewrite Hq).
      cbn [fst snd app].
      apply (always_bind (quoted_order cfg pair balances q)).
      * eapply always_impl;
          [apply (cancel_event_quoted pair balances q (Some pair)) |].
        apply cancel_all_orders_footprint.
      * intros _.
        apply always_bind; [| intros active'];
          apply place_side_quoted; [left | right]; repeat split.
Qed.

End Pricing.

(** Once the ticker of a pair has come back and the quote pair has been
    computed from it, every order placed for the pair is either the
    post-only BID at the bid quote, of the volume [calculate_order_size]
    gives for a BUY at that quote, or the post-only ASK at the ask
    quote, of the volume it gives at the ask quote; in both cases the
    volume is positive. *)
Theorem orders_are_placed_at_the_quotes :
  forall (F : Type) (HF : PyFloat F) (cfg : config F) (gw : gateway F)
         (balances : pyval F) (active : registry) (pair : string)
         (h es : trace F) (ticker : pyval F) (q : quotes F),
    get_ticker gw pair (h ++ [EvLog (LogProcessing pair)]) = (Ok ticker, es) ->
    get_market_making_prices cfg ticker = Ok q ->
    Forall (quoted_order cfg pair balances q)
           (snd (process_pair cfg gw balances active pair h)).
Proof.
  intros F HF cfg gw balances active pair h es ticker q.
  apply process_pair_quoted.
Qed.

Lemma orders_are_placed_at_the_quotes_witness :
  let q := {| bid := B64.dec 995995 0; ask := B64.dec 1006005 0 |} in
  let es := snd (process_pair Venue.cfg Venue.healthy Venue.accounts []
                              "XBTZAR" []) in
  get_market_making_prices Venue.cfg Venue.ticker = Ok q
  /\ Forall (quoted_order Venue.cfg "XBTZAR" Venue.accounts q) es
  /\ map (fun r => lookup "price" (payload r))
         (filter (fun r => String.eqb (endpoint r) "postorder") (requests es))
     = [Some (FFixed 0 (bid q)); Some (FFixed 0 (ask q))].
Proof.
  intros q es.
  assert (Hq : get_market_making_prices Venue.cfg Venue.ticker = Ok q)
    by (vm_compute; reflexivity).
  split; [exact Hq | split].
  - exact (orders_are_placed_at_the_quotes
             _ _ Venue.cfg Venue.healthy Venue.accounts [] "XBTZAR" []
             [EvRequest (ticker_request "XBTZAR")] Venue.ticker q
             eq_refl Hq).
  - vm_compute. reflexivity.
Defined.


(** ** The registry a cycle returns *)

Section Registry.

Context {F : Type} `{PyFloat F}.
Variable cfg : config F.
Variable gw : gateway F.

Lemma bind_inv {A B} (m : M F A) (f : A -> M F B) (h es : trace F) (b : B) :
  bind m f h = (Ok b, es) ->
  exists a es1 es2,
    m h = (Ok a, es1) /\ f a (h ++ es1) = (Ok b, es2) /\ es = es1 ++ es2.
Proof.
  unfold bind. destruct (m h) as [[a | e |] es1]; try discriminate.
  destruct (f a (h ++ es1)) as [r es2] eqn:Hf. intros [= -> <-].
  now exists a, es1, es2.
Qed.

Lemma create_order_sends (pair order_type : string) (volume price : F)
      (h es : trace F) (r : outcome (pyval F)) :
  create_order cfg gw pair order_type volume price h = (r, es) ->
  In (EvRequest (order_request cfg pair order_type volume price)) es.
Proof.
  intros Hrun. change es with (snd (r, es)). rewrite <- Hrun.
  unfold create_order. rewrite snd_bind. apply in_or_app. left.
  pose proof (create_order_cases cfg gw pair order_type volume price h) as Hc.
  cbv zeta in Hc. cbn [payload order_request] in Hc.
  destruct (send gw h _) as [resp | e].
  - destruct (status_ok (status_code resp)); rewrite Hc; now left.
  - rewrite Hc. now left.
Qed.

Lemma tracked_later (pairs : list string) (before es : trace F)
      (entry : pyval F * active_order F) :
  tracked cfg pairs before entry -> tracked cfg pairs (before ++ es) entry.
Proof.
  intros [Hreg Hsent]. split; [exact Hreg |].
  unfold sent in *. apply in_or_app. now left.
Qed.

Lemma grown_refl (pairs : list string) (active : registry) (n : nat)
      (es : trace F) :
  grown cfg pairs active n active es.
Proof.
  split; [| lia]. intros before Hall.
  eapply Forall_impl; [| exact Hall]. intros entry. apply tracked_later.
Qed.

Lemma grown_trans (pairs : list string) (a b c : registry) (n m : nat)
      (es es' : trace F) :
  grown cfg pairs a n b es -> grown cfg pairs b m c es' ->
  grown cfg pairs a (n + m) c (es ++ es').
Proof.
  intros [H1 L1] [H2 L2]. split; [| lia].
  intros before Hall. rewrite app_assoc. auto.
Qed.

Lemma place_side_grows (pairs : list string) (pair : string)
      (balances : pyval F) (price : F) (side order_type : string)
      (active : registry) :
  In pair pairs ->
  order_type = "BID" \/ order_type = "ASK" ->
  yields (grown cfg pairs active 1)
         (place_side cfg gw pair balances price side order_type active).
Proof.
  intros Hin Htype h active' es Hrun. unfold place_side in Hrun.
  apply bind_inv in Hrun as (volume & es1 & es2 & _ & Hrun & ->).
  destruct (fltb (fdec 0 0) volume) eqn:Hpos;
    [| injection Hrun as <- <-; apply grown_refl].
  apply bind_inv in Hrun as (order_id & es3 & es4 & Hcreate & Hrun & ->).
  apply create_order_sends in Hcreate.
  destruct (truthy order_id) eqn:Htruthy;
    [| injection Hrun as <- <-; apply grown_refl].
  unfold register in Hrun.
  apply bind_inv in Hrun as (created_at & es5 & es6 & _ & Hrun & ->).
  destruct (hashable order_id) eqn:Hhash; [| discriminate].
  injection Hrun as <- <-. split; [| cbn; lia].
  intros before Hall. constructor.
  - split; [repeat split; cbn; assumption |].
    unfold sent. cbn [fst snd ao_pair ao_type ao_volume ao_price].
    apply in_or_app. right. apply in_or_app. right.
    apply in_or_app. now left.
  - eapply Forall_impl; [| exact Hall]. intros entry. apply tracked_later.
Qed.

Lemma process_pair_grows (pairs : list string) (balances : pyval F)
      (active : registry) (pair : string) :
  In pair pairs ->
  yields (grown cfg pairs active 2)
         (process_pair cfg gw balances active pair).
Proof.
  intros Hin h active' es Hrun. unfold process_pair in Hrun.
  apply bind_inv in Hrun as ([] & es1 & es2 & _ & Hrun & ->).
  apply bind_inv in Hrun as (ticker & es3 & es4 & _ & Hrun & ->).
  destruct (negb (truthy ticker)).
  - apply bind_inv in Hrun as ([] & es5 & es6 & _ & Hrun & ->).
    injection Hrun as <- <-. apply grown_refl.
  - apply bind_inv in Hrun as (prices & es5 & es6 & _ & Hrun & ->).
    apply bind_inv in Hrun as ([] & es7 & es8 & _ & Hrun & ->).
    apply bind_inv in Hrun as (bought & es9 & es10 & Hbuy & Hsell & ->).
    apply (place_side_grows pairs) in Hbuy; [| exact Hin | now left].
    apply (place_side_grows pairs) in Hsell; [| exact Hin | now right].
    pose proof (grown_trans pairs _ _ _ _ _ _ _ Hbuy Hsell) as Hboth.
    destruct Hboth as [Hall Hlen]. split; [| exact Hlen].
    intros before Hactive.
    replace (before ++ es1 ++ es3 ++ es5 ++ es7 ++ es9 ++ es10)
      with ((before ++ es1 ++ es3 ++ es5 ++ es7) ++ es9 ++ es10)
      by (now rewrite <- !app_assoc).
    apply Hall. eapply Forall_impl; [| exact Hactive].
    intros entry. apply tracked_later.
Qed.

Lemma process_pairs_grow (pairs todo : list string) (balances : pyval F) :
  incl todo pairs ->
  forall active,
    yields (grown cfg pairs active (2 * length todo))
           (process_pairs cfg gw balances active todo).
Proof.
  induction todo as [| p todo IH]; intros Hincl active h active' es Hrun.
  - injection Hrun as <- <-. apply grown_refl.
  - cbn [process_pairs] in Hrun.
    apply bind_inv in Hrun as (next & es1 & es2 & Hfirst & Hrest & ->).
    replace (2 * length (p :: todo))%nat with (2 + 2 * length todo)%nat
      by (cbn [length]; lia).
    apply (grown_trans pairs active next active').
    + exact (process_pair_grows pairs balances active p
                                (Hincl p (or_introl eq_refl)) _ _ _ Hfirst).
    + exact (IH (fun x Hx => Hincl x (or_intror Hx)) next _ _ _ Hrest).
Qed.

Lemma cycle_registry (h es : trace F) (active : registry) :
  place_market_making_orders cfg gw h = (Ok (Some active), es) ->
  Forall (tracked cfg (TRADING_PAIRS cfg) es) active
  /\ (length active <= 2 * length (TRADING_PAIRS cfg))%nat.
Proof.
  intros Hrun. unfold place_market_making_orders in Hrun.
  apply bind_inv in Hrun as (balances & es1 & es2 & _ & Hrun & ->).
  destruct (negb (truthy balances)).
  - apply bind_inv in Hrun as ([] & es3 & es4 & _ & Hrun & ->).
    discriminate.
  - apply bind_inv in Hrun as (result & es3 & es4 & Hpairs & Hrun & ->).
    injection Hrun as -> <-.
    apply (process_pairs_grow (TRADING_PAIRS cfg)) in Hpairs;
      [| apply incl_refl].
    destruct Hpairs as [Hall Hlen]. split; [| exact Hlen].
    rewrite app_nil_r. apply Hall. constructor.
Qed.

End Registry.

(** Whenever a cycle returns its registry of active orders, every entry
    was written under a truthy order id for a configured pair, as a BID
    or an ASK of positive volume, and for exactly that pair, type,
    volume and price a post-only order was sent during the cycle; at
    most two entries are written per configured pair. *)
Theorem registry_holds_the_orders_sent :
  forall (F : Type) (HF : PyFloat F) (cfg : config F) (gw : gateway F)
         (h es : trace F) (active : list (pyval F * active_order F)),
    place_market_making_orders cfg gw h = (Ok (Some active), es) ->
    Forall (tracked cfg (TRADING_PAIRS cfg) es) active
    /\ (length active <= 2 * length (TRADING_PAIRS cfg))%nat.
Proof.
  intros F HF cfg gw h es active. apply cycle_registry.
Qed.

Lemma registry_holds_the_orders_sent_witness :
  let run := place_market_making_orders Venue.cfg Venue.healthy [] in
  match fst run with
  | Ok (Some active) =>
      map (fun entry => (ao_pair (snd entry), ao_type (snd entry))) active
      = [("ETHXBT", "ASK"); ("ETHXBT", "BID"); ("XRPZAR", "BID");
         ("ETHZAR", "ASK"); ("ETHZAR", "BID");
         ("XBTZAR", "ASK"); ("XBTZAR", "BID")]
      /\ Forall (tracked Venue.cfg (TRADING_PAIRS Venue.cfg) (snd run)) active
      /\ (length active <= 2 * length (TRADING_PAIRS Venue.cfg))%nat
  | _ => False
  end.
Proof.
  intros run.
  destruct run as [r es] eqn:Hrun. cbn [fst snd].
  destruct r as [[active |] | e |];
    try (apply (f_equal fst) in Hrun; vm_compute in Hrun; discriminate Hrun).
  split.
  - pose proof (f_equal fst Hrun) as Hfst. vm_compute in Hfst.
    injection Hfst as <-. vm_compute. reflexivity.
  - exact (registry_holds_the_orders_sent
             _ _ Venue.cfg Venue.healthy [] es active Hrun).
Defined.

(* ================================================================== *)
(** * Part IV: the demo and the diagnostics                             *)
(* ================================================================== *)

Section Asking.

Context {F : Type} `{PyFloat F}.
Variable cfg : config F.
Variable gw : gateway F.
Variable slice_of_dict : exn.

Lemma events_app (os os' : list (out F)) :
  events (os ++ os') = events os ++ events os'.
Proof.
  induction os as [| [line | ev] os IH]; cbn; [reflexivity | exact IH |].
  now rewrite IH.
Qed.

Lemma events_did (es : trace F) : events (map Did es) = es.
Proof. induction es as [| ev es IH]; cbn; [reflexivity | now rewrite IH]. Qed.

Lemma make_request_sends meth endp params data (h : trace F) :
  requests (snd (make_request gw meth endp params data h))
  = [{| method := meth; endpoint := endp;
        payload := if String.eqb meth "GET" then params else data |}].
Proof.
  pose proof (make_request_cases gw meth endp params data h) as Hc.
  cbv zeta in Hc. destruct (send gw h _) as [resp | e].
  - destruct (status_ok (status_code resp)); now rewrite Hc.
  - now rewrite Hc.
Qed.

Lemma create_order_sends_once (pair order_type : string) (volume price : F)
      (h : trace F) :
  requests (snd (create_order cfg gw pair order_type volume price h))
  = [order_request cfg pair order_type volume price].
Proof.
  unfold create_order. rewrite snd_bind, requests_app, make_request_sends.
  cbn [String.eqb Ascii.eqb Bool.eqb].
  change (?x :: ?l = [?x]) with ([x] ++ l = [x] ++ []). f_equal.
  destruct (fst (make_request gw "POST" "postorder" [] _ h))
    as [response | e |]; [| reflexivity ..].
  generalize (h ++ snd (make_request gw "POST" "postorder" []
      [("pair", FStr pair); ("type", FStr order_type);
       ("volume", FFixed (VOLUME_PRECISION cfg) volume);
       ("price", FFixed (PRICE_PRECISION cfg) price);
       ("post_only", FStr "true")] h)).
  intros h'. unfold bind, lift, log, ret.
  destruct (if truthy response then py_contains "order_id" response
            else Ok false) as [[|] | e |]; cbn; try reflexivity.
  destruct (py_getitem response "order_id"); reflexivity.
Qed.

Lemma get_balances_sends (h : trace F) :
  requests (snd (get_balances gw h)) = [accounts_request].
Proof. apply make_request_sends. Qed.

Lemma get_ticker_sends (pair : string) (h : trace F) :
  requests (snd (get_ticker gw pair h)) = [ticker_request pair].
Proof. apply make_request_sends. Qed.

Lemma get_order_book_sends (pair : string) (h : trace F) :
  requests (snd (get_order_book gw pair h)) = [orderbook_request pair].
Proof. apply make_request_sends. Qed.

Lemma get_open_orders_sends (pair : option string) (h : trace F) :
  requests (snd (get_open_orders gw pair h)) = [listing_request pair].
Proof. apply make_request_sends. Qed.

Lemma asked_bind {A B} (m : Script F A) (k : A -> Script F B) (h : trace F) :
  asked (sbind m k) h
  = asked m h ++ match fst (m h) with
                 | Ok a => asked (k a) (h ++ events (snd (m h)))
                 | _ => []
                 end.
Proof.
  unfold asked, sbind. destruct (m h) as [[a | e |] os]; cbn [fst snd];
    try (now rewrite app_nil_r).
  destruct (k a (h ++ events os)) as [r os']. cbn [snd].
  now rewrite events_app, requests_app.
Qed.

Lemma asked_print_bind {B} (line : list (piece F)) (k : unit -> Script F B)
      (h : trace F) :
  asked (sbind (print line) k) h = asked (k tt) h.
Proof. rewrite asked_bind. cbn. now rewrite app_nil_r. Qed.

Lemma asked_eval_bind {A B} (r : outcome A) (k : A -> Script F B)
      (h : trace F) :
  asked (sbind (eval r) k) h
  = match r with Ok a => asked (k a) h | _ => [] end.
Proof. rewrite asked_bind. cbn. destruct r; now rewrite ?app_nil_r. Qed.

Lemma asked_call_bind {A B} (m : M F A) (k : A -> Script F B) (h : trace F) :
  asked (sbind (call m) k) h
  = requests (snd (m h)) ++ match fst (m h) with
                            | Ok a => asked (k a) (h ++ snd (m h))
                            | _ => []
                            end.
Proof.
  rewrite asked_bind. unfold asked, call.
  destruct (m h) as [r es]. cbn [fst snd]. now rewrite events_did.
Qed.

Lemma asked_call {A} (m : M F A) (h : trace F) :
  asked (call m) h = requests (snd (m h)).
Proof. unfold asked, call. destruct (m h). cbn. now rewrite events_did. Qed.

Lemma mute_print (line : list (piece F)) : mute (print line).
Proof. intros h. reflexivity. Qed.

Lemma mute_eval {A} (r : outcome A) : mute (eval r : Script F A).
Proof. intros h. reflexivity. Qed.

Lemma mute_ret {A} (a : A) : mute (sret a : Script F A).
Proof. intros h. reflexivity. Qed.

Lemma mute_bind {A B} (m : Script F A) (k : A -> Script F B) :
  mute m -> (forall a, mute (k a)) -> mute (sbind m k).
Proof.
  intros Hm Hk h. unfold sbind. specialize (Hm h).
  destruct (m h) as [[a | e |] os]; cbn [snd] in *; try exact Hm.
  specialize (Hk a (h ++ events os)).
  destruct (k a (h ++ events os)) as [r os']. cbn [snd] in *.
  now rewrite events_app, Hm, Hk.
Qed.

Lemma asked_mute {A} (m : Script F A) (h : trace F) :
  mute m -> asked m h = [].
Proof. intros Hm. unfold asked. now rewrite Hm. Qed.

Lemma asked_mute_bind {A B} (m : Script F A) (k : A -> Script F B)
      (h : trace F) :
  mute m ->
  asked (sbind m k) h
  = match fst (m h) with Ok a => asked (k a) h | _ => [] end.
Proof.
  intros Hm. rewrite asked_bind, (asked_mute m h Hm), Hm.
  now rewrite app_nil_r.
Qed.

Lemma sfst_bind {A B} (m : Script F A) (k : A -> Script F B) (h : trace F) :
  fst (sbind m k h)
  = match fst (m h) with
    | Ok a => fst (k a (h ++ events (snd (m h))))
    | Raise e => Raise e
    | Running => Running
    end.
Proof.
  unfold sbind. destruct (m h) as [[a | e |] os]; cbn; try reflexivity.
  now destruct (k a (h ++ events os)).
Qed.

Lemma sbind_ok {A B} (m : Script F A) (k : A -> Script F B)
      (h : trace F) (os : list (out F)) (a : A) :
  m h = (Ok a, os) ->
  sbind m k h = (fst (k a (h ++ events os)), os ++ snd (k a (h ++ events os))).
Proof.
  intros Hm. unfold sbind. rewrite Hm. now destruct (k a (h ++ events os)).
Qed.

Lemma sfst_print_bind {B} (line : list (piece F)) (k : unit -> Script F B)
      (h : trace F) :
  fst (sbind (print line) k h) = fst (k tt h).
Proof. rewrite sfst_bind. cbn. now rewrite app_nil_r. Qed.

Lemma sfst_eval_bind {A B} (r : outcome A) (k : A -> Script F B)
      (h : trace F) :
  fst (sbind (eval r) k h)
  = match r with
    | Ok a => fst (k a h)
    | Raise e => Raise e
    | Running => Running
    end.
Proof. rewrite sfst_bind. cbn. destruct r; now rewrite ?app_nil_r. Qed.

Lemma sfst_call_bind {A B} (m : M F A) (k : A -> Script F B) (h : trace F) :
  fst (sbind (call m) k h)
  = match fst (m h) with
    | Ok a => fst (k a (h ++ snd (m h)))
    | Raise e => Raise e
    | Running => Running
    end.
Proof.
  rewrite sfst_bind. unfold call. destruct (m h) as [r es]. cbn [fst snd].
  now rewrite events_did.
Qed.

Lemma sfst_mute_bind {A B} (m : Script F A) (k : A -> Script F B)
      (h : trace F) :
  mute m ->
  fst (sbind m k h)
  = match fst (m h) with
    | Ok a => fst (k a h)
    | Raise e => Raise e
    | Running => Running
    end.
Proof. intros Hm. rewrite sfst_bind, Hm. now rewrite app_nil_r. Qed.

End Asking.

Ltac hush :=
  repeat match goal with
         | |- mute (sbind _ _) => apply mute_bind; [| intros ?]
         | |- mute (print _) => apply mute_print
         | |- mute (eval _) => apply mute_eval
         | |- mute (sret _) => apply mute_ret
         | |- mute (if ?c then _ else _) => destruct c
         end.

Ltac on_outcome :=
  match goal with
  | |- context [match fst ?r with Ok _ => _ | _ => _ end] => destruct (fst r)
  end.

Section Diagnostics.

Context {F : Type} `{PyFloat F}.
Variable cfg : config F.
Variable gw : gateway F.
Variable slice_of_dict : exn.

Lemma print_levels_mute (levels : list (pyval F)) :
  mute (print_levels levels).
Proof.
  induction levels as [| level rest IH]; cbn [print_levels]; hush.
  exact IH.
Qed.

Lemma print_book_mute (order_book : pyval F) (top : nat) :
  mute (print_book slice_of_dict order_book top).
Proof. unfold print_book. hush; apply print_levels_mute. Qed.

Lemma print_orders_mute (orders : list (pyval F)) :
  mute (print_orders orders).
Proof.
  induction orders as [| order rest IH]; cbn [print_orders]; hush.
  exact IH.
Qed.

Lemma print_header_mute (title : string) :
  mute (print_header title : Script F unit).
Proof. unfold print_header. hush. Qed.

Lemma print_header_ok (title : string) (h : trace F) :
  fst (print_header title h) = Ok tt.
Proof. reflexivity. Qed.

(** The ticker and then the order book, unless an exception came in
    between. *)
Lemma test_market_data_asks (pair : string) (h : trace F) :
  asked (test_market_data cfg gw slice_of_dict pair) h
  = [ticker_request pair; orderbook_request pair]
  \/ (asked (test_market_data cfg gw slice_of_dict pair) h
      = [ticker_request pair]
      /\ fst (test_market_data cfg gw slice_of_dict pair h) <> Ok tt).
Proof.
  unfold test_market_data.
  rewrite asked_mute_bind, sfst_mute_bind by apply print_header_mute.
  rewrite print_header_ok.
  rewrite asked_print_bind, sfst_print_bind, asked_call_bind, sfst_call_bind.
  rewrite get_ticker_sends.
  destruct (fst (get_ticker gw pair h)) as [ticker | e |];
    [| right; split; [reflexivity | discriminate] ..].
  rewrite asked_mute_bind, sfst_mute_bind by hush.
  on_outcome; [| right; split; [reflexivity | discriminate] ..].
  rewrite asked_print_bind, asked_call_bind, get_order_book_sends.
  left. cbn [app]. do 2 f_equal.
  on_outcome; [| reflexivity ..].
  apply asked_mute. hush. apply print_book_mute.
Qed.

(** The balances and then the ticker, unless the balance request
    raised. *)
Lemma test_order_sizing_asks (pair : string) (h : trace F) :
  asked (test_order_sizing cfg gw pair) h
  = [accounts_request; ticker_request pair]
  \/ (asked (test_order_sizing cfg gw pair) h = [accounts_request]
      /\ fst (test_order_sizing cfg gw pair h) <> Ok tt).
Proof.
  unfold test_order_sizing.
  rewrite asked_mute_bind, sfst_mute_bind by apply print_header_mute.
  rewrite print_header_ok.
  rewrite asked_call_bind, sfst_call_bind, get_balances_sends.
  destruct (fst (get_balances gw h)) as [balances | e |];
    [| right; split; [reflexivity | discriminate] ..].
  rewrite asked_call_bind, get_ticker_sends.
  left. cbn [app]. do 2 f_equal.
  on_outcome; [| reflexivity ..].
  apply asked_mute. hush.
Qed.

Lemma test_open_orders_asks (pair : option string) (h : trace F) :
  asked (test_open_orders gw pair) h = [listing_request pair].
Proof.
  unfold test_open_orders.
  rewrite asked_mute_bind by apply print_header_mute.
  assert (Hhead : forall title, fst (print_header title h) = Ok tt)
    by reflexivity.
  rewrite Hhead.
  rewrite asked_call_bind.
  rewrite get_open_orders_sends.
  match goal with
  | |- [?x] ++ ?l = _ => assert (Hl : l = []); [| now rewrite Hl]
  end.
  on_outcome; [| reflexivity ..].
  apply asked_mute. hush. apply print_orders_mute.
Qed.

End Diagnostics.

Section Demo.

Context {F : Type} `{PyFloat F}.
Variable cfg : config F.
Variable gw : gateway F.
Variable slice_of_dict : exn.

Lemma run_demo_asks (h : trace F) :
  (exists n : nat, asked (run_demo cfg gw slice_of_dict) h = firstn n demo_book)
  \/ (exists balances accounts account total ticker q,
         fst (get_balances gw h) = Ok balances
         /\ py_iter balances = Ok accounts
         /\ first_account accounts "XBT" = Ok account
         /\ float_of account "balance" = Ok total
         /\ fltb (fdec 1 (-3)) total = true
         /\ fst (get_ticker gw "XBTZAR" (h ++ snd (get_balances gw h)))
            = Ok ticker
         /\ get_market_making_prices cfg ticker = Ok q
         /\ asked (run_demo cfg gw slice_of_dict) h
            = demo_book
                ++ [order_request cfg "XBTZAR" "ASK" (fdec 1 (-3)) (ask q)]).
Proof.
  unfold run_demo. cbv zeta. rewrite !asked_print_bind, asked_call_bind.
  rewrite get_balances_sends.
  destruct (fst (get_balances gw h)) as [balances | e |] eqn:Hbalances;
    [| left; now exists 1%nat ..].
  destruct (negb (truthy balances));
    [left; exists 1%nat; now rewrite asked_mute by apply mute_print |].
  rewrite asked_eval_bind.
  destruct (py_iter balances) as [accounts | e |] eqn:Haccounts;
    [| left; now exists 1%nat ..].
  cbn [obind].
  destruct (first_account accounts "XBT") as [base | e |] eqn:Hbase;
    [| left; now exists 1%nat ..].
  rewrite asked_eval_bind.
  destruct (first_account accounts "ZAR") as [quote | e |];
    [| left; now exists 1%nat ..].
  rewrite asked_mute_bind by hush.
  on_outcome; [| left; now exists 1%nat ..].
  rewrite asked_print_bind, asked_call_bind.
  rewrite get_ticker_sends.
  destruct (fst (get_ticker gw "XBTZAR" _)) as [ticker | e |] eqn:Hticker;
    [| left; now exists 2%nat ..].
  destruct (negb (truthy ticker));
    [left; exists 2%nat; now rewrite asked_mute by apply mute_print |].
  do 3 (rewrite asked_eval_bind;
        match goal with
        | |- context [match ?r with Ok _ => _ | _ => _ end] =>
            destruct r; [| left; now exists 2%nat ..]
        end;
        rewrite asked_print_bind).
  rewrite asked_eval_bind.
  destruct (get_market_making_prices cfg ticker) as [q | e |] eqn:Hq;
    [| left; now exists 2%nat ..].
  rewrite !asked_print_bind, asked_call_bind.
  rewrite get_order_book_sends.
  destruct (fst (get_order_book gw "XBTZAR" _)) as [order_book | e |];
    [| left; now exists 3%nat ..].
  rewrite asked_print_bind.
  rewrite asked_mute_bind by (hush; apply print_book_mute).
  on_outcome; [| left; now exists 3%nat ..].
  rewrite asked_print_bind, asked_eval_bind.
  destruct (truthy base) eqn:Htruthy;
    [| left; exists 3%nat; now rewrite asked_mute by hush].
  destruct (float_of base "balance") as [total | e |] eqn:Htotal;
    [| left; now exists 3%nat ..].
  cbn [obind].
  destruct (fltb (fdec 1 (-3)) total) eqn:Henough;
    [| left; exists 3%nat; now rewrite asked_mute by hush].
  right. exists balances, accounts, base, total, ticker, q.
  repeat (split; [first [assumption | reflexivity] |]).
  rewrite asked_print_bind, asked_call_bind, create_order_sends_once.
  unfold demo_book. cbn [app]. do 4 f_equal.
  on_outcome; [| reflexivity ..].
  apply asked_mute. hush.
Qed.

(** The lines about the two balances print whenever the balances they
    show read as numbers. *)
Lemma balance_lines_print (base quote : pyval F) (h : trace F) :
  (truthy base && truthy quote = true ->
   exists t t', float_of base "balance" = Ok t
                /\ float_of quote "balance" = Ok t') ->
  fst ((if truthy base && truthy quote
        then total <- eval (float_of base "balance") ;;
             print [Lit "XBT"; Lit " Balance: "; Num total] ;;
             total <- eval (float_of quote "balance") ;;
             print [Lit "ZAR"; Lit " Balance: "; Num total]
        else sret tt)%script h) = Ok tt.
Proof.
  intros Hread. destruct (truthy base && truthy quote); [| reflexivity].
  destruct (Hread eq_refl) as (t & t' & Ht & Ht').
  unfold sbind, eval, print. rewrite Ht, Ht'. reflexivity.
Qed.

(** Up to the ticker: balances that came back and can be searched. *)
Lemma run_demo_to_ticker (h es1 : trace F) (balances : pyval F)
      (accounts : list (pyval F)) (base quote : pyval F) :
  get_balances gw h = (Ok balances, es1) ->
  truthy balances = true ->
  py_iter balances = Ok accounts ->
  first_account accounts "XBT" = Ok base ->
  first_account accounts "ZAR" = Ok quote ->
  (truthy base && truthy quote = true ->
   exists t t', float_of base "balance" = Ok t
                /\ float_of quote "balance" = Ok t') ->
  forall (ticker : pyval F) (es2 : trace F),
    get_ticker gw "XBTZAR" (h ++ es1) = (Ok ticker, es2) ->
    (truthy ticker = false ->
     asked (run_demo cfg gw slice_of_dict) h
     = [accounts_request; ticker_request "XBTZAR"]
     /\ fst (run_demo cfg gw slice_of_dict h) = Ok tt)
    /\ (forall (d : list (string * pyval F)) (q : quotes F)
               (book : pyval F) (es3 : trace F) (total : F),
           ticker = PDict d -> d <> [] ->
           get_market_making_prices cfg ticker = Ok q ->
           get_order_book gw "XBTZAR" ((h ++ es1) ++ es2) = (Ok book, es3) ->
           truthy book = false ->
           truthy base = true ->
           float_of base "balance" = Ok total ->
           fltb (fdec 1 (-3)) total = true ->
           asked (run_demo cfg gw slice_of_dict) h
           = demo_book ++ [order_request cfg "XBTZAR" "ASK" (fdec 1 (-3))
                                         (ask q)]).
Proof.
  intros Hbalances Hfunded Haccounts Hbase Hquote Hread ticker es2 Hticker.
  pose proof (get_balances_sends gw h) as Hfirst.
  pose proof (get_ticker_sends gw "XBTZAR" (h ++ es1)) as Hsecond.
  rewrite Hbalances in Hfirst. rewrite Hticker in Hsecond.
  cbn [snd] in Hfirst, Hsecond.
  assert (Hstart :
            forall (A : Type) (k : pyval F -> Script F A),
              asked (sbind (call (get_balances gw)) k) h
              = [accounts_request] ++ asked (k balances) (h ++ es1)
              /\ fst (sbind (call (get_balances gw)) k h)
                 = fst (k balances (h ++ es1))).
  { intros A k. rewrite asked_call_bind, sfst_call_bind, Hbalances.
    cbn [fst snd]. now rewrite Hfirst. }
  assert (Hnext :
            forall (A : Type) (k : pyval F -> Script F A),
              asked (sbind (call (get_ticker gw "XBTZAR")) k) (h ++ es1)
              = [ticker_request "XBTZAR"]
                  ++ asked (k ticker) ((h ++ es1) ++ es2)
              /\ fst (sbind (call (get_ticker gw "XBTZAR")) k (h ++ es1))
                 = fst (k ticker ((h ++ es1) ++ es2))).
  { intros A k. rewrite asked_call_bind, sfst_call_bind, Hticker.
    cbn [fst snd]. now rewrite Hsecond. }
  unfold run_demo. cbv zeta.
  rewrite !asked_print_bind, !sfst_print_bind.
  rewrite (proj1 (Hstart _ _)), (proj2 (Hstart _ _)), Hfunded. cbn [negb].
  rewrite !asked_eval_bind, !sfst_eval_bind, Haccounts. cbn [obind].
  rewrite Hbase.
  rewrite !asked_eval_bind, !sfst_eval_bind, Hquote.
  rewrite asked_mute_bind, sfst_mute_bind by hush.
  rewrite (balance_lines_print base quote (h ++ es1) Hread).
  rewrite asked_print_bind, sfst_print_bind.
  rewrite (proj1 (Hnext _ _)), (proj2 (Hnext _ _)).
  split.
  - intros Hempty. rewrite Hempty. cbn [negb]. split; [| reflexivity].
    now rewrite asked_mute by apply mute_print.
  - intros d q book es3 total -> Hd Hq Hbook Hnone Hheld Htotal Henough.
    destruct d as [| kv d]; [contradiction |]. cbn [truthy negb].
    cbn [py_get]. rewrite !asked_eval_bind, !asked_print_bind.
    rewrite !asked_eval_bind, !asked_print_bind.
    rewrite !asked_eval_bind, !asked_print_bind.
    rewrite asked_eval_bind, Hq, !asked_print_bind.
    rewrite asked_call_bind, Hbook. cbn [fst snd].
    pose proof (get_order_book_sends gw "XBTZAR" ((h ++ es1) ++ es2))
      as Hthird.
    rewrite Hbook in Hthird. cbn [snd] in Hthird. rewrite Hthird.
    rewrite asked_print_bind, Hnone.
    rewrite asked_mute_bind by apply mute_ret.
    cbn [fst sret].
    rewrite asked_print_bind, asked_eval_bind, Hheld, Htotal. cbn [obind].
    rewrite Henough.
    rewrite asked_print_bind, asked_call_bind, create_order_sends_once.
    unfold demo_book. cbn [app]. do 4 f_equal.
    on_outcome; [| reflexivity ..].
    apply asked_mute. hush.
Qed.

Lemma run_demo_without_balances (h es1 : trace F) (balances : pyval F) :
  get_balances gw h = (Ok balances, es1) ->
  truthy balances = false ->
  asked (run_demo cfg gw slice_of_dict) h = [accounts_request]
  /\ fst (run_demo cfg gw slice_of_dict h) = Ok tt.
Proof.
  intros Hbalances Hempty.
  pose proof (get_balances_sends gw h) as Hfirst.
  rewrite Hbalances in Hfirst. cbn [snd] in Hfirst.
  unfold run_demo. cbv zeta.
  rewrite !asked_print_bind, !sfst_print_bind.
  rewrite asked_call_bind, sfst_call_bind, Hbalances. cbn [fst snd].
  rewrite Hfirst, Hempty. cbn [negb].
  split; [| reflexivity]. now rewrite asked_mute by apply mute_print.
Qed.

End Demo.

(** [run_demo] sends at most four requests, in this order: the balances,
    the XBTZAR ticker, the XBTZAR order book, and one post-only ASK of
    0.001 on XBTZAR at the ask quote computed from the ticker it
    fetched; the order is sent only if the balance field of the first
    XBT account (its total, whatever is reserved of it) exceeds 0.001.
    Balances that are refused or empty end the demo after the first
    request and a ticker that is refused or empty ends it after the
    second, both without an exception.  An order book that is refused
    or empty does not end it: once the balances and the ticker have been
    read and the XBT total exceeds 0.001, the order is placed all the
    same.  The demo never lists or cancels an order. *)
Theorem demo_places_at_most_one_order :
  forall (F : Type) (HF : PyFloat F) (cfg : config F) (gw : gateway F)
         (slice_of_dict : exn) (h : trace F),
    ((exists n : nat,
         asked (run_demo cfg gw slice_of_dict) h = firstn n demo_book)
     \/ (exists balances accounts account total ticker q,
            fst (get_balances gw h) = Ok balances
            /\ py_iter balances = Ok accounts
            /\ first_account accounts "XBT" = Ok account
            /\ float_of account "balance" = Ok total
            /\ fltb (fdec 1 (-3)) total = true
            /\ fst (get_ticker gw "XBTZAR" (h ++ snd (get_balances gw h)))
               = Ok ticker
            /\ get_market_making_prices cfg ticker = Ok q
            /\ asked (run_demo cfg gw slice_of_dict) h
               = demo_book
                   ++ [order_request cfg "XBTZAR" "ASK" (fdec 1 (-3))
                                     (ask q)]))
    /\ (forall (balances : pyval F) (es1 : trace F),
           get_balances gw h = (Ok balances, es1) ->
           truthy balances = false ->
           asked (run_demo cfg gw slice_of_dict) h = [accounts_request]
           /\ fst (run_demo cfg gw slice_of_dict h) = Ok tt)
    /\ (forall (balances : pyval F) (es1 : trace F)
               (accounts : list (pyval F)) (base quote : pyval F),
           get_balances gw h = (Ok balances, es1) ->
           truthy balances = true ->
           py_iter balances = Ok accounts ->
           first_account accounts "XBT" = Ok base ->
           first_account accounts "ZAR" = Ok quote ->
           (truthy base && truthy quote = true ->
            exists t t', float_of base "balance" = Ok t
                         /\ float_of quote "balance" = Ok t') ->
           forall (ticker : pyval F) (es2 : trace F),
             get_ticker gw "XBTZAR" (h ++ es1) = (Ok ticker, es2) ->
             (truthy ticker = false ->
              asked (run_demo cfg gw slice_of_dict) h
              = [accounts_request; ticker_request "XBTZAR"]
              /\ fst (run_demo cfg gw slice_of_dict h) = Ok tt)
             /\ (forall (d : list (string * pyval F)) (q : quotes F)
                        (book : pyval F) (es3 : trace F) (total : F),
                    ticker = PDict d -> d <> [] ->
                    get_market_making_prices cfg ticker = Ok q ->
                    get_order_book gw "XBTZAR" ((h ++ es1) ++ es2)
                    = (Ok book, es3) ->
                    truthy book = false ->
                    truthy base = true ->
                    float_of base "balance" = Ok total ->
                    fltb (fdec 1 (-3)) total = true ->
                    asked (run_demo cfg gw slice_of_dict) h
                    = demo_book
                        ++ [order_request cfg "XBTZAR" "ASK" (fdec 1 (-3))
                                          (ask q)])).
Proof.
  intros F HF cfg gw slice_of_dict h. split; [| split].
  - apply run_demo_asks.
  - intros balances es1. apply run_demo_without_balances.
  - intros balances es1 accounts base quote. apply run_demo_to_ticker.
Qed.

Lemma demo_places_at_most_one_order_witness :
  let gw := Venue.healthy in
  let xbt : pyval spec_float :=
    account_of "XBT" (PStr "0.05") (PStr "0.00") in
  let zar : pyval spec_float :=
    account_of "ZAR" (PStr "10000.00") (PStr "0.00") in
  let q := {| bid := B64.dec 995995 0; ask := B64.dec 1006005 0 |} in
  get_order_book gw "XBTZAR"
                 [EvRequest accounts_request;
                  EvRequest (ticker_request "XBTZAR")]
  = (Ok PNone, [EvRequest (orderbook_request "XBTZAR");
                EvLog (LogApiError 404 "not found")])
  /\ asked (run_demo Venue.cfg gw TypeError) []
     = demo_book ++ [order_request Venue.cfg "XBTZAR" "ASK" (B64.dec 1 (-3))
                                   (ask q)]
  /\ (asked (run_demo Venue.cfg Scripted.refusing TypeError) []
      = [accounts_request]
      /\ fst (run_demo Venue.cfg Scripted.refusing TypeError []) = Ok tt).
Proof.
  intros gw xbt zar q.
  assert (Hread : truthy xbt && truthy zar = true ->
                  exists t t', float_of xbt "balance" = Ok t
                               /\ float_of zar "balance" = Ok t').
  { intros _. exists (B64.dec 5 (-2)), (B64.dec 10000 0).
    split; vm_compute; reflexivity. }
  assert (Hq : get_market_making_prices Venue.cfg Venue.ticker = Ok q)
    by (vm_compute; reflexivity).
  assert (Hd : [("bid", PStr "1000000.00"); ("ask", PStr "1002000.00")]
               <> @nil (string * pyval spec_float)) by discriminate.
  assert (Htotal : float_of xbt "balance" = Ok (B64.dec 5 (-2)))
    by (vm_compute; reflexivity).
  destruct (demo_places_at_most_one_order
              _ _ Venue.cfg gw TypeError []) as (_ & _ & Hrun).
  destruct (Hrun Venue.accounts [EvRequest accounts_request]
                 [xbt; zar; account_of "ETH" (PStr "1.50") (PStr "0.50")]
                 xbt zar eq_refl eq_refl eq_refl eq_refl eq_refl Hread
                 Venue.ticker [EvRequest (ticker_request "XBTZAR")] eq_refl)
    as [_ Hplaced].
  destruct (demo_places_at_most_one_order
              _ _ Venue.cfg Scripted.refusing TypeError [])
    as (_ & Hstop & _).
  split; [reflexivity | split].
  - exact (Hplaced [("bid", PStr "1000000.00"); ("ask", PStr "1002000.00")]
                   q PNone
                   [EvRequest (orderbook_request "XBTZAR");
                    EvLog (LogApiError 404 "not found")]
                   (B64.dec 5 (-2)) eq_refl Hd Hq eq_refl eq_refl eq_refl
                   Htotal eq_refl).
  - exact (Hstop PNone
                 [EvRequest accounts_request;
                  EvLog (LogApiError 503 "unavailable")]
                 eq_refl eq_refl).
Defined.

(** With all of the bitcoin reserved by resting orders the demo still
    sends its sell order. *)
Example demo_offers_reserved_bitcoin :
  let gw := Desk.open_for Desk.accounts Venue.ticker in
  calculate_order_size Venue.cfg "XBTZAR" Desk.accounts
                       (B64.dec 1006005 0) "ASK"
  = Ok (B64.dec 0 0)
  /\ asked (run_demo Venue.cfg gw TypeError) []
     = demo_book ++ [order_request Venue.cfg "XBTZAR" "ASK" (B64.dec 1 (-3))
                                   (B64.dec 1006005 0)]
  /\ fst (run_demo Venue.cfg gw TypeError []) = Ok tt.
Proof. vm_compute. repeat split. Qed.

(** The three diagnostics that take no sorting are read-only, and each
    makes all its requests unless an exception ends it first: the
    market-data check asks for the ticker and then for the order book of
    its pair (the order book also when the ticker was refused), the
    sizing check for the balances and then for the ticker (the ticker
    also when the balances were refused), the open-orders check for the
    listing; a check that has sent less has not returned normally.
    Every request is a GET: none creates or cancels an order. *)
Theorem diagnostics_are_read_only :
  forall (F : Type) (HF : PyFloat F) (cfg : config F) (gw : gateway F)
         (slice_of_dict : exn) (pair : string) (filter : option string)
         (h : trace F),
    let market := asked (test_market_data cfg gw slice_of_dict pair) h in
    let sizing := asked (test_order_sizing cfg gw pair) h in
    let listing := asked (test_open_orders gw filter) h in
    (market = [ticker_request pair; orderbook_request pair]
     \/ (market = [ticker_request pair]
         /\ fst (test_market_data cfg gw slice_of_dict pair h) <> Ok tt))
    /\ (sizing = [accounts_request; ticker_request pair]
        \/ (sizing = [accounts_request]
            /\ fst (test_order_sizing cfg gw pair h) <> Ok tt))
    /\ listing = [listing_request filter]
    /\ Forall (fun r => method r = "GET") (market ++ sizing ++ listing).
Proof.
  intros F HF cfg gw slice_of_dict pair filter h market sizing listing.
  pose proof (test_market_data_asks cfg gw slice_of_dict pair h) as Hm.
  pose proof (test_order_sizing_asks cfg gw pair h) as Hs.
  pose proof (test_open_orders_asks gw filter h) as Hl.
  fold market in Hm. fold sizing in Hs. fold listing in Hl.
  split; [exact Hm | split; [exact Hs | split; [exact Hl |]]].
  rewrite Hl.
  destruct Hm as [-> | [-> _]]; destruct Hs as [-> | [-> _]];
    repeat constructor.
Qed.

(** A venue that refuses the ticker still gets the order-book request,
    and one that refuses the balances still gets the ticker request. *)
Example refused_diagnostics_go_on :
  asked (test_market_data Venue.cfg Scripted.refusing TypeError "XBTZAR") []
  = [ticker_request "XBTZAR"; orderbook_request "XBTZAR"]
  /\ asked (test_order_sizing Venue.cfg Scripted.refusing "XBTZAR") []
     = [accounts_request; ticker_request "XBTZAR"].
Proof. vm_compute. repeat split. Qed.

Section Sizing.

Context {F : Type} `{PyFloat F}.
Context {HL : PyFloatLaws F}.
Variable cfg : config F.
Variable gw : gateway F.

Lemma never_bind {A B} (e : exn) (m : Script F A) (k : A -> Script F B) :
  never_raises e m -> (forall a, never_raises e (k a)) ->
  never_raises e (sbind m k).
Proof.
  intros Hm Hk h. rewrite sfst_bind. specialize (Hm h).
  destruct (fst (m h)) as [a | e' |]; [apply Hk | | discriminate].
  intros [= ->]. now apply Hm.
Qed.

Lemma never_print (e : exn) (line : list (piece F)) :
  never_raises e (print line).
Proof. intros h. discriminate. Qed.

Lemma never_ret {A} (e : exn) (a : A) : never_raises e (sret a : Script F A).
Proof. intros h. discriminate. Qed.

Lemma never_eval {A} (e : exn) (r : outcome A) :
  r <> Raise e -> never_raises e (eval r : Script F A).
Proof. intros Hr h. exact Hr. Qed.

Lemma never_print_header (e : exn) (title : string) :
  never_raises e (print_header title : Script F unit).
Proof. intros h. discriminate. Qed.

Lemma never_call_request (e : exn) meth endp params data :
  (forall h r, send gw h r <> Failed e) ->
  e <> JSONDecodeError ->
  never_raises e (call (make_request gw meth endp params data)).
Proof.
  intros Hgw He h. unfold call.
  pose proof (make_request_cases gw meth endp params data h) as Hc.
  cbv zeta in Hc.
  destruct (send gw h _) as [resp | e'] eqn:Hsend.
  - destruct (status_ok (status_code resp)); rewrite Hc; cbn; [| discriminate].
    unfold response_json. destruct (json resp); [discriminate |].
    intros [= <-]. now apply He.
  - rewrite Hc. cbn. intros [= ->]. exact (Hgw _ _ Hsend).
Qed.

Lemma to_float_no_division (v : pyval F) :
  to_float v <> Raise ZeroDivisionError.
Proof.
  destruct v as [| b | z | x | s | l | d]; cbn; try discriminate.
  - destruct (fis_inf (fdec z 0)); discriminate.
  - destruct (Lex.parse s) as [l |]; [| discriminate].
    destruct (of_literal l); discriminate.
Qed.

Lemma py_getitem_no_division (v : pyval F) (k : string) :
  py_getitem v k <> Raise ZeroDivisionError.
Proof.
  destruct v as [| b | z | x | s | l | d]; cbn; try discriminate.
  destruct (lookup k d); discriminate.
Qed.

Lemma float_of_no_division (v : pyval F) (key : string) :
  float_of v key <> Raise ZeroDivisionError.
Proof.
  unfold float_of. destruct (py_get v key (PInt 0)) as [x | e |] eqn:Hget;
    cbn [obind]; [apply to_float_no_division | | discriminate].
  destruct v; cbn in Hget; try discriminate; injection Hget as <-;
    discriminate.
Qed.

Lemma obind_no_division {A B} (r : outcome A) (k : A -> outcome B) :
  r <> Raise ZeroDivisionError ->
  (forall a, k a <> Raise ZeroDivisionError) ->
  obind r k <> Raise ZeroDivisionError.
Proof.
  intros Hr Hk. destruct r; cbn; [apply Hk | | discriminate].
  intros [= ->]. now apply Hr.
Qed.

Lemma find_account_no_division (accounts : list (pyval F)) (asset : string) :
  find_account accounts asset <> Raise ZeroDivisionError.
Proof.
  induction accounts as [| account rest IH]; cbn [find_account];
    [discriminate |].
  apply obind_no_division; [apply py_getitem_no_division | intros name].
  destruct (py_eq_str name asset); [| exact IH].
  repeat (apply obind_no_division;
          [first [apply py_getitem_no_division | apply to_float_no_division]
          | intros ?]).
  discriminate.
Qed.

Lemma get_asset_balance_no_division (balances : pyval F) (asset : string) :
  get_asset_balance balances asset <> Raise ZeroDivisionError.
Proof.
  unfold get_asset_balance. apply obind_no_division.
  - destruct balances; cbn; discriminate.
  - intros accounts. apply find_account_no_division.
Qed.

Lemma py_truediv_ok (x y : F) :
  fis_zero y = false -> py_truediv x y = Ok (fdiv x y).
Proof. intros Hy. unfold py_truediv. now rewrite Hy. Qed.

Lemma sizing_no_division (pair side : string) (balances : pyval F)
      (price : F) :
  fis_zero price = false ->
  calculate_order_size cfg pair balances price side
  <> Raise ZeroDivisionError.
Proof.
  intros Hprice. unfold calculate_order_size.
  destruct (String.eqb side "BUY");
    (apply obind_no_division;
     [apply get_asset_balance_no_division | intros held]);
    rewrite (py_truediv_ok _ _ hundred_nonzero); cbn [obind];
    [| discriminate].
  rewrite (py_truediv_ok _ _ Hprice). discriminate.
Qed.

Lemma test_order_sizing_no_division (pair : string) :
  (forall h r, send gw h r <> Failed ZeroDivisionError) ->
  never_raises ZeroDivisionError (test_order_sizing cfg gw pair).
Proof.
  intros Hgw. unfold test_order_sizing, get_balances, get_ticker.
  apply never_bind; [apply never_print_header | intros _].
  apply never_bind;
    [apply never_call_request; [exact Hgw | discriminate] | intros balances].
  apply never_bind;
    [apply never_call_request; [exact Hgw | discriminate] | intros ticker].
  destruct (truthy balances && truthy ticker); [| apply never_ret].
  apply never_bind;
    [apply never_eval, float_of_no_division | intros bid_price].
  apply never_bind;
    [apply never_eval, float_of_no_division | intros ask_price].
  apply never_bind.
  - apply never_eval.
    destruct (negb (fis_zero bid_price) && negb (fis_zero ask_price));
      [| discriminate].
    rewrite (py_truediv_ok _ _ two_nonzero). discriminate.
  - intros mid_price.
    destruct (fltb (fdec 0 0) mid_price) eqn:Hmid; [| apply never_print].
    apply positive_nonzero in Hmid.
    apply never_bind;
      [apply never_eval, sizing_no_division, Hmid | intros buy_size].
    apply never_bind; [apply never_print | intros _].
    apply never_bind;
      [apply never_eval, sizing_no_division, Hmid | intros sell_size].
    apply never_print.
Qed.

End Sizing.

(** The sizing check never divides by zero: it sizes only at a mid
    price that compared greater than zero, so that, unless the HTTP
    client itself raises one, no [ZeroDivisionError] leaves
    [test_order_sizing], whatever balances and ticker the venue
    sends. *)
Theorem sizing_check_never_divides_by_zero :
  forall (F : Type) (HF : PyFloat F) (HL : PyFloatLaws F) (cfg : config F)
         (gw : gateway F) (pair : string) (h : trace F),
    (forall h' r, send gw h' r <> Failed ZeroDivisionError) ->
    fst (test_order_sizing cfg gw pair h) <> Raise ZeroDivisionError.
Proof.
  intros F HF HL cfg gw pair h Hgw.
  exact (test_order_sizing_no_division cfg gw pair Hgw h).
Qed.

Lemma sizing_check_never_divides_by_zero_witness :
  let zero := ticker_of (PStr "0") (PStr "0.00") in
  let gw := Desk.open_for Desk.accounts zero in
  (forall h' r, send gw h' r <> Failed ZeroDivisionError)
  /\ fst (place_market_making_orders Venue.cfg gw [])
     = Raise ZeroDivisionError
  /\ fst (test_order_sizing Venue.cfg gw "XBTZAR" [])
     <> Raise ZeroDivisionError.
Proof.
  intros zero gw.
  assert (Hgw : forall h' r, send gw h' r <> Failed ZeroDivisionError).
  { intros h' r. cbn.
    repeat match goal with
           | |- context [if ?c then _ else _] => destruct c
           end; discriminate. }
  split; [exact Hgw | split].
  - vm_compute. reflexivity.
  - exact (sizing_check_never_divides_by_zero
             _ _ b64_laws Venue.cfg gw "XBTZAR" [] Hgw).
Defined.

Section Tolerance.

Variable cfg : config spec_float.
Variable gw : gateway spec_float.

Lemma sizing_check_reports (pair : string) (h es1 es2 : trace spec_float)
      (balances ticker : pyval spec_float) (b a : spec_float) :
  get_balances gw h = (Ok balances, es1) ->
  truthy balances = true ->
  get_ticker gw pair (h ++ es1) = (Ok ticker, es2) ->
  truthy ticker = true ->
  float_of ticker "bid" = Ok b ->
  float_of ticker "ask" = Ok a ->
  negb (fis_zero b) && negb (fis_zero a) = false ->
  test_order_sizing cfg gw pair h
  = (Ok tt,
     header ("ORDER SIZE CALCULATION FOR " ++ pair)
       ++ map Did es1 ++ map Did es2
       ++ [Shown [Lit "Could not calculate order sizes, invalid price data"]]).
Proof.
  intros Hbalances Hfunded Hticker Hquoted Hb Ha Hzero.
  unfold test_order_sizing.
  rewrite (sbind_ok _ _ h (header ("ORDER SIZE CALCULATION FOR " ++ pair)) tt
                    eq_refl).
  cbn [events header]. rewrite app_nil_r.
  assert (Hfirst : call (get_balances gw) h = (Ok balances, map Did es1))
    by (unfold call; now rewrite Hbalances).
  rewrite (sbind_ok _ _ h _ _ Hfirst), events_did.
  assert (Hsecond : call (get_ticker gw pair) (h ++ es1)
                    = (Ok ticker, map Did es2))
    by (unfold call; now rewrite Hticker).
  rewrite (sbind_ok _ _ _ _ _ Hsecond), events_did.
  rewrite Hfunded, Hquoted. cbn [andb].
  unfold sbind, eval, print. rewrite Hb, Ha, Hzero. cbn [fst snd app].
  reflexivity.
Qed.

Lemma absent_reads_zero (d : list (string * pyval spec_float))
      (key : string) (x : spec_float) :
  lookup key d = None -> float_of (PDict d) key = Ok x ->
  fis_zero x = true.
Proof.
  intros Hkey. unfold float_of. cbn [py_get obind]. rewrite Hkey.
  intros [= <-]. reflexivity.
Qed.

End Tolerance.

(** In binary64: a ticker without its bid or without its ask is a
    [KeyError] to the bot's Quote Calculator, but not to the sizing
    check, which reads the missing price as zero and, when the other
    price reads as a number, reports invalid price data and returns
    normally, having asked for the balances and the ticker only. *)
Theorem sizing_check_tolerates_a_missing_price :
  forall (cfg : config spec_float) (gw : gateway spec_float) (pair : string)
         (h es1 es2 : trace spec_float) (balances : pyval spec_float)
         (d : list (string * pyval spec_float)) (b a : spec_float),
    get_balances gw h = (Ok balances, es1) ->
    truthy balances = true ->
    get_ticker gw pair (h ++ es1) = (Ok (PDict d), es2) ->
    d <> [] ->
    lookup "bid" d = None \/ lookup "ask" d = None ->
    float_of (PDict d) "bid" = Ok b ->
    float_of (PDict d) "ask" = Ok a ->
    test_order_sizing cfg gw pair h
    = (Ok tt,
       header ("ORDER SIZE CALCULATION FOR " ++ pair)
         ++ map Did es1 ++ map Did es2
         ++ [Shown [Lit "Could not calculate order sizes, invalid price data"]])
    /\ exists key, get_market_making_prices cfg (PDict d)
                   = Raise (KeyError key).
Proof.
  intros cfg gw pair h es1 es2 balances d b a
         Hbalances Hfunded Hticker Hd Hmissing Hb Ha.
  split.
  - apply (sizing_check_reports cfg gw pair h es1 es2 balances (PDict d) b a);
      try assumption.
    + destruct d; [contradiction | reflexivity].
    + destruct Hmissing as [Hkey | Hkey].
      * now rewrite (absent_reads_zero d "bid" b Hkey Hb).
      * rewrite (absent_reads_zero d "ask" a Hkey Ha). apply andb_false_r.
  - unfold get_market_making_prices. cbn [py_getitem].
    destruct (lookup "bid" d) as [vb |] eqn:Hbid;
      [| exists "bid"; reflexivity].
    destruct Hmissing as [Hkey | Hkey]; [discriminate |].
    unfold float_of in Hb. cbn [py_get obind] in Hb. rewrite Hbid in Hb.
    cbn [obind]. rewrite Hb. cbn [obind]. rewrite Hkey.
    exists "ask". reflexivity.
Qed.

Lemma sizing_check_tolerates_a_missing_price_witness :
  let d := [("ask", PStr "1002000.00"); ("last_trade", PStr "1001000.00")] in
  let gw := Desk.open_for Desk.accounts (PDict d) in
  let es1 := [EvRequest accounts_request] in
  let es2 := [EvRequest (ticker_request "XBTZAR")] in
  test_order_sizing Venue.cfg gw "XBTZAR" []
  = (Ok tt,
     header ("ORDER SIZE CALCULATION FOR " ++ "XBTZAR")
       ++ map Did es1 ++ map Did es2
       ++ [Shown [Lit "Could not calculate order sizes, invalid price data"]])
  /\ exists key, get_market_making_prices Venue.cfg (PDict d)
                 = Raise (KeyError key).
Proof.
  intros d gw es1 es2.
  exact (sizing_check_tolerates_a_missing_price
           Venue.cfg gw "XBTZAR" [] es1 es2 Desk.accounts d
           (B64.dec 0 0) (B64.dec 1002000 0)
           eq_refl eq_refl eq_refl
           ltac:(discriminate) (or_introl eq_refl) eq_refl eq_refl).
Defined.
